(** * framework-xxljob: the task execution pipeline, verified

    A shallow embedding of the Go package [xxljob] (log.go, middleware.go,
    trace.go, task.go and the executor) together with the properties its
    specification states about it.

    Conventions.
    - Go [int] and [time.Duration] values are [Z].  The only arithmetic the
      package performs on a caller-supplied number is [backoff *= 2] on a
      [time.Duration] (an int64); its wrap-around is written out in
      [mulDuration].  Line counters are bounded by the number of lines of a
      file and never leave the int range.
    - A Go [error] is [option error]: [None] is [nil].
    - Functions with effects pass a world [W] explicitly; a call either
      returns or panics ([outcome]).
    - A variable that a closure captures and assigns lives in the world
      ([cell]): the closure and everything else that captures it see one
      variable.
    - The file system is a finite map from paths to files; a read of a log
      file sees the file as [os.Stat] saw it.
    TimeoutMiddleware, which races a goroutine against a deadline, the
    writing side of the log and the retention sweep are not part of the
    embedding. *)

From stdpp Require Import base option list strings pretty gmap.
From Stdlib Require Import Ascii ZArith Lia.

Local Open Scope string_scope.
Local Open Scope list_scope.
Local Open Scope Z_scope.

(** ** Errors *)

(** A non-error Go value carried by [panic(v)], kept by its [%v] rendering. *)
Record anyValue := AnyValue { fmtV : string }.

(** The error values this package creates or passes on.
    [errorString] is [errors.New] / [fmt.Errorf] without [%w], and any error
    of a user handler; [wrapError p e] is [fmt.Errorf(p + "%w", e)];
    [panicError] is the package's own type of middleware.go. *)
Inductive error :=
| errorString (msg : string)
| wrapError (prefix : string) (inner : error)
| panicError (value : anyValue).

(** The [Error()] method. *)
Fixpoint errorText (e : error) : string :=
  match e with
  | errorString msg => msg
  | wrapError prefix inner => prefix +:+ errorText inner
  | panicError value => "panic: " +:+ fmtV value
  end.

(** bufio.ErrTooLong *)
Definition ErrTooLong : error := errorString "bufio.Scanner: token too long".

(** A Go pair [(value, error)] with exactly one side set. *)
Inductive goResult (A : Type) :=
| Ok (a : A)
| Err (e : error).
Arguments Ok {A} a.
Arguments Err {A} e.

(** ** log.go: the paginated log reader *)

Module Log.

Definition defaultLogPageSize : Z := 1000.
Definition maxLogFileSize : Z := 10 * 1024 * 1024.

(** [scanner.Buffer(buf, 1024*1024)]: the largest token the scanner holds. *)
Definition maxTokenSize : Z := 1024 * 1024.

Record logReadResult := LogReadResult {
  Content : string;
  ToLineNum : Z;
  IsEnd : bool
}.

(** What the file system holds under a path.  A path not in the map does
    not exist.  A regular file is read as it was when [os.Stat] looked at
    it: its size is the length of [data]. *)
Inductive fileEntry :=
| Regular (data : string)
| Unreadable (size : Z) (openErr : error)
| StatFails (statErr : error).

Definition fileSystem := gmap string fileEntry.

(** [os.Stat(path)], reduced to the size it reports: [None] is an error for
    which [os.IsNotExist] holds. *)
Definition osStat (fs : fileSystem) (path : string) : option (goResult Z) :=
  match fs !! path with
  | None => None
  | Some (Regular data) => Some (Ok (Z.of_nat (String.length data)))
  | Some (Unreadable size _) => Some (Ok size)
  | Some (StatFails e) => Some (Err e)
  end.

(** [os.Open(path)], reduced to the bytes that can be read from the file. *)
Definition osOpen (fs : fileSystem) (path : string) : goResult string :=
  match fs !! path with
  | None => Err (errorString ("open " +:+ path +:+ ": no such file or directory"))
  | Some (Regular data) => Ok data
  | Some (Unreadable _ e) => Err e
  | Some (StatFails e) => Err e
  end.

Definition LF : ascii := "010"%char.
Definition CR : ascii := "013"%char.

(** bufio.ScanLines cuts the data at every newline; [rawLines data ""] is
    the list of these pieces, newline removed.  Data left after the last
    newline is a final piece when it is not empty. *)
Fixpoint rawLines (data cur : string) : list string :=
  match data with
  | EmptyString => match cur with EmptyString => [] | _ => [cur] end
  | String c rest =>
      if Ascii.eqb c LF then cur :: rawLines rest ""
      else rawLines rest (cur +:+ String c "")
  end.

(** bufio's dropCR: one trailing carriage return is not part of the line. *)
Fixpoint dropCR (s : string) : string :=
  match s with
  | EmptyString => EmptyString
  | String c EmptyString => if Ascii.eqb c CR then EmptyString else s
  | String c rest => String c (dropCR rest)
  end.

(** A piece that does not fit the scanner's buffer makes [Scan] stop with
    [ErrTooLong]: the token size must stay below [maxTokenSize]. *)
Definition tooLong (raw : string) : bool :=
  maxTokenSize <=? Z.of_nat (String.length raw).

(** The [for scanner.Scan()] loop of readLogFileWithPagination.  [pending]
    is what the scanner has not delivered yet; the result is the final
    [lines], [lineIndex], [toLineNum] and [scanner.Err()].  The scanner is
    lazy: a piece after the [break] is never looked at. *)
Fixpoint scanLoop (pending : list string) (startLineIndex pageSize : Z)
    (lines : list string) (lineIndex toLineNum : Z)
  : list string * Z * Z * option error :=
  match pending with
  | [] => (lines, lineIndex, toLineNum, None)
  | raw :: rest =>
      if tooLong raw then (lines, lineIndex, toLineNum, Some ErrTooLong)
      else
        let lineIndex := lineIndex + 1 in
        if lineIndex <? startLineIndex then
          scanLoop rest startLineIndex pageSize lines lineIndex toLineNum
        else
          let line := dropCR raw in
          let lines := lines ++ [line] in
          let toLineNum := lineIndex in
          if pageSize <=? Z.of_nat (length lines) then
            (lines, lineIndex, toLineNum, None)
          else
            scanLoop rest startLineIndex pageSize lines lineIndex toLineNum
  end.

(** [strings.Join(lines, "\n")], plus a final newline when there is a line. *)
Definition joinLines (lines : list string) : string :=
  let content := String.concat (String LF "") lines in
  if 0 <? Z.of_nat (length lines) then content +:+ String LF "" else content.

Definition readLogFileWithPagination (fs : fileSystem) (filePath : string)
    (fromLineNum pageSize : Z) : goResult logReadResult :=
  match osStat fs filePath with
  | None => Err (errorString ("log file not found: " +:+ filePath))
  | Some (Err e) => Err (wrapError "failed to stat log file: " e)
  | Some (Ok size) =>
      if size =? 0 then
        let toLineNum := fromLineNum in
        let toLineNum := if toLineNum <? 0 then 0 else toLineNum in
        Ok (LogReadResult "" toLineNum true)
      else
        let forcePagination := maxLogFileSize <? size in
        let pageSize :=
          if forcePagination && (pageSize <=? 0) then defaultLogPageSize
          else pageSize in
        let pageSize :=
          if pageSize <=? 0 then defaultLogPageSize else pageSize in
        let startLineIndex := fromLineNum in
        let startLineIndex :=
          if startLineIndex <? 0 then 0 else startLineIndex in
        match osOpen fs filePath with
        | Err e => Err (wrapError "failed to open log file: " e)
        | Ok data =>
            match scanLoop (rawLines data "") startLineIndex pageSize
                    [] (-1) startLineIndex with
            | (_, _, _, Some e) =>
                Err (wrapError "failed to scan log file: " e)
            | (lines, lineIndex, toLineNum, None) =>
                let isEnd := Z.of_nat (length lines) <? pageSize in
                if lineIndex <? startLineIndex then
                  let toLineNum := lineIndex in
                  let toLineNum := if toLineNum <? 0 then 0 else toLineNum in
                  Ok (LogReadResult "" toLineNum true)
                else
                  Ok (LogReadResult (joinLines lines) toLineNum isEnd)
            end
        end
  end.

(** *** Vocabulary for the statements about the reader *)

(** No piece is too long for the scanner's buffer. *)
Definition allShort (raws : list string) : bool :=
  forallb (fun raw => negb (tooLong raw)) raws.

(** The lines of a file as the scanner delivers them when it reads the file
    to its end: [None] when some piece is too long for the buffer. *)
Definition fileLines (data : string) : option (list string) :=
  let raws := rawLines data "" in
  if allShort raws then Some (dropCR <$> raws) else None.

(** The page size the loop runs with. *)
Definition effectivePageSize (pageSize : Z) : Z :=
  if pageSize <=? 0 then defaultLogPageSize else pageSize.

(** The lines with index [start], [start+1], ... of [ls], at most [ps]. *)
Definition pageOf (ls : list string) (start ps : Z) : list string :=
  take (Z.to_nat ps) (drop (Z.to_nat start) ls).

(** The text of the lines [ls], each followed by a newline: the content
    that holds exactly these lines, in this order. *)
Fixpoint unlines (ls : list string) : string :=
  match ls with
  | [] => EmptyString
  | l :: rest => l +:+ String LF (unlines rest)
  end.

(** The number of lines of a content: the number of its newlines. *)
Fixpoint countLF (s : string) : nat :=
  match s with
  | EmptyString => O
  | String c rest => ((if Ascii.eqb c LF then 1 else 0) + countLF rest)%nat
  end.

(** A file of [n] empty lines. *)
Fixpoint newlines (n : nat) : string :=
  match n with
  | O => EmptyString
  | S n' => String LF (newlines n')
  end.

End Log.


(** ** Handlers, contexts and the world they run in *)

(** What [recover()] yields for a panic: a value that implements [error]
    (a runtime error, [panic(err)], and, from Go 1.21 on, the
    [*runtime.PanicNilError] of [panic(nil)]), or any other value. *)
Inductive panicValue :=
| PanicWithError (e : error)
| PanicWithValue (v : anyValue).

(** A call returns or panics. *)
Inductive outcome (A : Type) :=
| Returns (a : A)
| Panics (p : panicValue).
Arguments Returns {A} a.
Arguments Panics {A} p.

(** The per-invocation log writer of log.go, as far as the context carries
    it: the directory and the invocation id that name its file. *)
Record LogWriter := { logPath : string; logID : Z }.

Module Runtime.
Section World.

(** The state of everything outside the package: the handler's own state,
    the clock, cancellation, the sinks of logs, traces and metrics. *)
Context {W : Type}.

(** A [context.Context].  [ctxErr] is [ctx.Err()].  [waitDone d] is the
    statement [select { case <-ctx.Done(): ...; case <-time.After(d): }]:
    [true] when the Done case is taken.  [ctxLogWriter] is
    [ctx.Value(logWriterKey)]. *)
Record context := {
  ctxErr : W -> option error;
  waitDone : Z -> W -> bool * W;
  ctxLogWriter : option LogWriter
}.

(** [type TaskHandler func(ctx context.Context, param string) error].
    A nil function value is outside the model. *)
Definition TaskHandler : Type :=
  context -> string -> W -> outcome (option error) * W.

(** [type Middleware func(next TaskHandler) TaskHandler] *)
Definition Middleware : Type := TaskHandler -> TaskHandler.

(** *** middleware.go *)

(** The loop of Chain, [for i := len(middlewares) - 1; i >= 0; i--], with
    [count = i + 1].  The index is in range by the loop bounds. *)
Fixpoint chainLoop (middlewares : list Middleware) (count : nat)
    (next : TaskHandler) : TaskHandler :=
  match count with
  | O => next
  | S i =>
      let next :=
        match middlewares !! i with
        | Some m => m next
        | None => next
        end in
      chainLoop middlewares i next
  end.

Definition Chain (middlewares : list Middleware) : Middleware :=
  fun next => chainLoop middlewares (length middlewares) next.

Definition applyMiddlewares (handler : TaskHandler)
    (middlewares : list Middleware) : TaskHandler :=
  if Nat.eqb (length middlewares) 0 then handler
  else
    let chain := Chain middlewares in
    chain handler.

(** The nested application [m1 (m2 (... (mn h)))] of the specification. *)
Definition nested (ms : list Middleware) (h : TaskHandler) : TaskHandler :=
  foldr (fun m next => m next) h ms.

(** The deferred function of RecoveryMiddleware: an error value is handed
    on as it is, any other value is boxed in a [panicError]. *)
Definition recovered (r : panicValue) : error :=
  match r with
  | PanicWithError e => e
  | PanicWithValue v => panicError v
  end.

Definition RecoveryMiddleware : Middleware :=
  fun next ctx param w =>
    match next ctx param w with
    | (Returns err, w') => (Returns err, w')
    | (Panics r, w') => (Returns (Some (recovered r)), w')
    end.

(** [time.Duration] is an int64: a product wraps around. *)
Definition wrapInt64 (z : Z) : Z := (z + 2 ^ 63) mod 2 ^ 64 - 2 ^ 63.

Definition mulDuration (d k : Z) : Z := wrapInt64 (d * k).

(** A variable that closures capture: a cell of the world. *)
Record cell := {
  load : W -> Z;
  store : Z -> W -> W
}.

(** What a run of the retry loop does, in order.  The trace is a record of
    the run kept beside it; the handler never sees it. *)
Inductive retryEvent :=
| EvWait (d : Z)                        (* the select armed time.After(d) *)
| EvCancelled                           (* ... and ctx.Done() was taken *)
| EvSucceeded                           (* next returned nil *)
| EvFailed (e : error) (c : option error)
                                        (* next returned e; then ctx.Err() was c *)
| EvPanicked (r : panicValue).          (* next panicked *)

(** The loop of RetryMiddleware from iteration [i] on; [remaining] counts
    the iterations [i, i+1, ..., maxRetries] still to run.  [backoff] is the
    parameter of RetryMiddleware: the handler is a closure inside the
    closure RetryMiddleware returns, so [backoff *= 2] assigns the one
    variable that all calls of all handlers of this middleware share. *)
Fixpoint retryLoop (backoff : cell) (next : TaskHandler) (ctx : context)
    (param : string) (remaining : nat) (i : Z) (lastErr : option error)
    (w : W) : outcome (option error) * W * list retryEvent :=
  match remaining with
  | O => (Returns lastErr, w, [])
  | S remaining' =>
      let '(done, w1, waited) :=
        if 0 <? i then
          let d := load backoff w in
          let '(done, w1) := waitDone ctx d w in
          if done then (true, w1, [EvWait d])
          else
            (false, store backoff (mulDuration (load backoff w1) 2) w1,
             [EvWait d])
        else (false, w, []) in
      if done then (Returns (ctxErr ctx w1), w1, waited ++ [EvCancelled])
      else
        match next ctx param w1 with
        | (Panics r, w2) => (Panics r, w2, waited ++ [EvPanicked r])
        | (Returns None, w2) => (Returns None, w2, waited ++ [EvSucceeded])
        | (Returns (Some err), w2) =>
            match ctxErr ctx w2 with
            | Some c =>
                (Returns (Some c), w2, waited ++ [EvFailed err (Some c)])
            | None =>
                let '(res, w3, evs) :=
                  retryLoop backoff next ctx param remaining' (i + 1)
                    (Some err) w2 in
                (res, w3, waited ++ EvFailed err None :: evs)
            end
        end
  end.

(** The part of an iteration that follows its wait: the attempt, and the
    iterations after it.  [retryLoop_S] relates it to [retryLoop]. *)
Definition attemptFrom (backoff : cell) (next : TaskHandler) (ctx : context)
    (param : string) (remaining' : nat) (i : Z) (waited : list retryEvent)
    (w1 : W) : outcome (option error) * W * list retryEvent :=
  match next ctx param w1 with
  | (Panics r, w2) => (Panics r, w2, waited ++ [EvPanicked r])
  | (Returns None, w2) => (Returns None, w2, waited ++ [EvSucceeded])
  | (Returns (Some err), w2) =>
      match ctxErr ctx w2 with
      | Some c => (Returns (Some c), w2, waited ++ [EvFailed err (Some c)])
      | None =>
          let '(res, w3, evs) :=
            retryLoop backoff next ctx param remaining' (i + 1) (Some err) w2 in
          (res, w3, waited ++ EvFailed err None :: evs)
      end
  end.

(** A call of a handler RetryMiddleware builds, with its trace.  The loop
    [for i := 0; i <= maxRetries; i++] makes [maxRetries + 1] iterations,
    and none when [maxRetries] is negative. *)
Definition retryRun (maxRetries : Z) (backoff : cell) (next : TaskHandler)
    (ctx : context) (param : string) (w : W)
  : outcome (option error) * W * list retryEvent :=
  retryLoop backoff next ctx param (Z.to_nat (maxRetries + 1)) 0 None w.

(** [RetryMiddleware(maxRetries, b)] is [RetryMiddleware maxRetries backoff]
    for a cell [backoff] that holds [b] when the middleware is built. *)
Definition RetryMiddleware (maxRetries : Z) (backoff : cell) : Middleware :=
  fun next ctx param w => fst (retryRun maxRetries backoff next ctx param w).

(** Reading a trace. *)
Definition isAttempt (ev : retryEvent) : bool :=
  match ev with
  | EvSucceeded | EvFailed _ _ | EvPanicked _ => true
  | EvWait _ | EvCancelled => false
  end.

Definition attempts (tr : list retryEvent) : nat :=
  length (List.filter isAttempt tr).

(** An event after which the loop returns at once. *)
Definition terminal (ev : retryEvent) : bool :=
  match ev with
  | EvSucceeded | EvFailed _ (Some _) | EvPanicked _ | EvCancelled => true
  | EvWait _ | EvFailed _ None => false
  end.

(** The result that goes with a last event. *)
Definition agrees (res : outcome (option error)) (ev : retryEvent) : Prop :=
  match ev with
  | EvSucceeded => res = Returns None
  | EvFailed _ (Some c) => res = Returns (Some c)
  | EvPanicked r => res = Panics r
  | _ => True
  end.

(** A trace in which only the last event may be terminal, and the result
    agrees with it. *)
Fixpoint closes (res : outcome (option error)) (tr : list retryEvent) : Prop :=
  match tr with
  | [] => True
  | ev :: rest =>
      match rest with
      | [] => agrees res ev
      | _ => terminal ev = false /\ closes res rest
      end
  end.

(** The run the specification describes when every attempt fails and the
    context is never cancelled: the attempts [i], [i+1], ... return [errs],
    and attempt [j+1] comes after a wait of [backoff * 2^j] (a
    [time.Duration] product), [backoff] being the first wait of the call. *)
Fixpoint failedRun (backoff : Z) (i : nat) (errs : list error)
  : list retryEvent :=
  match errs with
  | [] => []
  | e :: errs' =>
      match i with
      | O => []
      | S j => [EvWait (mulDuration backoff (2 ^ Z.of_nat j))]
      end ++ EvFailed e None :: failedRun backoff (S i) errs'
  end.

(** *** trace.go *)

(** A line of the per-invocation log file (logWriter.Write). *)
Inductive logLine :=
| LineStarted (taskName param : string)
| LineFailed (taskName : string) (duration : Z) (err : error)
| LineCompleted (taskName : string) (duration : Z).

(** What executeTaskWithTrace sends to its collaborators: the trace span,
    the log file, the structured log and the metrics. *)
Inductive telemetry :=
| SpanStart (taskName param : string) (logID : Z)
| SpanError (err : error)
| SpanOk (durationMs : Z)
| SpanEnd
| FileLog (lw : LogWriter) (line : logLine)
| LogStarted (taskName param : string) (logID : Z)
| LogFailed (taskName param : string) (logID duration : Z) (err : error)
| LogCompleted (taskName param : string) (logID duration : Z)
| LogWarn (msg : string) (logID : Z) (err : error)
| MetricTaskTotal (taskName status : string)
| MetricTaskDuration (taskName : string) (duration : Z).

(** The collaborators outside the package.  None of them panics. *)
Record Env := {
  timeNow : W -> Z;                               (* time.Now(), in ns *)
  metricsEnabled : W -> bool;                     (* metrics.IsEnabled() *)
  emit : telemetry -> W -> W;
  openLog : LogWriter -> W -> option error * W;   (* os.OpenFile of newLogWriter *)
  closeLog : LogWriter -> W -> option error * W   (* logWriter.Close *)
}.

Definition emitIf (env : Env) (b : bool) (t : telemetry) (w : W) : W :=
  if b then emit env t w else w.

Definition writeLog (env : Env) (logWriter : option LogWriter)
    (line : logLine) (w : W) : W :=
  match logWriter with
  | Some lw => emit env (FileLog lw line) w
  | None => w
  end.

(** pkgtrace.StartSpan hands back a span that is never nil and a context
    that differs from [ctx] in the span it carries alone; the package reads
    neither [Err] nor the log writer differently from it, so [ctx] is
    passed on.  [defer span.End()] also runs when the handler panics. *)
Definition executeTaskWithTrace (env : Env) (ctx : context)
    (taskName param : string) (logID : Z) (handler : TaskHandler)
    (enableTrace : bool) (w : W) : outcome (string * option error) * W :=
  let startTime := timeNow env w in
  let w := emitIf env enableTrace (SpanStart taskName param logID) w in
  let logWriter := ctxLogWriter ctx in
  let w := writeLog env logWriter (LineStarted taskName param) w in
  let w := emit env (LogStarted taskName param logID) w in
  match handler ctx param w with
  | (Panics r, w) => (Panics r, emitIf env enableTrace SpanEnd w)
  | (Returns err, w) =>
      let duration := timeNow env w - startTime in
      let w :=
        if metricsEnabled env w then
          let status := match err with Some _ => "error" | None => "success" end in
          let w := emit env (MetricTaskTotal taskName status) w in
          emit env (MetricTaskDuration taskName duration) w
        else w in
      let '(result, w) :=
        match err with
        | Some e =>
            let w := writeLog env logWriter (LineFailed taskName duration e) w in
            let w := emit env (LogFailed taskName param logID duration e) w in
            let w := emitIf env enableTrace (SpanError e) w in
            ("FAIL: " +:+ errorText e, w)
        | None =>
            let w := writeLog env logWriter (LineCompleted taskName duration) w in
            let w := emit env (LogCompleted taskName param logID duration) w in
            let w := emitIf env enableTrace (SpanOk (Z.quot duration 1000000)) w in
            ("SUCCESS", w)
        end in
      (Returns (result, None), emitIf env enableTrace SpanEnd w)
  end.

(** The world in which executeTaskWithTrace calls the handler: the span is
    open and the start of the task is logged. *)
Definition startedWorld (env : Env) (ctx : context) (taskName param : string)
    (logID : Z) (enableTrace : bool) (w : W) : W :=
  emit env (LogStarted taskName param logID)
    (writeLog env (ctxLogWriter ctx) (LineStarted taskName param)
       (emitIf env enableTrace (SpanStart taskName param logID) w)).

(** *** task.go and the executor *)

Record TaskInfo := {
  Name : string;
  Handler : TaskHandler;
  RegisteredAt : Z
}.

(** TaskRegistry.Register; the handler is not nil in the model. *)
Definition Register (now : Z) (name : string) (handler : TaskHandler)
    (tasks : gmap string TaskInfo) : goResult (gmap string TaskInfo) :=
  if String.eqb name "" then Err (errorString "task name cannot be empty")
  else
    match tasks !! name with
    | Some _ => Err (errorString ("task " +:+ name +:+ " already registered"))
    | None => Ok (<[name := Build_TaskInfo name handler now]> tasks)
    end.

(** The fields of executorOptions the executor reads after construction. *)
Record executorOptions := {
  optLogPath : string;
  enableTrace : bool;
  middlewares : list Middleware
}.

(** [xxl.RunReq], the fields the task function reads. *)
Record RunReq := { ExecutorParams : string; LogID : Z }.

(** executorImpl.  [sdkTasks] is the task list of the scheduler's runtime
    ([e.executor]): under each name the handler that the function handed to
    [e.executor.RegTask] closes over. *)
Record executorImpl := {
  opts : executorOptions;
  registry : gmap string TaskInfo;
  sdkTasks : gmap string TaskHandler;
  running : bool;
  startedAt : Z;
  lastError : option error
}.

Record HealthStatus := {
  Running : bool;
  TaskCount : Z;
  StartedAt : Z;
  LastError : option error
}.

(** The state NewExecutorWithOptions builds. *)
Definition NewExecutorWithOptions (o : executorOptions) : executorImpl :=
  {| opts := o; registry := ∅; sdkTasks := ∅; running := false;
     startedAt := 0; lastError := None |}.

(** The function RegTask hands to the scheduler's runtime, called by it for
    each invocation.  It closes over the executor [e], whose [lastError] it
    may assign: the executor after the call is part of the result. *)
Definition taskFunc (env : Env) (taskName : string)
    (wrappedHandler : TaskHandler) (e : executorImpl) (ctx : context)
    (param : option RunReq) (w : W) : outcome string * W * executorImpl :=
  let '(paramStr, logID) :=
    match param with
    | Some req =>
        (if negb (String.eqb (ExecutorParams req) "") then ExecutorParams req
         else "",
         LogID req)
    | None => ("", 0)
    end in
  let '(ctx, opened, w) :=
    if negb (String.eqb (optLogPath (opts e)) "") && (0 <? logID) then
      let lw := {| logPath := optLogPath (opts e); logID := logID |} in
      match openLog env lw w with
      | (None, w) =>
          ({| ctxErr := ctxErr ctx; waitDone := waitDone ctx;
              ctxLogWriter := Some lw |}, Some lw, w)
      | (Some logErr, w) =>
          (ctx, None, emit env (LogWarn "Failed to create log writer" logID logErr) w)
      end
    else (ctx, None, w) in
  let '(res, w) :=
    executeTaskWithTrace env ctx taskName paramStr logID wrappedHandler
      (enableTrace (opts e)) w in
  let closeDeferred (w : W) : W :=
    match opened with
    | Some lw =>
        match closeLog env lw w with
        | (Some closeErr, w) =>
            emit env (LogWarn "Failed to close log writer" logID closeErr) w
        | (None, w) => w
        end
    | None => w
    end in
  match res with
  | Panics r => (Panics r, closeDeferred w, e)
  | Returns (result, err) =>
      let e :=
        match err with
        | Some err =>
            {| opts := opts e; registry := registry e; sdkTasks := sdkTasks e;
               running := running e; startedAt := startedAt e;
               lastError := Some err |}
        | None => e
        end in
      (Returns result, closeDeferred w, e)
  end.

Definition RegTask (env : Env) (taskName : string) (handler : TaskHandler)
    (e : executorImpl) (w : W) : option error * executorImpl :=
  if running e then
    (Some (errorString "cannot register task after executor started"), e)
  else
    let wrappedHandler := applyMiddlewares handler (middlewares (opts e)) in
    match Register (timeNow env w) taskName wrappedHandler (registry e) with
    | Err err => (Some (wrapError "failed to register task: " err), e)
    | Ok tasks =>
        (None,
         {| opts := opts e; registry := tasks;
            sdkTasks := <[taskName := wrappedHandler]> (sdkTasks e);
            running := running e; startedAt := startedAt e;
            lastError := lastError e |})
    end.

(** The scheduler's runtime dispatching an invocation of [taskName]:
    [None] when no task has that name. *)
Definition invoke (env : Env) (taskName : string) (e : executorImpl)
    (ctx : context) (param : option RunReq) (w : W)
  : option (outcome string * W * executorImpl) :=
  match sdkTasks e !! taskName with
  | Some wrappedHandler =>
      Some (taskFunc env taskName wrappedHandler e ctx param w)
  | None => None
  end.

Definition GetHealthStatus (e : executorImpl) : HealthStatus :=
  {| Running := running e;
     TaskCount := Z.of_nat (size (registry e));
     StartedAt := startedAt e;
     LastError := lastError e |}.

End World.
End Runtime.

(** ** Concrete inputs *)

Module Inputs.
Import Log.

(** A log file of one line, ["a\n"]. *)
Definition oneLine : string := String "a" (String LF "").
Definition oneLineFs : fileSystem := {[ "jobhandler-1.log" := Regular oneLine ]}.

(** A log file of three lines, the second ended by CR LF and the third
    without a newline. *)
Definition threeLines : string :=
  "one" +:+ String LF ("two" +:+ String CR (String LF "three")).
Definition threeLinesFs : fileSystem :=
  {[ "jobhandler-3.log" := Regular threeLines ]}.

Definition emptyFs : fileSystem := {[ "jobhandler-0.log" := Regular "" ]}.

(** A log file of 10485761 bytes, one more than [maxLogFileSize], each an
    empty line. *)
Definition bigFile : string := newlines (Z.to_nat 10485761).
Definition bigFs : fileSystem := {[ "jobhandler-9.log" := Regular bigFile ]}.

(** [context.Canceled] *)
Definition Canceled : error := errorString "context canceled".

(** A context that is never cancelled, over any world. *)
Definition background {W : Type} : Runtime.context (W := W) :=
  {| Runtime.ctxErr := fun _ => None;
     Runtime.waitDone := fun _ w => (false, w);
     Runtime.ctxLogWriter := None |}.

(** A context that is cancelled from the start. *)
Definition cancelled {W : Type} : Runtime.context (W := W) :=
  {| Runtime.ctxErr := fun _ => Some Canceled;
     Runtime.waitDone := fun _ w => (true, w);
     Runtime.ctxLogWriter := None |}.

(** A world that counts the calls of a handler and holds the variable
    [backoff] of one retry middleware. *)
Record counted := { calls : nat; backoffVar : Z }.

Definition backoffCell : Runtime.cell (W := counted) :=
  {| Runtime.load := backoffVar;
     Runtime.store := fun v w => {| calls := calls w; backoffVar := v |} |}.

Definition ms : Z := 1000000.

(** A context cancelled once [k] calls have been made. *)
Definition cancelledAfter (k : nat) : Runtime.context (W := counted) :=
  {| Runtime.ctxErr :=
       fun w => if Nat.leb k (calls w) then Some Canceled else None;
     Runtime.waitDone := fun _ w => (false, w);
     Runtime.ctxLogWriter := None |}.

(** Call [n] of the handler fails with the message ["fail n"]. *)
Definition failN (n : nat) : error :=
  errorString ("fail " +:+ String (Ascii.ascii_of_nat (48 + n)) "").

Definition called (w : counted) : counted :=
  {| calls := S (calls w); backoffVar := backoffVar w |}.

Definition alwaysFails : Runtime.TaskHandler (W := counted) :=
  fun _ _ w => (Returns (Some (failN (calls w))), called w).

(** A handler that fails twice and then succeeds. *)
Definition failsTwice : Runtime.TaskHandler (W := counted) :=
  fun _ _ w =>
    (Returns (if Nat.ltb (calls w) 2 then Some (failN (calls w)) else None),
     called w).

(** A handler that panics with a value that is not an error. *)
Definition panics : Runtime.TaskHandler (W := counted) :=
  fun _ _ w => (Panics (PanicWithValue (AnyValue "out of luck")), called w).

(** The world when the middleware [RetryMiddleware(1, 100ms)] has just been
    built, and the world after one call of a handler it built around
    [alwaysFails]. *)
Definition fresh : counted := {| calls := 0; backoffVar := 100 * ms |}.
Definition afterFirstCall : counted := {| calls := 2; backoffVar := 200 * ms |}.

(** A world that records what is sent to the collaborators. *)
Definition recording : Runtime.Env (W := list Runtime.telemetry) :=
  {| Runtime.timeNow := fun w => Z.of_nat (length w);
     Runtime.metricsEnabled := fun _ => true;
     Runtime.emit := fun t w => w ++ [t];
     Runtime.openLog := fun _ w => (None, w);
     Runtime.closeLog := fun _ w => (None, w) |}.

(** A handler that fails with the error ["boom"]. *)
Definition boom : Runtime.TaskHandler (W := list Runtime.telemetry) :=
  fun _ _ w => (Returns (Some (errorString "boom")), w).

(** An executor without middlewares that logs to ./logs, with the task
    ["demoJob"] registered. *)
Definition demoOptions : Runtime.executorOptions (W := list Runtime.telemetry) :=
  {| Runtime.optLogPath := "./logs"; Runtime.enableTrace := true;
     Runtime.middlewares := [] |}.

Definition demoExecutor : Runtime.executorImpl (W := list Runtime.telemetry) :=
  snd (Runtime.RegTask recording "demoJob" boom
         (Runtime.NewExecutorWithOptions demoOptions) []).

Definition demoReq : Runtime.RunReq :=
  {| Runtime.ExecutorParams := "{}"; Runtime.LogID := 42 |}.

End Inputs.

(** ** task.go: the rest of the registry *)

Module Registry.
Import Runtime.
Section World.
Context {W : Type}.

(** TaskRegistry.Get *)
Definition Get (name : string) (tasks : gmap string (TaskInfo (W := W)))
  : option TaskInfo * bool :=
  match tasks !! name with
  | Some task => (Some task, true)
  | None => (None, false)
  end.

(** TaskRegistry.GetAll copies the map entry by entry. *)
Definition GetAll (tasks : gmap string (TaskInfo (W := W)))
  : gmap string TaskInfo :=
  map_fold (fun k v result => <[k := v]> result) ∅ tasks.

(** TaskRegistry.GetNames ranges over the map; Go fixes no order for that,
    and the order here is one of them. *)
Definition GetNames (tasks : gmap string (TaskInfo (W := W))) : list string :=
  map_fold (fun name _ names => names ++ [name]) [] tasks.

(** TaskRegistry.Count *)
Definition Count (tasks : gmap string (TaskInfo (W := W))) : Z :=
  Z.of_nat (size tasks).

(** TaskRegistry.Unregister *)
Definition Unregister (name : string) (tasks : gmap string (TaskInfo (W := W)))
  : goResult (gmap string TaskInfo) :=
  match tasks !! name with
  | None => Err (errorString ("task " +:+ name +:+ " not found"))
  | Some _ => Ok (delete name tasks)
  end.

(** TaskRegistry.Clear *)
Definition Clear (tasks : gmap string (TaskInfo (W := W)))
  : gmap string (TaskInfo (W := W)) := ∅.

End World.
End Registry.

(** TaskRegistry.Register for a handler that may be nil: [handler] is
    [None] for a nil function value.  The handler is checked after the name
    and before the test for a task already registered under the name.  For
    a handler that is not nil this is [Runtime.Register]. *)
Module TaskRegistry.
Section World.
Context {W : Type}.

Definition Register (now : Z) (name : string)
    (handler : option (Runtime.TaskHandler (W := W)))
    (tasks : gmap string (Runtime.TaskInfo (W := W)))
  : goResult (gmap string (Runtime.TaskInfo (W := W))) :=
  if String.eqb name "" then Err (errorString "task name cannot be empty")
  else
    match handler with
    | None => Err (errorString "task handler cannot be nil")
    | Some handler =>
        match tasks !! name with
        | Some _ =>
            Err (errorString ("task " +:+ name +:+ " already registered"))
        | None => Ok (<[name := Runtime.Build_TaskInfo name handler now]> tasks)
        end
    end.

End World.
End TaskRegistry.

(** ** The executor: Run, Stop, IsRunning, GetTaskNames *)

Module Lifecycle.
Import Runtime.
Section World.
Context {W : Type}.

(** executorImpl.Run.  [now] is [time.Now()]; [sdkRun] is what the blocking
    [e.executor.Run()] of the scheduler's runtime returns in the end.  The
    log records of Run are left out. *)
Definition Run (now : Z) (sdkRun : option error) (e : executorImpl (W := W))
  : option error * executorImpl :=
  if running e then (Some (errorString "executor already running"), e)
  else
    (sdkRun,
     {| opts := opts e; registry := registry e; sdkTasks := sdkTasks e;
        running := true; startedAt := now; lastError := lastError e |}).

(** executorImpl.Stop *)
Definition Stop (e : executorImpl (W := W)) : option error * executorImpl :=
  if negb (running e) then (None, e)
  else
    (None,
     {| opts := opts e; registry := registry e; sdkTasks := sdkTasks e;
        running := false; startedAt := startedAt e;
        lastError := lastError e |}).

Definition IsRunning (e : executorImpl (W := W)) : bool := running e.

Definition GetTaskNames (e : executorImpl (W := W)) : list string :=
  Registry.GetNames (registry e).

(** The registry and the task list of the scheduler's runtime hold the
    same handlers under the same names. *)
Definition consistent (e : executorImpl (W := W)) : Prop :=
  forall name, Handler <$> registry e !! name = sdkTasks e !! name.

End World.
End Lifecycle.

(** ** log.go: the log writer, the log query and the retention sweep *)

(** [strings.HasSuffix(s, suffix)] *)
Fixpoint hasSuffix (suffix s : string) : bool :=
  if String.eqb s suffix then true
  else
    match s with
    | EmptyString => false
    | String _ rest => hasSuffix suffix rest
    end.

Module Writer.
Section Paths.

(** [filepath.Join] of two elements. *)
Variable filepathJoin : string -> string -> string.

(** The path both the writer and the log query build for an invocation:
    [filepath.Join(logPath, fmt.Sprintf("jobhandler-%d.log", logID))]. *)
Definition logFileName (logID : Z) : string :=
  "jobhandler-" +:+ pretty logID +:+ ".log".

Definition logFilePath (logPath : string) (logID : Z) : string :=
  filepathJoin logPath (logFileName logID).

(** The struct logWriter.  [file] is the open [*os.File], known by the path
    it was opened on; [None] is nil. *)
Record logWriter := {
  logPath : string;
  logID : Z;
  file : option string
}.

(** [os.OpenFile(path, O_CREATE|O_WRONLY|O_APPEND, 0644)] in a directory
    that exists: a missing file is created empty, a file that is there is
    kept as it is. *)
Definition osOpenAppend (fs : Log.fileSystem) (path : string)
  : goResult Log.fileSystem :=
  match fs !! path with
  | None => Ok (<[path := Log.Regular ""]> fs)
  | Some (Log.Regular _) => Ok fs
  | Some (Log.Unreadable _ e) => Err e
  | Some (Log.StatFails e) => Err e
  end.

(** [file.WriteString(s)] on a file opened for appending. *)
Definition writeString (path s : string) (fs : Log.fileSystem)
  : option error * Log.fileSystem :=
  match fs !! path with
  | Some (Log.Regular data) => (None, <[path := Log.Regular (data +:+ s)]> fs)
  | _ => (Some (errorString ("write " +:+ path +:+ ": bad file descriptor")), fs)
  end.

Definition newLogWriter (logPath : string) (logID : Z) (fs : Log.fileSystem)
  : goResult logWriter * Log.fileSystem :=
  if String.eqb logPath "" || (logID =? 0) then
    (Err (errorString "log path or log ID is empty"), fs)
  else
    let logFilePath := logFilePath logPath logID in
    match osOpenAppend fs logFilePath with
    | Err err => (Err (wrapError "failed to open log file: " err), fs)
    | Ok fs =>
        (Ok {| logPath := logPath; logID := logID; file := Some logFilePath |},
         fs)
    end.

(** logWriter.Write.  [w] is the receiver, [None] when it is nil; [stamp]
    is [time.Now().Format("2006-01-02 15:04:05.000")] and [content] is
    [fmt.Sprintf(format, args...)].  A failed write is dropped; [Sync]
    changes nothing that can be read back. *)
Definition Write (w : option logWriter) (stamp content : string)
    (fs : Log.fileSystem) : Log.fileSystem :=
  match w with
  | None => fs
  | Some w =>
      match file w with
      | None => fs
      | Some f =>
          let logLine :=
            "[" +:+ stamp +:+ "] " +:+ content +:+ String Log.LF "" in
          snd (writeString f logLine fs)
      end
  end.

(** logWriter.WriteLine *)
Definition WriteLine (w : option logWriter) (line : string)
    (fs : Log.fileSystem) : Log.fileSystem :=
  match w with
  | None => fs
  | Some w =>
      match file w with
      | None => fs
      | Some f =>
          let line :=
            if negb (hasSuffix (String Log.LF "") line)
            then line +:+ String Log.LF "" else line in
          snd (writeString f line fs)
      end
  end.

(** logWriter.Close; closing the open file succeeds. *)
Definition Close (w : option logWriter) : option error * option logWriter :=
  match w with
  | None => (None, None)
  | Some w0 =>
      match file w0 with
      | None => (None, w)
      | Some _ =>
          (None, Some {| logPath := logPath w0; logID := logID w0; file := None |})
      end
  end.

(** *** The log query *)

(** [xxl.LogReq], [xxl.LogRes] and [xxl.LogResContent]. *)
Record LogReq := { LogDateTim : Z; LogID : Z; FromLineNum : Z }.

Record LogResContent := {
  resFromLineNum : Z;
  ToLineNum : Z;
  LogContent : string;
  IsEnd : bool
}.

Record LogRes := { Code : Z; Msg : string; Content : LogResContent }.

(** The zero value of [xxl.LogResContent]. *)
Definition noContent : LogResContent :=
  {| resFromLineNum := 0; ToLineNum := 0; LogContent := ""; IsEnd := false |}.

(** handleLogRequest; [req] is [None] when the pointer is nil.  The log
    records it emits are left out. *)
Definition handleLogRequest (req : option LogReq) (logPath : string)
    (fs : Log.fileSystem) : LogRes :=
  match req with
  | None => {| Code := 500; Msg := "log request is nil"; Content := noContent |}
  | Some req =>
      if String.eqb logPath "" then
        {| Code := 500; Msg := "log path not configured"; Content := noContent |}
      else
        let logFilePath := logFilePath logPath (LogID req) in
        match Log.osStat fs logFilePath with
        | None =>
            {| Code := 500; Msg := "log file not found: " +:+ logFilePath;
               Content := noContent |}
        | Some _ =>
            match Log.readLogFileWithPagination fs logFilePath
                    (FromLineNum req) Log.defaultLogPageSize with
            | Err err =>
                {| Code := 500;
                   Msg := "failed to read log file: " +:+ errorText err;
                   Content := noContent |}
            | Ok result =>
                {| Code := 200; Msg := "success";
                   Content :=
                     {| resFromLineNum := FromLineNum req;
                        ToLineNum := Log.ToLineNum result;
                        LogContent := Log.Content result;
                        IsEnd := Log.IsEnd result |} |}
            end
        end
  end.

End Paths.

(** A file that is empty or ends with a newline. *)
Definition terminated (data : string) : Prop :=
  data = "" \/ exists s, data = s +:+ String Log.LF "".

End Writer.

Module Retention.

(** What [os.ReadDir] and [entry.Info()] tell about an entry of the log
    directory, and what [os.Remove] of it would return. *)
Record fileInfo := { ModTime : Z; Size : Z }.

Record dirEntry := {
  Name : string;
  IsDir : bool;
  Info : goResult fileInfo;
  removeErr : option error
}.

(** The loop of cleanupOldLogs over the entries; the result is the entries
    that are left, [deletedCount] and [totalSize].  [totalSize] only goes
    into the summary log record, which is left out, and is kept here
    without the wrap-around of int64. *)
Fixpoint sweep (cutoffTime : Z) (entries : list dirEntry)
    (deletedCount totalSize : Z) : list dirEntry * Z * Z :=
  match entries with
  | [] => ([], deletedCount, totalSize)
  | entry :: rest =>
      let keep :=
        let '(kept, deletedCount, totalSize) :=
          sweep cutoffTime rest deletedCount totalSize in
        (entry :: kept, deletedCount, totalSize) in
      if IsDir entry then keep
      else if negb (String.prefix "jobhandler-" (Name entry))
              || negb (hasSuffix ".log" (Name entry)) then keep
      else
        match Info entry with
        | Err _ => keep
        | Ok info =>
            if ModTime info <? cutoffTime then
              match removeErr entry with
              | Some _ => keep
              | None =>
                  sweep cutoffTime rest (deletedCount + 1)
                    (totalSize + Size info)
              end
            else keep
        end
  end.

(** cleanupOldLogs.  [cutoffTime] is
    [time.Now().AddDate(0, 0, -retentionDays)] and [readDir] is what
    [os.ReadDir(logPath)] returns.  [None]: nothing was swept. *)
Definition cleanupOldLogs (logPath : string) (retentionDays : Z)
    (cutoffTime : Z) (readDir : goResult (list dirEntry))
  : option (list dirEntry * Z * Z) :=
  if String.eqb logPath "" || (retentionDays <=? 0) then None
  else
    match readDir with
    | Err _ => None
    | Ok entries => Some (sweep cutoffTime entries 0 0)
    end.

(** An entry the sweep deletes. *)
Definition deletable (cutoffTime : Z) (entry : dirEntry) : bool :=
  negb (IsDir entry)
  && String.prefix "jobhandler-" (Name entry)
  && hasSuffix ".log" (Name entry)
  && match Info entry with
     | Ok info => ModTime info <? cutoffTime
     | Err _ => false
     end
  && match removeErr entry with None => true | Some _ => false end.

Definition sizeOf (entry : dirEntry) : Z :=
  match Info entry with Ok info => Size info | Err _ => 0 end.

End Retention.

(** ** Configuration and options (options.go, xxljob.go) *)

Module Options.

Record Config := {
  Enabled : bool;
  ServerAddr : string;
  AccessToken : string;
  ExecutorIP : string;
  ExecutorPort : string;
  RegistryKey : string;
  LogPath : string;
  LogRetentionDays : Z;
  EnableTrace : bool;
  QuietMode : bool
}.

(** Config.Validate; the receiver [c] is [None] when it is nil. *)
Definition Config_Validate (c : option Config) : option error :=
  match c with
  | None => Some (errorString "xxl-job config cannot be nil")
  | Some c =>
      if negb (Enabled c) then None
      else if String.eqb (ServerAddr c) "" then
        Some (errorString "xxl-job server_addr is required")
      else if String.eqb (RegistryKey c) "" then
        Some (errorString "xxl-job registry_key is required")
      else if String.eqb (ExecutorPort c) "" then
        Some (errorString "xxl-job executor_port is required")
      else None
  end.

Section World.
Context {W : Type}.

Record executorOptions := {
  serverAddr : string;
  accessToken : string;
  executorIP : string;
  executorPort : string;
  registryKey : string;
  logPath : string;
  logRetentionDays : Z;
  enableTrace : bool;
  quietMode : bool;
  middlewares : list (Runtime.Middleware (W := W))
}.

Definition NewOptions : executorOptions :=
  {| serverAddr := ""; accessToken := ""; executorIP := "";
     executorPort := "9999"; registryKey := ""; logPath := "";
     logRetentionDays := 30; enableTrace := false; quietMode := false;
     middlewares := [] |}.

(** executorOptions.Validate *)
Definition executorOptions_Validate (o : executorOptions) : option error :=
  if String.eqb (serverAddr o) "" then
    Some (errorString "server address is required")
  else if String.eqb (registryKey o) "" then
    Some (errorString "registry key is required")
  else if String.eqb (executorPort o) "" then
    Some (errorString "executor port is required")
  else None.

(** Config.ToOptions *)
Definition ToOptions (c : option Config) : goResult executorOptions :=
  match Config_Validate c, c with
  | Some err, _ => Err err
  | None, None => Err (errorString "xxl-job config cannot be nil")
  | None, Some c =>
      if negb (Enabled c) then Err (errorString "xxl-job is not enabled")
      else
        let opts :=
          {| serverAddr := ServerAddr c; accessToken := AccessToken c;
             executorIP := ExecutorIP c; executorPort := ExecutorPort c;
             registryKey := RegistryKey c; logPath := LogPath c;
             logRetentionDays := LogRetentionDays c;
             enableTrace := EnableTrace c; quietMode := QuietMode c;
             middlewares := middlewares NewOptions |} in
        match executorOptions_Validate opts with
        | Some err => Err (wrapError "invalid options: " err)
        | None => Ok opts
        end
  end.

(** The options that hold the fields of a configuration and no
    middlewares. *)
Definition copied (cfg : Config) : executorOptions :=
  {| serverAddr := ServerAddr cfg; accessToken := AccessToken cfg;
     executorIP := ExecutorIP cfg; executorPort := ExecutorPort cfg;
     registryKey := RegistryKey cfg; logPath := LogPath cfg;
     logRetentionDays := LogRetentionDays cfg;
     enableTrace := EnableTrace cfg; quietMode := QuietMode cfg;
     middlewares := [] |}.

(** The options NewExecutorWithOptions hands to the scheduler's runtime
    ([xxl.ServerAddr], [xxl.RegistryKey], ...). *)
Inductive xxlOption :=
| xxlServerAddr (addr : string)
| xxlRegistryKey (key : string)
| xxlExecutorPort (port : string)
| xxlAccessToken (token : string)
| xxlExecutorIp (ip : string).

(** What NewExecutorWithOptions sets up: [sdkOptions] is [xxlOpts], with
    which the runtime's executor is created and initialised; [logHandler]
    is the log path handleLogRequest is registered with; [sweeper] is the
    log path and the retention days of the hourly cleanupOldLogs;
    [interceptor] tells whether the log interceptor is installed; [impl] is
    the executorImpl returned, with the fields of the options it reads
    later. *)
Record created := {
  sdkOptions : list xxlOption;
  logHandler : option string;
  sweeper : option (string * Z);
  interceptor : bool;
  impl : Runtime.executorImpl (W := W)
}.

(** NewExecutorWithOptions; [opts] is [None] when it is nil, and
    [mkdirAll] is [os.MkdirAll(_, 0755)]. *)
Definition NewExecutorWithOptions (mkdirAll : string -> option error)
    (opts : option executorOptions) : goResult created :=
  match opts with
  | None => Err (errorString "options cannot be nil")
  | Some opts =>
      match executorOptions_Validate opts with
      | Some err => Err (wrapError "invalid options: " err)
      | None =>
          let xxlOpts :=
            [xxlServerAddr (serverAddr opts); xxlRegistryKey (registryKey opts);
             xxlExecutorPort (executorPort opts)] in
          let xxlOpts :=
            if negb (String.eqb (accessToken opts) "")
            then xxlOpts ++ [xxlAccessToken (accessToken opts)] else xxlOpts in
          let xxlOpts :=
            if negb (String.eqb (executorIP opts) "")
            then xxlOpts ++ [xxlExecutorIp (executorIP opts)] else xxlOpts in
          let '(handler, sweep) :=
            if negb (String.eqb (logPath opts) "") then
              match mkdirAll (logPath opts) with
              | Some _ => (None, None)
              | None =>
                  (Some (logPath opts),
                   if 0 <? logRetentionDays opts
                   then Some (logPath opts, logRetentionDays opts) else None)
              end
            else (None, None) in
          Ok {| sdkOptions := xxlOpts; logHandler := handler;
                sweeper := sweep; interceptor := quietMode opts;
                impl := Runtime.NewExecutorWithOptions
                          {| Runtime.optLogPath := logPath opts;
                             Runtime.enableTrace := enableTrace opts;
                             Runtime.middlewares := middlewares opts |} |}
      end
  end.

End World.

(** The methods of OptionsBuilder, on the options the builder holds; those
    of ExecutorBuilder hand over to them. *)
Module OptionsBuilder.
Section World.
Context {W : Type}.

Definition NewOptionsBuilder : executorOptions (W := W) := NewOptions.

Definition ServerAddr (addr : string) (b : executorOptions (W := W))
  : executorOptions (W := W) :=
  {| serverAddr := addr; accessToken := accessToken b; executorIP :=
     executorIP b; executorPort := executorPort b; registryKey :=
     registryKey b; logPath := logPath b; logRetentionDays :=
     logRetentionDays b; enableTrace := enableTrace b; quietMode :=
     quietMode b; middlewares := middlewares b |}.

Definition AccessToken (token : string) (b : executorOptions (W := W))
  : executorOptions (W := W) :=
  {| serverAddr := serverAddr b; accessToken := token; executorIP :=
     executorIP b; executorPort := executorPort b; registryKey :=
     registryKey b; logPath := logPath b; logRetentionDays :=
     logRetentionDays b; enableTrace := enableTrace b; quietMode :=
     quietMode b; middlewares := middlewares b |}.

Definition ExecutorIP (ip : string) (b : executorOptions (W := W))
  : executorOptions (W := W) :=
  {| serverAddr := serverAddr b; accessToken := accessToken b; executorIP
     := ip; executorPort := executorPort b; registryKey := registryKey b;
     logPath := logPath b; logRetentionDays := logRetentionDays b;
     enableTrace := enableTrace b; quietMode := quietMode b; middlewares :=
     middlewares b |}.

Definition ExecutorPort (port : string) (b : executorOptions (W := W))
  : executorOptions (W := W) :=
  {| serverAddr := serverAddr b; accessToken := accessToken b; executorIP
     := executorIP b; executorPort := port; registryKey := registryKey b;
     logPath := logPath b; logRetentionDays := logRetentionDays b;
     enableTrace := enableTrace b; quietMode := quietMode b; middlewares :=
     middlewares b |}.

Definition RegistryKey (key : string) (b : executorOptions (W := W))
  : executorOptions (W := W) :=
  {| serverAddr := serverAddr b; accessToken := accessToken b; executorIP
     := executorIP b; executorPort := executorPort b; registryKey := key;
     logPath := logPath b; logRetentionDays := logRetentionDays b;
     enableTrace := enableTrace b; quietMode := quietMode b; middlewares :=
     middlewares b |}.

Definition LogPath (path : string) (b : executorOptions (W := W))
  : executorOptions (W := W) :=
  {| serverAddr := serverAddr b; accessToken := accessToken b; executorIP
     := executorIP b; executorPort := executorPort b; registryKey :=
     registryKey b; logPath := path; logRetentionDays := logRetentionDays
     b; enableTrace := enableTrace b; quietMode := quietMode b; middlewares
     := middlewares b |}.

Definition LogRetentionDays (days : Z) (b : executorOptions (W := W))
  : executorOptions (W := W) :=
  {| serverAddr := serverAddr b; accessToken := accessToken b; executorIP
     := executorIP b; executorPort := executorPort b; registryKey :=
     registryKey b; logPath := logPath b; logRetentionDays := days;
     enableTrace := enableTrace b; quietMode := quietMode b; middlewares :=
     middlewares b |}.

Definition Trace (enabled : bool) (b : executorOptions (W := W))
  : executorOptions (W := W) :=
  {| serverAddr := serverAddr b; accessToken := accessToken b; executorIP
     := executorIP b; executorPort := executorPort b; registryKey :=
     registryKey b; logPath := logPath b; logRetentionDays :=
     logRetentionDays b; enableTrace := enabled; quietMode := quietMode b;
     middlewares := middlewares b |}.

Definition QuietMode (enabled : bool) (b : executorOptions (W := W))
  : executorOptions (W := W) :=
  {| serverAddr := serverAddr b; accessToken := accessToken b; executorIP
     := executorIP b; executorPort := executorPort b; registryKey :=
     registryKey b; logPath := logPath b; logRetentionDays :=
     logRetentionDays b; enableTrace := enableTrace b; quietMode :=
     enabled; middlewares := middlewares b |}.

Definition Build (b : executorOptions (W := W))
  : goResult (executorOptions (W := W)) :=
  match executorOptions_Validate b with
  | Some err => Err (wrapError "invalid options: " err)
  | None => Ok b
  end.

End World.
End OptionsBuilder.

Section World.
Context {W : Type}.

(** ExecutorBuilder.Build *)
Definition ExecutorBuilder_Build (mkdirAll : string -> option error)
    (b : executorOptions (W := W)) : goResult (created (W := W)) :=
  match OptionsBuilder.Build b with
  | Err err => Err err
  | Ok opts => NewExecutorWithOptions mkdirAll (Some opts)
  end.

Definition NewFromConfig (mkdirAll : string -> option error)
    (cfg : option Config) : goResult (created (W := W)) :=
  match cfg with
  | None => Err (errorString "config cannot be nil")
  | Some cfg =>
      if negb (Enabled cfg) then Err (errorString "xxl-job is not enabled")
      else
        let builder :=
          OptionsBuilder.QuietMode (QuietMode cfg)
            (OptionsBuilder.Trace (EnableTrace cfg)
               (OptionsBuilder.LogRetentionDays (LogRetentionDays cfg)
                  (OptionsBuilder.LogPath (LogPath cfg)
                     (OptionsBuilder.ExecutorPort (ExecutorPort cfg)
                        (OptionsBuilder.RegistryKey (RegistryKey cfg)
                           (OptionsBuilder.ServerAddr (ServerAddr cfg)
                              OptionsBuilder.NewOptionsBuilder)))))) in
        let builder :=
          if negb (String.eqb (AccessToken cfg) "")
          then OptionsBuilder.AccessToken (AccessToken cfg) builder
          else builder in
        let builder :=
          if negb (String.eqb (ExecutorIP cfg) "")
          then OptionsBuilder.ExecutorIP (ExecutorIP cfg) builder
          else builder in
        ExecutorBuilder_Build mkdirAll builder
  end.

End World.
End Options.

(** ** More concrete inputs *)

Module MoreInputs.

(** A handler over the recording world that panics. *)
Definition panicsRec : Runtime.TaskHandler (W := list Runtime.telemetry) :=
  fun _ _ w => (Panics (PanicWithValue (AnyValue "out of luck")), w).

(** An executor whose only middleware is RecoveryMiddleware, with the task
    ["risky"] registered. *)
Definition guardedOptions
  : Runtime.executorOptions (W := list Runtime.telemetry) :=
  {| Runtime.optLogPath := ""; Runtime.enableTrace := false;
     Runtime.middlewares := [Runtime.RecoveryMiddleware] |}.

Definition guardedExecutor
  : Runtime.executorImpl (W := list Runtime.telemetry) :=
  snd (Runtime.RegTask Inputs.recording "risky" panicsRec
         (Runtime.NewExecutorWithOptions guardedOptions) []).

(** A line of 1 MiB, the shortest that does not fit the scanner's buffer,
    and a log file with that line after a first line ["ok"]. *)
Fixpoint xs (n : nat) : string :=
  match n with
  | O => EmptyString
  | S n' => String "x" (xs n')
  end.

Definition longLine : string := xs (Z.to_nat 1048576).

Definition longLineFile : string :=
  "ok" +:+ String Log.LF (longLine +:+ String Log.LF "").

Definition longLineFs : Log.fileSystem :=
  {[ "jobhandler-8.log" := Log.Regular longLineFile ]}.

(** A log file of three lines, the first of them of 1 MiB. *)
Definition longFirstFile : string := Log.unlines [longLine; "two"; "three"].

Definition longFirstFs : Log.fileSystem :=
  {[ "jobhandler-7.log" := Log.Regular longFirstFile ]}.

(** [filepath.Join] of a clean directory name and a file name. *)
Definition joinSlash (dir name : string) : string := dir +:+ "/" +:+ name.

(** A log directory with the file of invocation 42 holding one line, and a
    writer open on that file. *)
Definition path42 : string := Writer.logFilePath joinSlash "logs" 42.

Definition oneWritten : Log.fileSystem :=
  {[ path42 := Log.Regular ("one" +:+ String Log.LF "") ]}.

Definition writer42 : Writer.logWriter :=
  {| Writer.logPath := "logs"; Writer.logID := 42;
     Writer.file := Some path42 |}.

(** A log directory: a fresh log, an old log, an old log that cannot be
    removed, an old file of another name and an old directory. *)
Definition day : Z := 86400000000000.

Definition logDir : list Retention.dirEntry :=
  [ {| Retention.Name := "jobhandler-1.log"; Retention.IsDir := false;
       Retention.Info := Ok {| Retention.ModTime := 9 * day; Retention.Size := 10 |};
       Retention.removeErr := None |};
    {| Retention.Name := "jobhandler-2.log"; Retention.IsDir := false;
       Retention.Info := Ok {| Retention.ModTime := 1 * day; Retention.Size := 20 |};
       Retention.removeErr := None |};
    {| Retention.Name := "jobhandler-3.log"; Retention.IsDir := false;
       Retention.Info := Ok {| Retention.ModTime := 1 * day; Retention.Size := 30 |};
       Retention.removeErr := Some (errorString "permission denied") |};
    {| Retention.Name := "app.log"; Retention.IsDir := false;
       Retention.Info := Ok {| Retention.ModTime := 1 * day; Retention.Size := 40 |};
       Retention.removeErr := None |};
    {| Retention.Name := "jobhandler-old.log"; Retention.IsDir := true;
       Retention.Info := Ok {| Retention.ModTime := 1 * day; Retention.Size := 50 |};
       Retention.removeErr := None |} ].

(** A configuration that is enabled and complete, and one without a
    server address. *)
Definition goodConfig : Options.Config :=
  {| Options.Enabled := true; Options.ServerAddr := "http://admin:8080/xxl-job-admin";
     Options.AccessToken := ""; Options.ExecutorIP := "";
     Options.ExecutorPort := "9999"; Options.RegistryKey := "demo-app";
     Options.LogPath := "logs"; Options.LogRetentionDays := 30;
     Options.EnableTrace := true; Options.QuietMode := false |}.

Definition noServerConfig : Options.Config :=
  {| Options.Enabled := true; Options.ServerAddr := "";
     Options.AccessToken := ""; Options.ExecutorIP := "";
     Options.ExecutorPort := "9999"; Options.RegistryKey := "demo-app";
     Options.LogPath := "logs"; Options.LogRetentionDays := 30;
     Options.EnableTrace := true; Options.QuietMode := false |}.

(** A context whose first wait is interrupted by cancellation. *)
Definition cancelledWhileWaiting : Runtime.context (W := Inputs.counted) :=
  {| Runtime.ctxErr :=
       fun w => if Nat.leb 2 (Inputs.calls w) then Some Inputs.Canceled else None;
     Runtime.waitDone := fun _ w => (true, Inputs.called w);
     Runtime.ctxLogWriter := None |}.

End MoreInputs.

(** * Properties *)

Module StringFacts.

Lemma append_nil_r (a : string) : a +:+ "" = a.
Proof.
  induction a as [|c a IH]; [done|].
  change (String c a +:+ "") with (String c (a +:+ "")). by rewrite IH.
Qed.

Lemma append_assoc (a b c : string) : (a +:+ b) +:+ c = a +:+ (b +:+ c).
Proof.
  induction a as [|x a IH]; [done|].
  change (String x (a +:+ b) +:+ c = String x (a +:+ (b +:+ c))).
  by rewrite <- IH.
Qed.

Lemma append_length (a b : string) :
  String.length (a +:+ b) = (String.length a + String.length b)%nat.
Proof.
  induction a as [|x a IH]; [done|].
  change (S (String.length (a +:+ b)) = S (String.length a + String.length b)).
  by rewrite IH.
Qed.

End StringFacts.

Module LogFacts.
Import Log StringFacts.

Lemma joinLines_cons l ls :
  joinLines (l :: ls) = l +:+ String LF (joinLines ls).
Proof.
  unfold joinLines.
  change (0 <? Z.of_nat (length (l :: ls))) with true. cbv iota.
  destruct ls as [|l' ls'].
  - reflexivity.
  - change (0 <? Z.of_nat (length (l' :: ls'))) with true. cbv iota.
    change (String.concat (String LF "") (l :: l' :: ls'))
      with (l +:+ String LF "" +:+ String.concat (String LF "") (l' :: ls')).
    rewrite !append_assoc. reflexivity.
Qed.

(** The content the reader builds from the lines it collected is the text
    of these lines, each followed by a newline. *)
Lemma joinLines_unlines ls : joinLines ls = unlines ls.
Proof.
  induction ls as [|l ls IH]; [done|].
  rewrite joinLines_cons, IH. done.
Qed.

Lemma rawLines_nil data cur :
  rawLines data cur = [] -> data = EmptyString /\ cur = EmptyString.
Proof.
  revert cur. induction data as [|c rest IH]; intros cur; simpl.
  - destruct cur; [auto | discriminate].
  - destruct (Ascii.eqb c LF); [discriminate |].
    intros H. apply IH in H as [_ H]. destruct cur; discriminate.
Qed.

Lemma scanLoop_skip pre post start ps lines li to :
  allShort pre = true ->
  li + Z.of_nat (length pre) < start ->
  scanLoop (pre ++ post) start ps lines li to
  = scanLoop post start ps lines (li + Z.of_nat (length pre)) to.
Proof.
  revert li. induction pre as [|raw pre IH]; intros li Hs Hlt; simpl in *.
  - by rewrite Z.add_0_r.
  - apply andb_prop in Hs as [Hr Hs]. apply negb_true_iff in Hr. rewrite Hr.
    destruct (Z.ltb_spec (li + 1) start); [|lia].
    rewrite IH; [f_equal; lia | done | lia].
Qed.

Lemma scanLoop_collect pending start ps lines li to :
  allShort pending = true ->
  start <= li + 1 ->
  Z.of_nat (length lines) < ps ->
  scanLoop pending start ps lines li to
  = let taken := take (Z.to_nat (ps - Z.of_nat (length lines)))
                   (dropCR <$> pending) in
    (lines ++ taken, li + Z.of_nat (length taken),
     match taken with [] => to | _ => li + Z.of_nat (length taken) end, None).
Proof.
  revert lines li to.
  induction pending as [|raw rest IH]; intros lines li to Hs Hst Hlen.
  - cbn. rewrite take_nil, app_nil_r, Z.add_0_r. done.
  - cbn [scanLoop]. simpl in Hs.
    apply andb_prop in Hs as [Hr Hs]. apply negb_true_iff in Hr. rewrite Hr.
    destruct (Z.ltb_spec (li + 1) start); [lia|].
    replace (Z.to_nat (ps - Z.of_nat (length lines)))
      with (S (Z.to_nat (ps - Z.of_nat (length (lines ++ [dropCR raw])))))
      by (rewrite length_app; simpl; lia).
    cbn [fmap list_fmap firstn]. cbv zeta.
    destruct (Z.leb_spec ps (Z.of_nat (length (lines ++ [dropCR raw]))))
      as [Hfull|Hmore].
    + replace (Z.to_nat (ps - Z.of_nat (length (lines ++ [dropCR raw]))))
        with 0%nat by lia.
      rewrite take_0. done.
    + rewrite IH by (done || lia). cbv zeta.
      rewrite <- app_assoc. simpl.
      set (T := take _ (dropCR <$> rest)).
      apply (f_equal2 pair); [apply (f_equal2 pair); [apply (f_equal2 pair)|]|];
        try done; try lia.
      destruct T; simpl; lia.
Qed.

Lemma scanLoop_whole raws start ps :
  allShort raws = true -> 0 <= start -> 0 < ps ->
  scanLoop raws start ps [] (-1) start
  = if Z.of_nat (length raws) <=? start
    then ([], Z.of_nat (length raws) - 1, start, None)
    else
      let page := take (Z.to_nat ps) (drop (Z.to_nat start) (dropCR <$> raws)) in
      (page, start + Z.of_nat (length page) - 1,
       start + Z.of_nat (length page) - 1, None).
Proof.
  intros Hs Hst Hps.
  destruct (Z.leb_spec (Z.of_nat (length raws)) start) as [Hout|Hin].
  - rewrite <- (app_nil_r raws) at 1.
    rewrite scanLoop_skip by (done || lia). cbn. repeat f_equal; lia.
  - set (k := Z.to_nat start).
    assert (Hk : (k < length raws)%nat) by lia.
    rewrite <- (take_drop k raws) at 1.
    assert (Hsplit : allShort (take k raws) = true /\ allShort (drop k raws) = true).
    { unfold allShort in *. rewrite <- (take_drop k raws) in Hs.
      rewrite forallb_app in Hs. by apply andb_prop in Hs. }
    destruct Hsplit as [Hpre Hpost].
    rewrite scanLoop_skip by (done || rewrite length_take; lia).
    rewrite scanLoop_collect by (done || rewrite ?length_take; simpl; lia).
    cbv zeta. rewrite fmap_drop. simpl length. rewrite Z.sub_0_r. simpl app.
    set (page := take (Z.to_nat ps) (drop k (dropCR <$> raws))).
    assert (Hpage : (0 < length page)%nat).
    { unfold page. rewrite length_take, length_drop, length_fmap. lia. }
    rewrite length_take.
    replace (-1 + Z.of_nat (k `min` length raws) + Z.of_nat (length page))
      with (start + Z.of_nat (length page) - 1) by lia.
    destruct page; [simpl in Hpage; lia | done].
Qed.

Lemma effectivePageSize_pos pageSize : 0 < effectivePageSize pageSize.
Proof.
  unfold effectivePageSize, defaultLogPageSize.
  destruct (Z.leb_spec pageSize 0); lia.
Qed.

Lemma fileLines_Some data ls :
  fileLines data = Some ls ->
  allShort (rawLines data "") = true /\ ls = dropCR <$> rawLines data "".
Proof.
  unfold fileLines.
  destruct (allShort _); [|discriminate]. intros [= <-]. done.
Qed.

Lemma fileLines_empty data :
  fileLines data = Some [] -> data = EmptyString.
Proof.
  intros H. apply fileLines_Some in H as [_ H].
  symmetry in H. apply fmap_nil_inv in H. by apply rawLines_nil in H as [].
Qed.

(** What a read of a non-empty regular file returns, in terms of the lines
    of the file. *)
Lemma read_regular (fs : fileSystem) path data ls fromLineNum pageSize :
  fs !! path = Some (Regular data) ->
  data <> EmptyString ->
  fileLines data = Some ls ->
  readLogFileWithPagination fs path fromLineNum pageSize
  = let start := Z.max fromLineNum 0 in
    let ps := effectivePageSize pageSize in
    let page := pageOf ls start ps in
    Ok (if Z.of_nat (length ls) <=? start
        then LogReadResult "" (Z.of_nat (length ls) - 1) true
        else LogReadResult (joinLines page)
               (start + Z.of_nat (length page) - 1)
               (Z.of_nat (length page) <? ps)).
Proof.
  intros Hfs Hne Hls. pose proof (fileLines_Some _ _ Hls) as [Hs ->].
  assert (Hlen : (0 < length (rawLines data ""))%nat).
  { destruct (rawLines data "") eqn:E; [|simpl; lia].
    apply rawLines_nil in E as [? _]. done. }
  unfold readLogFileWithPagination, osStat, osOpen. rewrite Hfs.
  assert (Hsz : (Z.of_nat (String.length data) =? 0) = false).
  { apply Z.eqb_neq. destruct data; [done | simpl; lia]. }
  rewrite Hsz.
  set (ps := if (maxLogFileSize <? Z.of_nat (String.length data)) && (pageSize <=? 0)
             then defaultLogPageSize else pageSize).
  assert (Hps : (if ps <=? 0 then defaultLogPageSize else ps)
                = effectivePageSize pageSize).
  { unfold ps, effectivePageSize.
    destruct (maxLogFileSize <? _); destruct (pageSize <=? 0) eqn:E;
      simpl; rewrite ?E; done. }
  rewrite Hps. clear Hps ps.
  pose proof (effectivePageSize_pos pageSize) as Hpos.
  replace (if fromLineNum <? 0 then 0 else fromLineNum)
    with (Z.max fromLineNum 0) by (destruct (Z.ltb_spec fromLineNum 0); lia).
  rewrite scanLoop_whole by (done || lia).
  cbv zeta. rewrite length_fmap. unfold pageOf.
  destruct (Z.leb_spec (Z.of_nat (length (rawLines data ""))) (Z.max fromLineNum 0))
    as [Hout|Hin].
  - destruct (Z.ltb_spec (Z.of_nat (length (rawLines data "")) - 1)
                (Z.max fromLineNum 0)); [|lia].
    destruct (Z.ltb_spec (Z.of_nat (length (rawLines data "")) - 1) 0); [lia|done].
  - set (page := take _ _).
    assert (Hpage : (0 < length page)%nat).
    { unfold page. rewrite length_take, length_drop, length_fmap. lia. }
    destruct (Z.ltb_spec (Z.max fromLineNum 0 + Z.of_nat (length page) - 1)
                (Z.max fromLineNum 0)); [lia | done].
Qed.

Lemma fileLines_nonempty data ls :
  fileLines data = Some ls -> ls <> [] -> data <> EmptyString.
Proof. intros H Hne ->. cbv in H. congruence. Qed.

Lemma pageOf_length ls start ps :
  0 <= start -> 0 <= ps ->
  Z.of_nat (length (pageOf ls start ps))
  = Z.min ps (Z.max 0 (Z.of_nat (length ls) - start)).
Proof. intros. unfold pageOf. rewrite length_take, length_drop. lia. Qed.

Lemma effectivePageSize_id pageSize :
  0 < pageSize -> effectivePageSize pageSize = pageSize.
Proof. intros. unfold effectivePageSize. destruct (Z.leb_spec pageSize 0); lia. Qed.

(** C2, as the code has it: for a file of [N >= 1] lines, none of them of
    1 MiB or more ([fileLines data = Some ls]: the scanner delivers the
    lines [ls] and no piece is too long for its buffer), a read from line 0
    with a page size of at least [N] returns as content the [N] lines, each
    followed by a newline, and [toLineNum = N-1]; [isEnd] is true exactly
    when the page size is larger than [N], and false at [pageSize = N]. *)
Theorem read_whole_file (fs : fileSystem) path data ls pageSize :
  fs !! path = Some (Regular data) ->
  fileLines data = Some ls ->
  (1 <= length ls)%nat ->
  Z.of_nat (length ls) <= pageSize ->
  readLogFileWithPagination fs path 0 pageSize
  = Ok (LogReadResult (unlines ls) (Z.of_nat (length ls) - 1)
          (Z.of_nat (length ls) <? pageSize)).
Proof.
  intros Hfs Hls Hn Hps.
  assert (Hne : data <> EmptyString).
  { apply (fileLines_nonempty _ ls); [done | destruct ls; simpl in *; [lia | done]]. }
  rewrite (read_regular _ _ _ _ _ _ Hfs Hne Hls). cbv zeta.
  rewrite effectivePageSize_id by lia. change (Z.max 0 0) with 0.
  destruct (Z.leb_spec (Z.of_nat (length ls)) 0); [lia|].
  assert (Hpage : pageOf ls 0 pageSize = ls).
  { unfold pageOf. change (Z.to_nat 0) with 0%nat. rewrite drop_0.
    by rewrite take_ge by lia. }
  rewrite Hpage, joinLines_unlines. reflexivity.
Qed.

Lemma read_whole_file_witness :
  readLogFileWithPagination Inputs.threeLinesFs "jobhandler-3.log" 0 5
  = Ok (LogReadResult (unlines ["one"; "two"; "three"]) 2 true).
Proof.
  apply (read_whole_file Inputs.threeLinesFs "jobhandler-3.log"
           Inputs.threeLines ["one"; "two"; "three"] 5);
    [reflexivity | reflexivity | simpl; lia | simpl; lia].
Defined.

(** C2 as stated fails: a file of one line read with [pageSize = 1] from
    line 0 returns the line with [isEnd = false]. *)
Lemma read_whole_file_exact_page_not_end :
  fileLines Inputs.oneLine = Some ["a"] /\
  readLogFileWithPagination Inputs.oneLineFs "jobhandler-1.log" 0 1
  = Ok (LogReadResult Inputs.oneLine 0 false) /\
  readLogFileWithPagination Inputs.oneLineFs "jobhandler-1.log" 0 1
  <> Ok (LogReadResult (joinLines ["a"]) 0 true).
Proof.
  split; [reflexivity | split; [reflexivity |]].
  intros H. vm_compute in H. discriminate H.
Qed.

(** C3, as the code has it: in a non-empty file of [N] lines, none of them
    of 1 MiB or more ([fileLines data = Some ls]), a read from line [k],
    [0 <= k < N], with a page size [p], [0 < p < N-k], returns as content
    exactly the [p] lines [k .. k+p-1], each followed by a newline,
    [toLineNum = k+p-1] and [isEnd = false]; and for every start line and
    every positive page size the content is the lines of the page and
    [isEnd] is true if and only if fewer than [pageSize] lines were
    collected. *)
Theorem read_page (fs : fileSystem) path data ls k p :
  fs !! path = Some (Regular data) ->
  fileLines data = Some ls ->
  0 <= k < Z.of_nat (length ls) ->
  0 < p < Z.of_nat (length ls) - k ->
  readLogFileWithPagination fs path k p
  = Ok (LogReadResult (unlines (pageOf ls k p)) (k + p - 1) false) /\
  Z.of_nat (length (pageOf ls k p)) = p /\
  (forall j, (j < Z.to_nat p)%nat ->
     pageOf ls k p !! j = ls !! (Z.to_nat k + j)%nat) /\
  (forall fromLineNum pageSize, 0 < pageSize ->
     exists r,
       readLogFileWithPagination fs path fromLineNum pageSize = Ok r /\
       Content r = unlines (pageOf ls (Z.max fromLineNum 0) pageSize) /\
       (IsEnd r = true <->
        Z.of_nat (length (pageOf ls (Z.max fromLineNum 0) pageSize)) < pageSize)).
Proof.
  intros Hfs Hls Hk Hp.
  assert (Hne : data <> EmptyString).
  { apply (fileLines_nonempty _ ls); [done | destruct ls; simpl in *; [lia | done]]. }
  assert (Hlen : Z.of_nat (length (pageOf ls k p)) = p)
    by (rewrite pageOf_length; lia).
  repeat split.
  - rewrite (read_regular _ _ _ _ _ _ Hfs Hne Hls). cbv zeta.
    rewrite effectivePageSize_id by lia.
    replace (Z.max k 0) with k by lia.
    destruct (Z.leb_spec (Z.of_nat (length ls)) k); [lia|].
    rewrite Hlen, joinLines_unlines.
    destruct (Z.ltb_spec p p); [lia|]. reflexivity.
  - done.
  - intros j Hj. unfold pageOf.
    rewrite lookup_take_lt by lia. by rewrite lookup_drop.
  - intros fromLineNum pageSize Hps.
    rewrite (read_regular _ _ _ _ _ _ Hfs Hne Hls); cbv zeta.
    rewrite effectivePageSize_id by lia.
    destruct (Z.leb_spec (Z.of_nat (length ls)) (Z.max fromLineNum 0)) as [Ho|Hi].
    + eexists; split; [done|]. simpl. split.
      * unfold pageOf. rewrite drop_ge by lia. by rewrite take_nil.
      * rewrite pageOf_length by lia. split; [lia | done].
    + eexists; split; [done|]. simpl.
      split; [apply joinLines_unlines | apply Z.ltb_lt].
Qed.

Lemma read_page_witness :
  readLogFileWithPagination Inputs.threeLinesFs "jobhandler-3.log" 1 1
  = Ok (LogReadResult (unlines ["two"]) 1 false).
Proof.
  apply (read_page Inputs.threeLinesFs "jobhandler-3.log"
           Inputs.threeLines ["one"; "two"; "three"] 1 1);
    [reflexivity | reflexivity | simpl; lia | simpl; lia].
Defined.

(** C4, as the code has it: in a file of [N] lines, none of them of 1 MiB
    or more ([fileLines data = Some ls]), a read that starts at or after the
    end of the file ([fromLineNum >= N]) returns no content and
    [isEnd = true]; [toLineNum] is [N-1] when the file has lines.  A read of
    an empty file, from any line, returns no content, [isEnd = true] and
    [toLineNum = max(fromLineNum, 0)]. *)
Theorem read_past_end (fs : fileSystem) path data ls fromLineNum pageSize :
  fs !! path = Some (Regular data) ->
  fileLines data = Some ls ->
  Z.of_nat (length ls) <= fromLineNum \/ ls = [] ->
  readLogFileWithPagination fs path fromLineNum pageSize
  = Ok (LogReadResult ""
          (match ls with
           | [] => Z.max fromLineNum 0
           | _ => Z.of_nat (length ls) - 1
           end) true).
Proof.
  intros Hfs Hls Hfrom. destruct ls as [|l ls].
  - apply fileLines_empty in Hls as ->.
    unfold readLogFileWithPagination, osStat. rewrite Hfs. simpl.
    destruct (Z.ltb_spec fromLineNum 0); do 2 f_equal; lia.
  - destruct Hfrom as [Hfrom|]; [|done].
    assert (Hne : data <> EmptyString) by by apply (fileLines_nonempty _ (l :: ls)).
    rewrite (read_regular _ _ _ _ _ _ Hfs Hne Hls). cbv zeta.
    destruct (Z.leb_spec (Z.of_nat (length (l :: ls))) (Z.max fromLineNum 0));
      [done | lia].
Qed.

Lemma read_past_end_witness :
  readLogFileWithPagination Inputs.threeLinesFs "jobhandler-3.log" 7 10
  = Ok (LogReadResult "" 2 true) /\
  readLogFileWithPagination Inputs.emptyFs "jobhandler-0.log" 4 10
  = Ok (LogReadResult "" 4 true) /\
  readLogFileWithPagination Inputs.emptyFs "jobhandler-0.log" (-4) 10
  = Ok (LogReadResult "" 0 true).
Proof.
  split; [|split].
  - apply (read_past_end Inputs.threeLinesFs "jobhandler-3.log"
             Inputs.threeLines ["one"; "two"; "three"] 7 10);
      [reflexivity | reflexivity | left; simpl; lia].
  - apply (read_past_end Inputs.emptyFs "jobhandler-0.log" "" [] 4 10);
      [reflexivity | reflexivity | left; simpl; lia].
  - apply (read_past_end Inputs.emptyFs "jobhandler-0.log" "" [] (-4) 10);
      [reflexivity | reflexivity | right; reflexivity].
Defined.

Lemma newlines_length n : String.length (newlines n) = n.
Proof. induction n; simpl; congruence. Qed.

Lemma newlines_rawLines n : rawLines (newlines n) "" = replicate n "".
Proof.
  induction n as [|n IH]; [done|].
  cbn [newlines rawLines]. rewrite Ascii.eqb_refl. by rewrite IH.
Qed.

Lemma newlines_fileLines n : fileLines (newlines n) = Some (replicate n "").
Proof.
  unfold fileLines. rewrite newlines_rawLines.
  assert (Hs : allShort (replicate n "") = true) by (induction n; simpl; done).
  rewrite Hs. by rewrite fmap_replicate.
Qed.

(** A file of [n] empty lines read from line 0 with a page size [p < n]. *)
Lemma read_newlines (fs : fileSystem) path n p :
  fs !! path = Some (Regular (newlines n)) ->
  (0 < p < n)%nat ->
  readLogFileWithPagination fs path 0 (Z.of_nat p)
  = Ok (LogReadResult (joinLines (replicate p "")) (Z.of_nat p - 1) false).
Proof.
  intros Hfs Hp.
  assert (Hne : newlines n <> EmptyString) by (destruct n; [lia | done]).
  rewrite (read_regular _ _ _ _ _ _ Hfs Hne (newlines_fileLines n)). cbv zeta.
  rewrite effectivePageSize_id by lia. change (Z.max 0 0) with 0.
  rewrite length_replicate.
  destruct (Z.leb_spec (Z.of_nat n) 0); [lia|].
  assert (Hpage : pageOf (replicate n "") 0 (Z.of_nat p) = replicate p "").
  { unfold pageOf. rewrite Nat2Z.id. change (Z.to_nat 0) with 0%nat.
    rewrite drop_0, take_replicate. by replace (p `min` n)%nat with p by lia. }
  rewrite Hpage, length_replicate.
  destruct (Z.ltb_spec (Z.of_nat p) (Z.of_nat p)); [lia | done].
Qed.

Lemma countLF_app a b : countLF (a +:+ b) = (countLF a + countLF b)%nat.
Proof. induction a as [|c a IH]; simpl; [done|]. rewrite IH. lia. Qed.

Lemma rawLines_noLF data cur :
  countLF cur = 0%nat -> Forall (fun l => countLF l = 0%nat) (rawLines data cur).
Proof.
  revert cur. induction data as [|c rest IH]; intros cur Hcur; simpl.
  - destruct cur; [constructor | by repeat constructor].
  - destruct (Ascii.eqb c LF) eqn:E.
    + constructor; [done | by apply IH].
    + apply IH. rewrite countLF_app. simpl. rewrite E. lia.
Qed.

Lemma dropCR_noLF s : countLF s = 0%nat -> countLF (dropCR s) = 0%nat.
Proof.
  induction s as [|c rest IH]; [done|]. intros H.
  destruct rest as [|c' rest'].
  - simpl. by destruct (Ascii.eqb c CR).
  - change (dropCR (String c (String c' rest')))
      with (String c (dropCR (String c' rest'))).
    simpl in H. simpl countLF at 1.
    destruct (Ascii.eqb c LF); [lia|]. apply IH. simpl. lia.
Qed.

Lemma fileLines_noLF data ls :
  fileLines data = Some ls -> Forall (fun l => countLF l = 0%nat) ls.
Proof.
  intros H. apply fileLines_Some in H as [_ ->].
  apply Forall_fmap. eapply Forall_impl; [by apply rawLines_noLF|].
  intros l Hl. by apply dropCR_noLF.
Qed.

Lemma countLF_joinLines ls :
  Forall (fun l => countLF l = 0%nat) ls -> countLF (joinLines ls) = length ls.
Proof.
  unfold joinLines. intros H.
  assert (Hc : countLF (String.concat (String LF "") ls) = pred (length ls)).
  { induction H as [|l ls Hl Hls IH]; [done|].
    destruct ls as [|l' ls']; [done|].
    change (String.concat (String LF "") (l :: l' :: ls'))
      with (l +:+ String LF "" +:+ String.concat (String LF "") (l' :: ls')).
    rewrite !countLF_app, Hl, IH. simpl. rewrite ?Ascii.eqb_refl. lia. }
  destruct ls as [|l ls]; [done|].
  change (0 <? Z.of_nat (length (l :: ls))) with true. cbv iota.
  rewrite countLF_app, Hc. simpl. rewrite ?Ascii.eqb_refl. lia.
Qed.

(** C9 as stated fails: a file larger than [maxLogFileSize] read with
    [pageSize = 1001] returns 1001 lines, more than [defaultLogPageSize]. *)
Lemma big_file_page_not_capped :
  maxLogFileSize < Z.of_nat (String.length Inputs.bigFile) /\
  readLogFileWithPagination Inputs.bigFs "jobhandler-9.log" 0 1001
  = Ok (LogReadResult (newlines 1001) 1000 false) /\
  defaultLogPageSize < Z.of_nat (countLF (newlines 1001)).
Proof.
  split; [|split].
  - unfold Inputs.bigFile. rewrite newlines_length. unfold maxLogFileSize. lia.
  - assert (Hjoin : joinLines (replicate 1001 "") = newlines 1001)
      by (vm_compute; reflexivity).
    rewrite <- Hjoin.
    apply (read_newlines Inputs.bigFs "jobhandler-9.log"
             (Z.to_nat 10485761) 1001).
    + apply lookup_singleton_eq.
    + lia.
  - vm_compute. reflexivity.
Qed.

(** C9, as the code has it: for a file larger than [maxLogFileSize], with
    no line of 1 MiB or more, the default page size stands in for a page
    size of zero or less only; a positive page size of the caller is used
    as it is, also when it is larger than the default.  One call returns
    the lines of the page that starts at [max(fromLineNum, 0)] and has that
    page size: as many lines as the page size says, or all that are left in
    the file when these are fewer. *)
Theorem big_file_page_size (fs : fileSystem) path data ls fromLineNum pageSize :
  fs !! path = Some (Regular data) ->
  fileLines data = Some ls ->
  maxLogFileSize < Z.of_nat (String.length data) ->
  exists r,
    readLogFileWithPagination fs path fromLineNum pageSize = Ok r /\
    Content r
    = unlines (pageOf ls (Z.max fromLineNum 0)
                 (if pageSize <=? 0 then defaultLogPageSize else pageSize)) /\
    Z.of_nat (countLF (Content r))
    = Z.min (if pageSize <=? 0 then defaultLogPageSize else pageSize)
        (Z.max 0 (Z.of_nat (length ls) - Z.max fromLineNum 0)).
Proof.
  intros Hfs Hls Hbig.
  assert (Hne : data <> EmptyString).
  { intros ->. unfold maxLogFileSize in Hbig. simpl in Hbig. lia. }
  rewrite (read_regular _ _ _ _ _ _ Hfs Hne Hls). cbv zeta.
  pose proof (effectivePageSize_pos pageSize) as Hpos.
  fold (effectivePageSize pageSize).
  set (start := Z.max fromLineNum 0). set (ps := effectivePageSize pageSize).
  assert (Hpage : Z.of_nat (countLF (joinLines (pageOf ls start ps)))
                  = Z.min ps (Z.max 0 (Z.of_nat (length ls) - start))).
  { rewrite countLF_joinLines.
    - apply pageOf_length; unfold start; lia.
    - unfold pageOf. apply Forall_take, Forall_drop.
      by apply (fileLines_noLF data). }
  eexists. split; [done|].
  destruct (Z.leb_spec (Z.of_nat (length ls)) start) as [Hout|Hin]; simpl.
  - assert (Hnil : pageOf ls start ps = []).
    { unfold pageOf. rewrite drop_ge by lia. by rewrite take_nil. }
    rewrite Hnil. simpl. split; [done | lia].
  - split; [apply joinLines_unlines | exact Hpage].
Qed.

Lemma big_file_page_size_witness :
  exists r,
    readLogFileWithPagination Inputs.bigFs "jobhandler-9.log" 0 0 = Ok r /\
    Content r = unlines (pageOf (replicate (Z.to_nat 10485761) "") 0 1000) /\
    Z.of_nat (countLF (Content r)) = 1000.
Proof.
  destruct (big_file_page_size Inputs.bigFs "jobhandler-9.log" Inputs.bigFile
              (replicate (Z.to_nat 10485761) "") 0 0)
    as (r & Hr & Hc & Hn).
  - apply lookup_singleton_eq.
  - apply newlines_fileLines.
  - unfold Inputs.bigFile. rewrite newlines_length. unfold maxLogFileSize. lia.
  - exists r. split; [exact Hr|]. split; [exact Hc|].
    rewrite Hn, length_replicate. unfold defaultLogPageSize.
    change (0 <=? 0) with true. cbv iota. lia.
Defined.

End LogFacts.


Module MiddlewareFacts.
Import Runtime.

Section Chain.
Context {W : Type}.
Implicit Types (h next : TaskHandler (W := W)) (ms : list (Middleware (W := W))).

Lemma chainLoop_take ms k next :
  (k <= length ms)%nat -> chainLoop ms k next = nested (take k ms) next.
Proof.
  revert next. induction k as [|k IH]; intros next Hk; cbn [chainLoop].
  - done.
  - destruct (lookup_lt_is_Some_2 ms k) as [m Hm]; [lia|].
    match goal with
    | |- context [match ?x with _ => _ end] =>
        replace x with (Some m) by (symmetry; exact Hm)
    end.
    rewrite IH by lia.
    rewrite (take_S_r _ _ _ Hm). unfold nested. by rewrite foldr_app.
Qed.

(** C7: [Chain ms] applied to [h] is the nested application
    [m1 (m2 (... (mn h)))], the first middleware outermost; with no
    middleware, [Chain] and [applyMiddlewares] hand back [h] itself. *)
Theorem Chain_nested ms h :
  Chain ms h = nested ms h /\
  applyMiddlewares h ms = nested ms h /\
  (forall m1 m2 m3 : Middleware,
     Chain [m1; m2; m3] h = m1 (m2 (m3 h))) /\
  Chain [] h = h /\
  applyMiddlewares h [] = h.
Proof.
  assert (Hchain : forall ms', Chain ms' h = nested ms' h).
  { intros ms'. unfold Chain. rewrite chainLoop_take by done.
    by rewrite firstn_all. }
  repeat split; try done.
  unfold applyMiddlewares. destruct ms; [done|]. simpl Nat.eqb. cbv iota.
  apply Hchain.
Qed.

(** C8: when the wrapped handler panics with any value, the handler built
    by RecoveryMiddleware returns an error that is not nil and describes
    the value: the value itself when it is an error, and otherwise a
    [panicError] whose text is ["panic: "] followed by the value; and no
    call of a handler built by RecoveryMiddleware panics. *)
Theorem Recovery_contains_panic next (ctx : context) param (w w' : W) r :
  next ctx param w = (Panics r, w') ->
  RecoveryMiddleware next ctx param w = (Returns (Some (recovered r)), w') /\
  match r with
  | PanicWithError e => recovered r = e
  | PanicWithValue v =>
      recovered r = panicError v /\
      errorText (recovered r) = "panic: " +:+ fmtV v
  end /\
  (forall next' (ctx' : context) param' (w0 : W) r0,
     fst (RecoveryMiddleware next' ctx' param' w0) <> Panics r0).
Proof.
  intros Hp. split; [|split].
  - unfold RecoveryMiddleware. by rewrite Hp.
  - by destruct r.
  - intros next' ctx' param' w0 r0. unfold RecoveryMiddleware.
    by destruct (next' ctx' param' w0) as [[?|?] ?].
Qed.

End Chain.

Lemma Recovery_contains_panic_witness :
  RecoveryMiddleware Inputs.panics Inputs.background "p" Inputs.fresh
  = (Returns (Some (panicError (AnyValue "out of luck"))),
     Inputs.called Inputs.fresh) /\
  errorText (recovered (PanicWithValue (AnyValue "out of luck")))
  = "panic: out of luck".
Proof.
  destruct (Recovery_contains_panic Inputs.panics Inputs.background "p"
              Inputs.fresh (Inputs.called Inputs.fresh)
              (PanicWithValue (AnyValue "out of luck")))
    as (Hrun & [_ Htext] & _); [reflexivity|].
  split; [exact Hrun | exact Htext].
Defined.

End MiddlewareFacts.

Module ExecutorFacts.
Import Runtime.

Section Execute.
Context {W : Type}.

(** C1: whatever the handler returns, executeTaskWithTrace returns a nil
    error; its result text is ["SUCCESS"] when the handler returns nil and
    ["FAIL: "] followed by the error's message when it returns an error. *)
Theorem executeTaskWithTrace_result (env : Env (W := W)) (ctx : context)
    taskName param logID handler enableTrace (w w' : W) herr :
  handler ctx param (startedWorld env ctx taskName param logID enableTrace w)
  = (Returns herr, w') ->
  fst (executeTaskWithTrace env ctx taskName param logID handler enableTrace w)
  = Returns (match herr with
             | None => "SUCCESS"
             | Some e => "FAIL: " +:+ errorText e
             end, None).
Proof.
  unfold startedWorld, executeTaskWithTrace. intros ->.
  by destruct herr as [e|].
Qed.

(** An invocation leaves the executor's last error as it was. *)
Lemma taskFunc_lastError (env : Env (W := W)) taskName wrappedHandler e
    (ctx : context) param (w : W) :
  lastError (snd (taskFunc env taskName wrappedHandler e ctx param w))
  = lastError e.
Proof.
  unfold taskFunc.
  destruct param as [req|]; cbv zeta.
  all: repeat match goal with
       | |- context [let '(_, _) := ?x in _] => destruct x eqn:?
       | |- context [match ?x with _ => _ end] => destruct x eqn:?
       end; simpl; try done.
  all: match goal with
       | H : executeTaskWithTrace _ _ _ _ _ _ _ _ = (Returns (_, Some _), _) |- _ =>
           unfold executeTaskWithTrace in H;
           repeat match type of H with
           | context [match ?x with _ => _ end] => destruct x eqn:?
           end; simplify_eq
       end.
Qed.

(** So the health status after an invocation reports the last error it
    reported before. *)
Lemma invoke_LastError (env : Env (W := W)) taskName e (ctx : context) param
    (w w' : W) res e' :
  invoke env taskName e ctx param w = Some (res, w', e') ->
  LastError (GetHealthStatus e') = LastError (GetHealthStatus e).
Proof.
  unfold invoke. destruct (sdkTasks e !! taskName) as [h|]; [|done].
  intros [= H]. unfold GetHealthStatus. simpl.
  apply (f_equal snd) in H. simpl in H. rewrite <- H.
  apply taskFunc_lastError.
Qed.

End Execute.

Lemma executeTaskWithTrace_result_witness :
  fst (executeTaskWithTrace Inputs.recording Inputs.background
         "demoJob" "{}" 42 Inputs.boom true [])
  = Returns ("FAIL: boom", None).
Proof.
  apply (executeTaskWithTrace_result Inputs.recording Inputs.background
           "demoJob" "{}" 42 Inputs.boom true []
           (startedWorld Inputs.recording Inputs.background "demoJob" "{}" 42 true [])
           (Some (errorString "boom"))).
  reflexivity.
Defined.

(** C5, on the code: the task ["demoJob"] is registered and its handler
    fails with ["boom"]; the invocation answers ["FAIL: boom"], and the
    health status taken afterwards has no last error. *)
Theorem failed_invocation_leaves_no_last_error :
  sdkTasks Inputs.demoExecutor !! "demoJob" = Some Inputs.boom /\
  exists w e,
    invoke Inputs.recording "demoJob" Inputs.demoExecutor Inputs.background
      (Some Inputs.demoReq) []
    = Some (Returns "FAIL: boom", w, e) /\
    LastError (GetHealthStatus e) = None.
Proof.
  split; [reflexivity|].
  unfold invoke.
  replace (sdkTasks Inputs.demoExecutor !! "demoJob") with (Some Inputs.boom)
    by reflexivity.
  destruct (taskFunc Inputs.recording "demoJob" Inputs.boom Inputs.demoExecutor
              Inputs.background (Some Inputs.demoReq) []) as [[res w] e] eqn:E.
  exists w, e. split.
  - f_equal. f_equal. f_equal.
    apply (f_equal (fun x => fst (fst x))) in E. simpl in E. rewrite <- E.
    reflexivity.
  - unfold GetHealthStatus. simpl.
    apply (f_equal snd) in E. simpl in E. rewrite <- E.
    by rewrite taskFunc_lastError.
Qed.

End ExecutorFacts.

Module RetryFacts.
Import Runtime.

Lemma wrapInt64_mod z : wrapInt64 z mod 2 ^ 64 = z mod 2 ^ 64.
Proof.
  unfold wrapInt64. rewrite Zminus_mod_idemp_l. f_equal. lia.
Qed.

Lemma wrapInt64_congr a b : a mod 2 ^ 64 = b mod 2 ^ 64 -> wrapInt64 a = wrapInt64 b.
Proof.
  intros H. unfold wrapInt64.
  rewrite (Z.add_mod a), (Z.add_mod b), H by lia. done.
Qed.

Lemma wrapInt64_id z : - 2 ^ 63 <= z < 2 ^ 63 -> wrapInt64 z = z.
Proof. intros H. unfold wrapInt64. rewrite Z.mod_small; lia. Qed.

(** Without overflow a [time.Duration] product is the product. *)
Lemma mulDuration_exact d k :
  - 2 ^ 63 <= d * k < 2 ^ 63 -> mulDuration d k = d * k.
Proof. apply wrapInt64_id. Qed.

Lemma mulDuration_double d (j : nat) :
  mulDuration (mulDuration d (2 ^ Z.of_nat j)) 2
  = mulDuration d (2 ^ Z.of_nat (S j)).
Proof.
  unfold mulDuration. apply wrapInt64_congr.
  rewrite Z.mul_mod, wrapInt64_mod, <- Z.mul_mod by lia.
  f_equal. rewrite Nat2Z.inj_succ, Z.pow_succ_r by lia. ring.
Qed.

Section Retry.
Context {W : Type}.
Implicit Types (backoff : cell (W := W)) (next : TaskHandler (W := W))
  (ctx : context (W := W)) (w : W) (tr waited : list retryEvent).

(** One iteration of the loop: the wait, when it is not the first, and
    then the attempt. *)
Lemma retryLoop_S backoff next ctx param remaining i lastErr w :
  retryLoop backoff next ctx param (S remaining) i lastErr w
  = if 0 <? i then
      match waitDone ctx (load backoff w) w with
      | (true, w1) =>
          (Returns (ctxErr ctx w1), w1, [EvWait (load backoff w); EvCancelled])
      | (false, w1) =>
          attemptFrom backoff next ctx param remaining i
            [EvWait (load backoff w)]
            (store backoff (mulDuration (load backoff w1) 2) w1)
      end
    else attemptFrom backoff next ctx param remaining i [] w.
Proof.
  cbn [retryLoop]. destruct (0 <? i); [|done].
  by destruct (waitDone ctx (load backoff w) w) as [[|] w1].
Qed.

Lemma closes_cons res ev tr :
  terminal ev = false -> closes res tr -> closes res (ev :: tr).
Proof.
  intros Hev Htr. simpl. destruct tr; [by destruct ev as [| | |? []|] | done].
Qed.

Lemma closes_app res waited tr :
  Forall (fun ev => terminal ev = false) waited ->
  closes res tr -> closes res (waited ++ tr).
Proof.
  induction 1 as [|ev waited Hev _ IH]; intros Htr; [done|].
  apply closes_cons; auto.
Qed.

Lemma closes_last res pre ev post :
  closes res (pre ++ ev :: post) -> terminal ev = true ->
  post = [] /\ agrees res ev.
Proof.
  induction pre as [|x pre IH]; simpl; intros Hc Hev.
  - destruct post; [done|]. destruct Hc as [Hc _]. congruence.
  - destruct (pre ++ ev :: post) eqn:E; [by destruct pre|].
    destruct Hc as [_ Hc]. by apply IH.
Qed.

Lemma retryLoop_closes backoff next ctx param remaining i lastErr w :
  closes (retryLoop backoff next ctx param remaining i lastErr w).1.1
         (retryLoop backoff next ctx param remaining i lastErr w).2.
Proof.
  revert i lastErr w.
  induction remaining as [|remaining IH]; intros i lastErr w; [done|].
  assert (Hgo : forall waited w1,
            Forall (fun ev => terminal ev = false) waited ->
            closes (attemptFrom backoff next ctx param remaining i waited w1).1.1
                   (attemptFrom backoff next ctx param remaining i waited w1).2).
  { intros waited w1 Hw. unfold attemptFrom.
    destruct (next ctx param w1) as [[[e|]|r] w2];
      [| by apply closes_app | by apply closes_app].
    destruct (ctxErr ctx w2); [by apply closes_app|].
    specialize (IH (i + 1) (Some e) w2).
    destruct (retryLoop backoff next ctx param remaining (i + 1) (Some e) w2)
      as [[res w3] evs].
    apply closes_app; [done|]. by apply closes_cons. }
  rewrite retryLoop_S. destruct (0 <? i); [|by apply Hgo].
  destruct (waitDone ctx (load backoff w) w) as [[|] w1]; [done|].
  apply Hgo. by repeat constructor.
Qed.

Lemma attempts_app tr1 tr2 :
  attempts (tr1 ++ tr2) = (attempts tr1 + attempts tr2)%nat.
Proof. unfold attempts. by rewrite List.filter_app, length_app. Qed.

Lemma retryLoop_attempts backoff next ctx param remaining i lastErr w :
  (attempts (retryLoop backoff next ctx param remaining i lastErr w).2
   <= remaining)%nat.
Proof.
  revert i lastErr w.
  induction remaining as [|remaining IH]; intros i lastErr w; [done|].
  assert (Hgo : forall waited w1,
            (attempts (attemptFrom backoff next ctx param remaining i waited w1).2
             <= attempts waited + S remaining)%nat).
  { intros waited w1. unfold attemptFrom.
    destruct (next ctx param w1) as [[[e|]|r] w2]; cbn [snd];
      [| rewrite attempts_app; cbn; lia | rewrite attempts_app; cbn; lia].
    destruct (ctxErr ctx w2); cbn [snd]; [rewrite attempts_app; cbn; lia|].
    specialize (IH (i + 1) (Some e) w2).
    destruct (retryLoop backoff next ctx param remaining (i + 1) (Some e) w2)
      as [[res w3] evs].
    cbn [snd] in *. rewrite attempts_app.
    change (attempts (EvFailed e None :: evs)) with (S (attempts evs)). lia. }
  rewrite retryLoop_S. destruct (0 <? i); [|apply (Hgo [])].
  destruct (waitDone ctx (load backoff w) w) as [[|] w1];
    [simpl; unfold attempts; simpl; lia|].
  apply (Hgo [EvWait (load backoff w)]).
Qed.

(** The loop when every attempt fails, the context stays live and nothing
    but the loop assigns the variable [backoff]: at iteration [j] the
    variable holds [base * 2^(j-1)]. *)
Lemma retryLoop_all_fail backoff next ctx param base :
  (forall v w0, load backoff (store backoff v w0) = v) ->
  (forall w0, exists e w1,
     next ctx param w0 = (Returns (Some e), w1) /\
     load backoff w1 = load backoff w0) ->
  (forall w0, ctxErr ctx w0 = None) ->
  (forall d w0, exists w1,
     waitDone ctx d w0 = (false, w1) /\ load backoff w1 = load backoff w0) ->
  forall remaining (j : nat) lastErr w,
  load backoff w = mulDuration base (2 ^ Z.of_nat (pred j)) ->
  exists errs w',
    length errs = remaining /\
    retryLoop backoff next ctx param remaining (Z.of_nat j) lastErr w
    = (Returns (match last errs with Some e => Some e | None => lastErr end),
       w', failedRun base j errs) /\
    load backoff w'
    = mulDuration base (2 ^ Z.of_nat (pred (j + remaining))).
Proof.
  intros Hcell Hfail Hlive Hwait.
  induction remaining as [|remaining IH]; intros j lastErr w Hvar.
  - exists [], w. by rewrite Nat.add_0_r.
  - rewrite retryLoop_S. unfold attemptFrom. destruct j as [|j].
    + change (0 <? Z.of_nat 0) with false. cbv iota.
      destruct (Hfail w) as (e & w1 & -> & Hkeep). rewrite Hlive.
      destruct (IH 1%nat (Some e) w1) as (errs & w' & Hlen & Hrun & Hend);
        [by rewrite Hkeep|].
      change (Z.of_nat 0 + 1) with (Z.of_nat 1). rewrite Hrun.
      exists (e :: errs), w'. split; [simpl; lia|]. split.
      * rewrite last_cons. simpl. by destruct (last errs).
      * rewrite Hend. f_equal; f_equal; lia.
    + replace (0 <? Z.of_nat (S j)) with true by (symmetry; apply Z.ltb_lt; lia).
      cbv iota. simpl pred in Hvar.
      destruct (Hwait (load backoff w) w) as (w1 & -> & Hkeep1).
      set (w1' := store backoff (mulDuration (load backoff w1) 2) w1).
      destruct (Hfail w1') as (e & w2 & -> & Hkeep2). rewrite Hlive.
      destruct (IH (S (S j)) (Some e) w2) as (errs & w' & Hlen & Hrun & Hend).
      { rewrite Hkeep2. unfold w1'. rewrite Hcell, Hkeep1, Hvar.
        apply mulDuration_double. }
      replace (Z.of_nat (S j) + 1) with (Z.of_nat (S (S j))) by lia.
      rewrite Hrun, Hvar.
      exists (e :: errs), w'. split; [simpl; lia|]. split.
      * rewrite last_cons. simpl. by destruct (last errs).
      * rewrite Hend. f_equal; f_equal; lia.
Qed.

(** What holds of every call of a handler built by
    [RetryMiddleware maxRetries backoff], [maxRetries >= 0]: at most
    [maxRetries + 1] attempts; nil as soon as an attempt succeeds; and when
    every attempt fails and the context is never cancelled, [maxRetries + 1]
    attempts with the last error returned, the waits being [v], [2 * v],
    [4 * v], ... for [v] the content of the variable [backoff] when the
    call starts, and the variable left at [v * 2^maxRetries]. *)
Lemma Retry_call maxRetries backoff next ctx param w :
  0 <= maxRetries ->
  let run := retryRun maxRetries backoff next ctx param w in
  RetryMiddleware maxRetries backoff next ctx param w = run.1 /\
  Z.of_nat (attempts run.2) <= maxRetries + 1 /\
  (forall w1, next ctx param w = (Returns None, w1) ->
     run = (Returns None, w1, [EvSucceeded])) /\
  (forall pre post, run.2 = pre ++ EvSucceeded :: post ->
     post = [] /\ run.1.1 = Returns None) /\
  ((forall v w0, load backoff (store backoff v w0) = v) ->
   (forall w0, exists e w1,
      next ctx param w0 = (Returns (Some e), w1) /\
      load backoff w1 = load backoff w0) ->
   (forall w0, ctxErr ctx w0 = None) ->
   (forall d w0, exists w1,
      waitDone ctx d w0 = (false, w1) /\ load backoff w1 = load backoff w0) ->
   - 2 ^ 63 <= load backoff w < 2 ^ 63 ->
   exists errs,
     Z.of_nat (length errs) = maxRetries + 1 /\
     run.2 = failedRun (load backoff w) 0 errs /\
     run.1.1 = Returns (last errs) /\
     load backoff run.1.2 = mulDuration (load backoff w) (2 ^ maxRetries)).
Proof.
  intros Hmax run. subst run. unfold RetryMiddleware, retryRun.
  split; [done|]. split; [|split; [|split]].
  - pose proof (retryLoop_attempts backoff next ctx param
                  (Z.to_nat (maxRetries + 1)) 0 None w). lia.
  - intros w1 Hok.
    replace (Z.to_nat (maxRetries + 1)) with (S (Z.to_nat maxRetries)) by lia.
    rewrite retryLoop_S. change (0 <? 0) with false. cbv iota.
    unfold attemptFrom. by rewrite Hok.
  - intros pre post Htr.
    pose proof (retryLoop_closes backoff next ctx param
                  (Z.to_nat (maxRetries + 1)) 0 None w) as Hc.
    rewrite Htr in Hc. by apply closes_last in Hc.
  - intros Hcell Hfail Hlive Hwait Hbase.
    destruct (retryLoop_all_fail backoff next ctx param (load backoff w)
                Hcell Hfail Hlive Hwait
                (Z.to_nat (maxRetries + 1)) 0%nat None w)
      as (errs & w' & Hlen & Hrun & Hend).
    { simpl. rewrite mulDuration_exact; lia. }
    change (Z.of_nat 0) with 0 in Hrun. rewrite Hrun.
    exists errs. split; [lia|]. split; [done|]. split.
    + simpl. by destruct (last errs).
    + simpl. rewrite Hend. f_equal; f_equal; lia.
Qed.

(** C10: when an attempt returns an error and [ctx.Err()] is not nil right
    after it, the handler built by RetryMiddleware returns the context's
    error, not the handler's, and nothing follows the attempt: no wait and
    no further attempt. *)
Theorem Retry_cancelled maxRetries backoff next ctx param w :
  let run := retryRun maxRetries backoff next ctx param w in
  (forall pre e c post, run.2 = pre ++ EvFailed e (Some c) :: post ->
     post = [] /\
     (RetryMiddleware maxRetries backoff next ctx param w).1 = Returns (Some c)) /\
  (0 <= maxRetries ->
   forall e c w1,
     next ctx param w = (Returns (Some e), w1) ->
     ctxErr ctx w1 = Some c ->
     RetryMiddleware maxRetries backoff next ctx param w = (Returns (Some c), w1) /\
     run.2 = [EvFailed e (Some c)]).
Proof.
  intros run. subst run. unfold RetryMiddleware, retryRun. split.
  - intros pre e c post Htr.
    pose proof (retryLoop_closes backoff next ctx param
                  (Z.to_nat (maxRetries + 1)) 0 None w) as Hc.
    rewrite Htr in Hc. by apply closes_last in Hc.
  - intros Hmax e c w1 Hnext Hctx.
    replace (Z.to_nat (maxRetries + 1)) with (S (Z.to_nat maxRetries)) by lia.
    rewrite retryLoop_S. change (0 <? 0) with false. cbv iota.
    unfold attemptFrom. by rewrite Hnext, Hctx.
Qed.

End Retry.
Lemma Retry_cancelled_witness :
  (RetryMiddleware 3 Inputs.backoffCell Inputs.alwaysFails
     (Inputs.cancelledAfter 2) "p" Inputs.fresh).1
  = Returns (Some Inputs.Canceled) /\
  RetryMiddleware 3 Inputs.backoffCell Inputs.alwaysFails Inputs.cancelled
    "p" Inputs.fresh
  = (Returns (Some Inputs.Canceled), Inputs.called Inputs.fresh).
Proof.
  split.
  - destruct (Retry_cancelled 3 Inputs.backoffCell Inputs.alwaysFails
                (Inputs.cancelledAfter 2) "p" Inputs.fresh) as [Hlast _].
    apply (Hlast [EvFailed (Inputs.failN 0) None; EvWait (100 * Inputs.ms)]
             (Inputs.failN 1) Inputs.Canceled []).
    reflexivity.
  - destruct (Retry_cancelled 3 Inputs.backoffCell Inputs.alwaysFails
                Inputs.cancelled "p" Inputs.fresh) as [_ Hfirst].
    apply (Hfirst ltac:(lia) (Inputs.failN 0) Inputs.Canceled
             (Inputs.called Inputs.fresh)); reflexivity.
Defined.

Lemma Retry_call_witness :
  Z.of_nat (attempts (retryRun 2 Inputs.backoffCell Inputs.alwaysFails
                        Inputs.background "p" Inputs.fresh).2) <= 2 + 1 /\
  (exists errs,
     Z.of_nat (length errs) = 2 + 1 /\
     (retryRun 2 Inputs.backoffCell Inputs.alwaysFails Inputs.background "p"
        Inputs.fresh).2
     = failedRun (100 * Inputs.ms) 0 errs /\
     (retryRun 2 Inputs.backoffCell Inputs.alwaysFails Inputs.background "p"
        Inputs.fresh).1.1
     = Returns (last errs) /\
     load Inputs.backoffCell
       (retryRun 2 Inputs.backoffCell Inputs.alwaysFails Inputs.background "p"
          Inputs.fresh).1.2
     = mulDuration (100 * Inputs.ms) (2 ^ 2)) /\
  (retryRun 3 Inputs.backoffCell Inputs.failsTwice Inputs.background "p"
     Inputs.fresh).1.1
  = Returns None.
Proof.
  split; [|split].
  - apply (Retry_call 2 Inputs.backoffCell Inputs.alwaysFails
             Inputs.background "p" Inputs.fresh). lia.
  - destruct (Retry_call 2 Inputs.backoffCell Inputs.alwaysFails
                Inputs.background "p" Inputs.fresh) as (_ & _ & _ & _ & Hfail);
      [lia|].
    apply Hfail.
    + reflexivity.
    + intros w0. exists (Inputs.failN (Inputs.calls w0)), (Inputs.called w0).
      split; reflexivity.
    + reflexivity.
    + intros d w0. exists w0. split; reflexivity.
    + split; by vm_compute.
  - destruct (Retry_call 3 Inputs.backoffCell Inputs.failsTwice
                Inputs.background "p" Inputs.fresh) as (_ & _ & _ & Hok & _);
      [lia|].
    apply (Hok [EvFailed (Inputs.failN 0) None; EvWait (100 * Inputs.ms);
                EvFailed (Inputs.failN 1) None; EvWait (200 * Inputs.ms)] []).
    reflexivity.
Defined.

(** The first call of a handler built by [RetryMiddleware(2, 100ms)]
    around a handler that always fails: three attempts, waits of 100ms
    and 200ms, the last error returned. *)
Example Retry_first_call :
  retryRun 2 Inputs.backoffCell Inputs.alwaysFails Inputs.background "p"
    Inputs.fresh
  = (Returns (Some (Inputs.failN 2)),
     {| Inputs.calls := 3; Inputs.backoffVar := 400 * Inputs.ms |},
     [EvFailed (Inputs.failN 0) None; EvWait (100 * Inputs.ms);
      EvFailed (Inputs.failN 1) None; EvWait (200 * Inputs.ms);
      EvFailed (Inputs.failN 2) None]).
Proof. reflexivity. Qed.

(** C6, on the code: a handler built by [RetryMiddleware(1, 100ms)] around
    a handler that always fails is called twice.  The first call waits
    100ms before its second attempt; the second call finds the variable
    [backoff] doubled by the first and waits 200ms, not 100ms. *)
Theorem Retry_backoff_carries_over :
  load Inputs.backoffCell Inputs.fresh = 100 * Inputs.ms /\
  retryRun 1 Inputs.backoffCell Inputs.alwaysFails Inputs.background "p"
    Inputs.fresh
  = (Returns (Some (Inputs.failN 1)), Inputs.afterFirstCall,
     [EvFailed (Inputs.failN 0) None; EvWait (100 * Inputs.ms);
      EvFailed (Inputs.failN 1) None]) /\
  retryRun 1 Inputs.backoffCell Inputs.alwaysFails Inputs.background "p"
    Inputs.afterFirstCall
  = (Returns (Some (Inputs.failN 3)),
     {| Inputs.calls := 4; Inputs.backoffVar := 400 * Inputs.ms |},
     [EvFailed (Inputs.failN 2) None; EvWait (200 * Inputs.ms);
      EvFailed (Inputs.failN 3) None]).
Proof. repeat split. Qed.

End RetryFacts.

(** * Further properties of the code *)

Module RegistryFacts.
Import Runtime Registry.

Section World.
Context {W : Type}.
Implicit Types (tasks : gmap string (TaskInfo (W := W)))
  (h : TaskHandler (W := W)).

Lemma Register_Ok_inv now name h tasks tasks' :
  Register now name h tasks = Ok tasks' ->
  name <> "" /\ tasks !! name = None /\
  tasks' = <[name := Build_TaskInfo name h now]> tasks.
Proof.
  unfold Register. destruct (String.eqb_spec name ""); [done|].
  destruct (tasks !! name) eqn:E; [done|]. by intros [= <-].
Qed.

Lemma Register_accepts now name h tasks :
  name <> "" ->
  tasks !! name = None ->
  Register now name h tasks = Ok (<[name := Build_TaskInfo name h now]> tasks).
Proof.
  intros Hname Hfresh. unfold Register.
  destruct (String.eqb_spec name ""); [done|]. by rewrite Hfresh.
Qed.

(** X1: Register accepts a name that is not empty and not yet registered; the
    task can then be looked up, the count has grown by one and every other
    name is as before. *)
Theorem Register_fresh now name h tasks :
  name <> "" ->
  tasks !! name = None ->
  exists tasks',
    Register now name h tasks = Ok tasks' /\
    Get name tasks' = (Some (Build_TaskInfo name h now), true) /\
    Count tasks' = Count tasks + 1 /\
    (forall other, other <> name -> Get other tasks' = Get other tasks).
Proof.
  intros Hname Hfresh. eexists. split; [|split; [|split]].
  - by apply Register_accepts.
  - unfold Get. by rewrite lookup_insert_eq.
  - unfold Count. rewrite map_size_insert_None by done. lia.
  - intros other Hne. unfold Get. by rewrite lookup_insert_ne.
Qed.

(** X2: once a name is registered with a handler that is not nil, a further
    Register of that name is refused: with ["task handler cannot be nil"]
    for a nil handler, the handler being checked first, and with
    ["task ... already registered"] for every handler that is not nil; the
    first registration stays.  Register refuses the empty name whatever
    the handler, nil or not. *)
Theorem Register_twice now name h tasks tasks' now' h' :
  Register now name h tasks = Ok tasks' ->
  TaskRegistry.Register now name (Some h) tasks = Ok tasks' /\
  TaskRegistry.Register now' name (Some h') tasks'
  = Err (errorString ("task " +:+ name +:+ " already registered")) /\
  TaskRegistry.Register now' name None tasks'
  = Err (errorString "task handler cannot be nil") /\
  Register now' name h' tasks'
  = Err (errorString ("task " +:+ name +:+ " already registered")) /\
  Get name tasks' = (Some (Build_TaskInfo name h now), true) /\
  (forall h'' : option TaskHandler,
     TaskRegistry.Register now' "" h'' tasks'
     = Err (errorString "task name cannot be empty")) /\
  Register now' "" h' tasks' = Err (errorString "task name cannot be empty").
Proof.
  intros H. apply Register_Ok_inv in H as (Hname & Hfresh & ->).
  repeat split.
  - unfold TaskRegistry.Register.
    destruct (String.eqb_spec name ""); [done|]. by rewrite Hfresh.
  - unfold TaskRegistry.Register.
    destruct (String.eqb_spec name ""); [done|]. by rewrite lookup_insert_eq.
  - unfold TaskRegistry.Register.
    by destruct (String.eqb_spec name "").
  - unfold Register. destruct (String.eqb_spec name ""); [done|].
    by rewrite lookup_insert_eq.
  - unfold Get. by rewrite lookup_insert_eq.
Qed.

(** X3: Unregister undoes Register: the registry is the one before the
    registration, and the name can be registered again.  Unregister of a
    name that is not registered is an error. *)
Theorem Unregister_Register now name h tasks tasks' :
  Register now name h tasks = Ok tasks' ->
  Unregister name tasks' = Ok tasks /\
  Unregister name tasks = Err (errorString ("task " +:+ name +:+ " not found")) /\
  (forall now' h', exists tasks'',
     Register now' name h' tasks = Ok tasks'' /\
     Get name tasks'' = (Some (Build_TaskInfo name h' now'), true)).
Proof.
  intros H. apply Register_Ok_inv in H as (Hname & Hfresh & ->).
  split; [|split].
  - unfold Unregister. rewrite lookup_insert_eq.
    by rewrite delete_insert_id.
  - unfold Unregister. by rewrite Hfresh.
  - intros now' h'. eexists. split; [by apply Register_accepts|].
    unfold Get. by rewrite lookup_insert_eq.
Qed.

Lemma GetNames_keys tasks : GetNames tasks ≡ₚ (map_to_list tasks).*1.
Proof.
  unfold GetNames. rewrite map_fold_foldr.
  induction (map_to_list tasks) as [|[k v] l IH]; simpl; [done|].
  rewrite IH. by rewrite Permutation_app_comm.
Qed.

(** X4: GetNames lists every registered name once and nothing else, as many
    names as Count says; GetAll hands back a map with the same entries. *)
Theorem GetNames_registered tasks :
  NoDup (GetNames tasks) /\
  (forall name, name ∈ GetNames tasks <-> (Get name tasks).2 = true) /\
  Z.of_nat (length (GetNames tasks)) = Count tasks /\
  GetAll tasks = tasks.
Proof.
  split; [|split; [|split]].
  - rewrite GetNames_keys. apply NoDup_fst_map_to_list.
  - intros name. rewrite GetNames_keys. unfold Get.
    rewrite list_elem_of_fmap. split.
    + intros ([k v] & -> & Hin). apply elem_of_map_to_list in Hin.
      simpl. by rewrite Hin.
    + destruct (tasks !! name) as [v|] eqn:E; [|done]. intros _.
      exists (name, v). split; [done|]. by apply elem_of_map_to_list.
  - rewrite GetNames_keys, length_fmap, length_map_to_list. done.
  - unfold GetAll.
    apply (map_fold_weak_ind (fun r m => r = m)); [done|].
    by intros k v m r _ ->.
Qed.

End World.

Lemma Register_fresh_witness :
  exists tasks',
    Register 7 "demoJob" Inputs.boom ∅ = Ok tasks' /\
    Get "demoJob" tasks' = (Some (Build_TaskInfo "demoJob" Inputs.boom 7), true) /\
    Count tasks' = Count (W := list telemetry) ∅ + 1 /\
    (forall other, other <> "demoJob" -> Get other tasks' = Get other ∅).
Proof.
  apply (Register_fresh 7 "demoJob" Inputs.boom ∅); [discriminate | reflexivity].
Defined.

Lemma Register_twice_witness :
  TaskRegistry.Register 9 "demoJob" (Some Inputs.boom)
    (<["demoJob" := Build_TaskInfo "demoJob" Inputs.boom 7]> ∅)
  = Err (errorString "task demoJob already registered") /\
  TaskRegistry.Register 9 "demoJob" None
    (<["demoJob" := Build_TaskInfo "demoJob" Inputs.boom 7]> ∅)
  = Err (errorString "task handler cannot be nil").
Proof.
  destruct (Register_twice 7 "demoJob" Inputs.boom ∅
              (<["demoJob" := Build_TaskInfo "demoJob" Inputs.boom 7]> ∅)
              9 Inputs.boom) as (_ & H1 & H2 & _); [reflexivity|].
  split; [exact H1 | exact H2].
Defined.

Lemma Unregister_Register_witness :
  Unregister "demoJob"
    (<["demoJob" := Build_TaskInfo "demoJob" Inputs.boom 7]> ∅)
  = Ok ∅.
Proof.
  apply (Unregister_Register 7 "demoJob" Inputs.boom ∅ _). reflexivity.
Defined.

End RegistryFacts.

Module LifecycleFacts.
Import Runtime Registry Lifecycle.

Section World.
Context {W : Type}.
Implicit Types (e : executorImpl (W := W)) (env : Env (W := W))
  (h : TaskHandler (W := W)) (ctx : context (W := W)) (w : W).

Lemma applyMiddlewares_nested h (ms : list (Middleware (W := W))) :
  applyMiddlewares h ms = nested ms h.
Proof.
  unfold applyMiddlewares. destruct ms as [|m ms]; [done|].
  simpl Nat.eqb. cbv iota. unfold Chain.
  rewrite MiddlewareFacts.chainLoop_take by done. by rewrite firstn_all.
Qed.

Lemma RegTask_Ok_inv env name h e w e' :
  RegTask env name h e w = (None, e') ->
  running e = false /\ name <> "" /\ registry e !! name = None /\
  e' = {| opts := opts e;
          registry := <[name := Build_TaskInfo name
                                  (nested (middlewares (opts e)) h)
                                  (timeNow env w)]> (registry e);
          sdkTasks := <[name := nested (middlewares (opts e)) h]> (sdkTasks e);
          running := running e; startedAt := startedAt e;
          lastError := lastError e |}.
Proof.
  unfold RegTask. destruct (running e); [done|].
  rewrite applyMiddlewares_nested.
  destruct (Register _ _ _ _) as [tasks|err] eqn:E; [|done].
  apply RegistryFacts.Register_Ok_inv in E as (? & ? & ->).
  by intros [= <-].
Qed.

(** X5: Run marks the executor as running and keeps it so whatever the
    scheduler's runtime returns; until Stop, a further Run and every RegTask
    are refused and change nothing. *)
Theorem Run_then_refused now sdkRun e :
  running e = false ->
  (Run now sdkRun e).1 = sdkRun /\
  IsRunning (Run now sdkRun e).2 = true /\
  startedAt (Run now sdkRun e).2 = now /\
  (forall now' sdkRun',
     Run now' sdkRun' (Run now sdkRun e).2
     = (Some (errorString "executor already running"), (Run now sdkRun e).2)) /\
  (forall env name h w,
     RegTask env name h (Run now sdkRun e).2 w
     = (Some (errorString "cannot register task after executor started"),
        (Run now sdkRun e).2)).
Proof. intros H. unfold Run, RegTask, IsRunning. rewrite H. by simpl. Qed.

(** X6: Stop after Run returns nil and gives back the executor as it was
    before Run, with its tasks and its last error, but for the start time;
    a second Stop returns nil and changes nothing; and tasks can be
    registered again. *)
Theorem Stop_after_Run now sdkRun e :
  running e = false ->
  Stop (Run now sdkRun e).2
  = (None,
     {| opts := opts e; registry := registry e; sdkTasks := sdkTasks e;
        running := false; startedAt := now; lastError := lastError e |}) /\
  Stop (Stop (Run now sdkRun e).2).2 = (None, (Stop (Run now sdkRun e).2).2) /\
  (forall env name h w,
     name <> "" -> registry e !! name = None ->
     (RegTask env name h (Stop (Run now sdkRun e).2).2 w).1 = None).
Proof.
  intros H. unfold Run, Stop. rewrite H. simpl. repeat split.
  intros env name h w Hname Hfresh. unfold RegTask. simpl.
  by rewrite (RegistryFacts.Register_accepts (timeNow env w) name
                (applyMiddlewares h (middlewares (opts e))) (registry e)
                Hname Hfresh).
Qed.

(** X7: a successful RegTask stores, in the registry and in the task list of
    the scheduler's runtime, the handler wrapped in the middlewares of the
    options, the first middleware outermost; the task count grows by one
    and the other tasks are untouched. *)
Theorem RegTask_registers env name h e w e' :
  RegTask env name h e w = (None, e') ->
  sdkTasks e' !! name = Some (nested (middlewares (opts e)) h) /\
  Handler <$> registry e' !! name = Some (nested (middlewares (opts e)) h) /\
  TaskCount (GetHealthStatus e') = TaskCount (GetHealthStatus e) + 1 /\
  (forall other, other <> name ->
     sdkTasks e' !! other = sdkTasks e !! other /\
     registry e' !! other = registry e !! other) /\
  opts e' = opts e /\ lastError e' = lastError e.
Proof.
  intros H. apply RegTask_Ok_inv in H as (_ & _ & Hfresh & ->). simpl.
  rewrite !lookup_insert_eq. repeat split; try done.
  - unfold GetHealthStatus. simpl. rewrite map_size_insert_None by done. lia.
  - by rewrite lookup_insert_ne.
  - by rewrite lookup_insert_ne.
Qed.

(** X8: a RegTask that fails leaves the executor as it was, and it fails for a
    name that is registered already, whatever the handler, as long as the
    handler and what the middlewares make of it are not nil. *)
Theorem RegTask_duplicate env name h e w e' h' w' :
  RegTask env name h e w = (None, e') ->
  RegTask env name h' e' w'
  = (Some (wrapError "failed to register task: "
             (errorString ("task " +:+ name +:+ " already registered"))), e') /\
  errorText (wrapError "failed to register task: "
               (errorString ("task " +:+ name +:+ " already registered")))
  = "failed to register task: task " +:+ name +:+ " already registered".
Proof.
  intros H. apply RegTask_Ok_inv in H as (Hrun & Hname & _ & ->).
  split; [|done].
  unfold RegTask. simpl. rewrite Hrun. unfold Register.
  destruct (String.eqb_spec name ""); [done|].
  by rewrite lookup_insert_eq.
Qed.

Lemma taskFunc_executor env name h e ctx param w :
  (taskFunc env name h e ctx param w).2 = e.
Proof.
  unfold taskFunc.
  destruct param as [req|]; cbv zeta.
  all: repeat match goal with
       | |- context [let '(_, _) := ?x in _] => destruct x eqn:?
       | |- context [match ?x with _ => _ end] => destruct x eqn:?
       end; simpl; try done.
  all: match goal with
       | H : executeTaskWithTrace _ _ _ _ _ _ _ _ = (Returns (_, Some _), _) |- _ =>
           unfold executeTaskWithTrace in H;
           repeat match type of H with
           | context [match ?x with _ => _ end] => destruct x eqn:?
           end; simplify_eq
       end.
Qed.

(** X9: the registry and the task list of the scheduler's runtime stay in
    step: they agree in a new executor, and RegTask, Run, Stop and every
    invocation keep them so; an invocation changes nothing in the
    executor. *)
Theorem consistent_kept e :
  consistent e ->
  (forall env name h w, consistent (RegTask env name h e w).2) /\
  (forall now sdkRun, consistent (Run now sdkRun e).2) /\
  consistent (Stop e).2 /\
  (forall env name ctx param w res w' e',
     invoke env name e ctx param w = Some (res, w', e') -> e' = e) /\
  (forall o, consistent (NewExecutorWithOptions (W := W) o)).
Proof.
  intros Hc. split; [|split; [|split; [|split]]].
  - intros env name h w.
    destruct (RegTask env name h e w) as [[err|] e'] eqn:E.
    + unfold RegTask in E. destruct (running e); [by simplify_eq|].
      destruct (Register _ _ _ _); by simplify_eq.
    + apply RegTask_Ok_inv in E as (_ & _ & _ & ->). intros other. simpl.
      destruct (decide (other = name)) as [->|Hne].
      * by rewrite !lookup_insert_eq.
      * rewrite !lookup_insert_ne by done. apply Hc.
  - intros now sdkRun. unfold Run. by destruct (running e).
  - unfold Stop. by destruct (running e).
  - intros env name ctx param w res w' e'. unfold invoke.
    destruct (sdkTasks e !! name) as [h|]; [|done]. intros [= H].
    apply (f_equal snd) in H. simpl in H. rewrite <- H.
    apply taskFunc_executor.
  - intros o name. unfold NewExecutorWithOptions. simpl.
    by rewrite !lookup_empty.
Qed.

Lemma execute_recovered env ctx name param logID g trace w :
  exists text w',
    executeTaskWithTrace env ctx name param logID (RecoveryMiddleware g) trace w
    = (Returns (text, None), w') /\
    (text = "SUCCESS" \/ exists err, text = "FAIL: " +:+ errorText err).
Proof.
  unfold executeTaskWithTrace, RecoveryMiddleware.
  destruct (g ctx param _) as [[[err|]|r] w1]; cbv zeta; simpl;
    do 2 eexists; (split; [reflexivity|]); eauto.
Qed.

Lemma taskFunc_recovered env name g e ctx param w :
  exists text w',
    taskFunc env name (RecoveryMiddleware g) e ctx param w
    = (Returns text, w', e) /\
    (text = "SUCCESS" \/ exists err, text = "FAIL: " +:+ errorText err).
Proof.
  unfold taskFunc.
  destruct (match param with
            | Some req =>
                (if negb (String.eqb (ExecutorParams req) "")
                 then ExecutorParams req else "", LogID req)
            | None => ("", 0)
            end) as [paramStr logID].
  destruct (negb (String.eqb (optLogPath (opts e)) "") && (0 <? logID)).
  - destruct (openLog env _ w) as [[logErr|] w1].
    + destruct (execute_recovered env ctx name paramStr logID g
                  (enableTrace (opts e))
                  (emit env (LogWarn "Failed to create log writer" logID logErr) w1))
        as (text & w' & -> & Ht).
      do 2 eexists; split; [reflexivity | exact Ht].
    + match goal with
      | |- context [executeTaskWithTrace env ?c name paramStr logID _ ?t ?w0] =>
          destruct (execute_recovered env c name paramStr logID g t w0)
            as (text & w' & -> & Ht)
      end.
      destruct (closeLog env _ w') as [[closeErr|] w2] eqn:Ec;
        do 2 eexists; (split; [simpl; rewrite ?Ec; reflexivity | exact Ht]).
  - destruct (execute_recovered env ctx name paramStr logID g
                (enableTrace (opts e)) w) as (text & w' & -> & Ht).
    do 2 eexists; split; [reflexivity | exact Ht].
Qed.

(** X10: with RecoveryMiddleware first among the middlewares, an invocation of a
    registered task never panics: it answers with a result text, whatever
    the handler and the other middlewares do in the goroutine they are
    called in.  A panic in a goroutine that a middleware starts, as
    TimeoutMiddleware does for the wrapped handler, is out of reach of
    every recover and is not covered. *)
Theorem Recovery_first_never_panics env name h e w0 e' ms :
  middlewares (opts e) = RecoveryMiddleware :: ms ->
  RegTask env name h e w0 = (None, e') ->
  forall ctx param w,
  exists text w',
    invoke env name e' ctx param w = Some (Returns text, w', e') /\
    (text = "SUCCESS" \/ exists err, text = "FAIL: " +:+ errorText err).
Proof.
  intros Hms H ctx param w.
  assert (Hsdk : sdkTasks e' !! name = Some (nested (middlewares (opts e)) h)).
  { apply RegTask_Ok_inv in H as (_ & _ & _ & ->). simpl.
    apply lookup_insert_eq. }
  rewrite Hms in Hsdk. unfold invoke. rewrite Hsdk.
  change (nested (RecoveryMiddleware :: ms) h)
    with (RecoveryMiddleware (nested ms h)).
  destruct (taskFunc_recovered env name (nested ms h) e' ctx param w)
    as (text & w' & -> & Ht). eauto.
Qed.

End World.

Lemma Run_then_refused_witness :
  (Run 5 (Some (errorString "listen failed")) Inputs.demoExecutor).1
  = Some (errorString "listen failed") /\
  IsRunning (Run 5 (Some (errorString "listen failed")) Inputs.demoExecutor).2
  = true.
Proof.
  destruct (Run_then_refused 5 (Some (errorString "listen failed"))
              Inputs.demoExecutor) as (H1 & H2 & _); [reflexivity|].
  split; [exact H1 | exact H2].
Defined.

Lemma Stop_after_Run_witness :
  (Stop (Run 5 None Inputs.demoExecutor).2).1 = None /\
  running (Stop (Run 5 None Inputs.demoExecutor).2).2 = false /\
  Stop (Stop (Run 5 None Inputs.demoExecutor).2).2
  = (None, (Stop (Run 5 None Inputs.demoExecutor).2).2).
Proof.
  destruct (Stop_after_Run 5 None Inputs.demoExecutor) as (H1 & H2 & _);
    [reflexivity|].
  split; [by rewrite H1|]. split; [by rewrite H1 | exact H2].
Defined.

Lemma RegTask_registers_witness :
  sdkTasks Inputs.demoExecutor !! "demoJob"
  = Some (nested (middlewares (opts (NewExecutorWithOptions Inputs.demoOptions)))
            Inputs.boom).
Proof.
  apply (RegTask_registers Inputs.recording "demoJob" Inputs.boom
           (NewExecutorWithOptions Inputs.demoOptions) [] Inputs.demoExecutor).
  reflexivity.
Defined.

Lemma RegTask_duplicate_witness :
  RegTask Inputs.recording "demoJob" Inputs.boom Inputs.demoExecutor []
  = (Some (wrapError "failed to register task: "
             (errorString "task demoJob already registered")),
     Inputs.demoExecutor).
Proof.
  apply (RegTask_duplicate Inputs.recording "demoJob" Inputs.boom
           (NewExecutorWithOptions Inputs.demoOptions) [] Inputs.demoExecutor
           Inputs.boom []).
  reflexivity.
Defined.

Lemma consistent_kept_witness : consistent Inputs.demoExecutor.
Proof.
  destruct (consistent_kept (NewExecutorWithOptions Inputs.demoOptions))
    as (Hreg & _).
  - intros name. unfold NewExecutorWithOptions. simpl. by rewrite !lookup_empty.
  - exact (Hreg Inputs.recording "demoJob" Inputs.boom []).
Defined.

End LifecycleFacts.

Module MiddlewareMore.
Import Runtime.

Section World.
Context {W : Type}.
Implicit Types (backoff : cell (W := W)) (next h : TaskHandler (W := W))
  (ctx : context (W := W)) (w : W) (ms : list (Middleware (W := W))).

Lemma Chain_is_nested ms h : Chain ms h = nested ms h.
Proof.
  unfold Chain. rewrite MiddlewareFacts.chainLoop_take by done.
  by rewrite firstn_all.
Qed.

(** X11: chains compose: the chain of a concatenation is the chain of the first
    list around the chain of the second; and applyMiddlewares is Chain for
    every list, the empty one included. *)
Theorem Chain_app ms1 ms2 h :
  Chain (ms1 ++ ms2) h = Chain ms1 (Chain ms2 h) /\
  Chain [Chain ms1; Chain ms2] h = Chain (ms1 ++ ms2) h /\
  applyMiddlewares h ms1 = Chain ms1 h.
Proof.
  rewrite !Chain_is_nested, LifecycleFacts.applyMiddlewares_nested.
  unfold nested. rewrite foldr_app. simpl. by rewrite !Chain_is_nested.
Qed.

(** X12: with a negative [maxRetries] the handler built by RetryMiddleware never
    calls the wrapped handler and returns nil. *)
Theorem Retry_negative maxRetries backoff next ctx param w :
  maxRetries < 0 ->
  retryRun maxRetries backoff next ctx param w = (Returns None, w, []) /\
  RetryMiddleware maxRetries backoff next ctx param w = (Returns None, w).
Proof.
  intros H. unfold RetryMiddleware, retryRun.
  replace (Z.to_nat (maxRetries + 1)) with 0%nat by lia. done.
Qed.

(** X13: when the context is cancelled during the wait before a retry, the call
    returns [ctx.Err()] at once: the wrapped handler is not called again and
    the variable [backoff] is not doubled. *)
Theorem Retry_cancelled_in_wait maxRetries backoff next ctx param w e w1 w2 :
  1 <= maxRetries ->
  next ctx param w = (Returns (Some e), w1) ->
  ctxErr ctx w1 = None ->
  waitDone ctx (load backoff w1) w1 = (true, w2) ->
  retryRun maxRetries backoff next ctx param w
  = (Returns (ctxErr ctx w2), w2,
     [EvFailed e None; EvWait (load backoff w1); EvCancelled]).
Proof.
  intros Hmax Hnext Hlive Hwait. unfold retryRun.
  replace (Z.to_nat (maxRetries + 1)) with (S (S (Z.to_nat (maxRetries - 1))))
    by lia.
  rewrite RetryFacts.retryLoop_S. change (0 <? 0) with false. cbv iota.
  unfold attemptFrom. rewrite Hnext, Hlive.
  rewrite RetryFacts.retryLoop_S. change (0 <? 0 + 1) with true. cbv iota.
  by rewrite Hwait.
Qed.

Lemma attempts_failedRun b i errs :
  attempts (failedRun b i errs) = length errs.
Proof.
  revert i. induction errs as [|e errs IH]; intros i; [done|].
  cbn [failedRun]. rewrite RetryFacts.attempts_app.
  change (attempts (EvFailed e None :: failedRun b (S i) errs))
    with (S (attempts (failedRun b (S i) errs))).
  rewrite IH. by destruct i.
Qed.

(** X14: the order of Recovery and Retry matters.  Retry alone does not retry a
    panic, so with Recovery around Retry a panicking handler is called once
    and the panic comes back as an error; with Retry around Recovery every
    panic is an error to the loop, and a handler that always panics is
    called [maxRetries + 1] times. *)
Theorem Recovery_Retry_order maxRetries backoff next ctx param w r w' :
  0 <= maxRetries ->
  next ctx param w = (Panics r, w') ->
  retryRun maxRetries backoff next ctx param w = (Panics r, w', [EvPanicked r]) /\
  RecoveryMiddleware (RetryMiddleware maxRetries backoff next) ctx param w
  = (Returns (Some (recovered r)), w') /\
  ((forall v w0, load backoff (store backoff v w0) = v) ->
   (forall w0, exists r0 w1,
      next ctx param w0 = (Panics r0, w1) /\
      load backoff w1 = load backoff w0) ->
   (forall w0, ctxErr ctx w0 = None) ->
   (forall d w0, exists w1,
      waitDone ctx d w0 = (false, w1) /\ load backoff w1 = load backoff w0) ->
   - 2 ^ 63 <= load backoff w < 2 ^ 63 ->
   Z.of_nat (attempts (retryRun maxRetries backoff (RecoveryMiddleware next)
                         ctx param w).2) = maxRetries + 1 /\
   exists err,
     (RetryMiddleware maxRetries backoff (RecoveryMiddleware next) ctx param w).1
     = Returns (Some err)).
Proof.
  intros Hmax Hp.
  assert (Hrun : retryRun maxRetries backoff next ctx param w
                 = (Panics r, w', [EvPanicked r])).
  { unfold retryRun.
    replace (Z.to_nat (maxRetries + 1)) with (S (Z.to_nat maxRetries)) by lia.
    rewrite RetryFacts.retryLoop_S. change (0 <? 0) with false. cbv iota.
    unfold attemptFrom. by rewrite Hp. }
  split; [done|]. split.
  - unfold RecoveryMiddleware at 1, RetryMiddleware. by rewrite Hrun.
  - intros Hcell Hpanics Hlive Hwait Hrange.
    destruct (RetryFacts.Retry_call maxRetries backoff (RecoveryMiddleware next)
                ctx param w Hmax) as (Heq & _ & _ & _ & Hall).
    destruct Hall as (errs & Hlen & Htr & Hres & _); try done.
    { intros w0. destruct (Hpanics w0) as (r0 & w1 & Hr0 & Hkeep).
      exists (recovered r0), w1. unfold RecoveryMiddleware. by rewrite Hr0. }
    split.
    + rewrite Htr, attempts_failedRun. done.
    + rewrite Heq, Hres. destruct (last errs) as [err|] eqn:El; [eauto|].
      apply last_None in El. subst errs. simpl in Hlen. lia.
Qed.

End World.

Lemma Retry_negative_witness :
  RetryMiddleware (-1) Inputs.backoffCell Inputs.alwaysFails Inputs.background
    "p" Inputs.fresh
  = (Returns None, Inputs.fresh).
Proof.
  apply (Retry_negative (-1) Inputs.backoffCell Inputs.alwaysFails
           Inputs.background "p" Inputs.fresh). lia.
Defined.

Lemma Retry_cancelled_in_wait_witness :
  retryRun 3 Inputs.backoffCell Inputs.alwaysFails
    MoreInputs.cancelledWhileWaiting "p" Inputs.fresh
  = (Returns (Some Inputs.Canceled), Inputs.called (Inputs.called Inputs.fresh),
     [EvFailed (Inputs.failN 0) None; EvWait (100 * Inputs.ms); EvCancelled]).
Proof.
  apply (Retry_cancelled_in_wait 3 Inputs.backoffCell Inputs.alwaysFails
           MoreInputs.cancelledWhileWaiting "p" Inputs.fresh (Inputs.failN 0)
           (Inputs.called Inputs.fresh)
           (Inputs.called (Inputs.called Inputs.fresh)));
    [lia | reflexivity | reflexivity | reflexivity].
Defined.

Lemma Recovery_Retry_order_witness :
  RecoveryMiddleware (RetryMiddleware 2 Inputs.backoffCell Inputs.panics)
    Inputs.background "p" Inputs.fresh
  = (Returns (Some (panicError (AnyValue "out of luck"))),
     Inputs.called Inputs.fresh) /\
  Z.of_nat (attempts (retryRun 2 Inputs.backoffCell
                        (RecoveryMiddleware Inputs.panics)
                        Inputs.background "p" Inputs.fresh).2) = 2 + 1.
Proof.
  destruct (Recovery_Retry_order 2 Inputs.backoffCell Inputs.panics
              Inputs.background "p" Inputs.fresh
              (PanicWithValue (AnyValue "out of luck"))
              (Inputs.called Inputs.fresh)) as (_ & Hone & Hall);
    [lia | reflexivity |].
  split; [exact Hone|].
  apply Hall.
  - reflexivity.
  - intros w0. exists (PanicWithValue (AnyValue "out of luck")), (Inputs.called w0).
    split; reflexivity.
  - reflexivity.
  - intros d w0. exists w0. split; reflexivity.
  - split; by vm_compute.
Defined.

End MiddlewareMore.

Module LifecycleWitness.
Import Runtime.

Lemma Recovery_first_never_panics_witness :
  exists text w',
    invoke Inputs.recording "risky" MoreInputs.guardedExecutor
      Inputs.background None []
    = Some (Returns text, w', MoreInputs.guardedExecutor) /\
    (text = "SUCCESS" \/ exists err, text = "FAIL: " +:+ errorText err).
Proof.
  apply (LifecycleFacts.Recovery_first_never_panics Inputs.recording "risky"
           MoreInputs.panicsRec
           (NewExecutorWithOptions MoreInputs.guardedOptions) []
           MoreInputs.guardedExecutor []); reflexivity.
Defined.

End LifecycleWitness.

Module ReaderMore.
Import Log StringFacts LogFacts.

(** A prefix without a newline joins the piece being cut. *)
Lemma rawLines_prefix a b cur :
  countLF a = 0%nat -> rawLines (a +:+ b) cur = rawLines b (cur +:+ a).
Proof.
  revert cur. induction a as [|c a IH]; intros cur Ha.
  - change ("" +:+ b) with b. by rewrite append_nil_r.
  - change (String c a +:+ b) with (String c (a +:+ b)). cbn [rawLines].
    simpl in Ha. destruct (Ascii.eqb c LF); [lia|].
    rewrite IH by lia. by rewrite append_assoc.
Qed.

(** A line and its newline give one piece. *)
Lemma rawLines_line l rest cur :
  countLF l = 0%nat ->
  rawLines (l +:+ String LF rest) cur = (cur +:+ l) :: rawLines rest "".
Proof.
  intros Hl. rewrite rawLines_prefix by done. cbn [rawLines].
  by rewrite Ascii.eqb_refl.
Qed.

(** The lines of a file written line by line, each line followed by a
    newline, are the lines written: for lines without a newline, without a
    final carriage return and shorter than 1 MiB. *)
Lemma fileLines_unlines ls :
  Forall (fun l => countLF l = 0%nat /\ dropCR l = l /\ tooLong l = false) ls ->
  fileLines (unlines ls) = Some ls.
Proof.
  induction 1 as [|l ls (Hl & Hcr & Hsh) _ IH]; [done|].
  unfold fileLines in *. cbn [unlines].
  rewrite rawLines_line by done. change ("" +:+ l) with l.
  cbn [allShort forallb]. rewrite Hsh. cbn [negb andb].
  fold (allShort (rawLines (unlines ls) "")).
  destruct (allShort (rawLines (unlines ls) "")); [|done].
  injection IH as IH. by rewrite fmap_cons, Hcr, IH.
Qed.

Lemma scanLoop_app pre post start ps lines li to :
  allShort pre = true ->
  Z.of_nat (length lines) < ps ->
  scanLoop (pre ++ post) start ps lines li to
  = let '(l1, li1, to1, e1) := scanLoop pre start ps lines li to in
    if Z.of_nat (length l1) <? ps then scanLoop post start ps l1 li1 to1
    else (l1, li1, to1, e1).
Proof.
  revert lines li to. induction pre as [|raw pre IH]; intros lines li to Hs Hlen.
  - simpl. by destruct (Z.ltb_spec (Z.of_nat (length lines)) ps); [|lia].
  - simpl in Hs. apply andb_prop in Hs as [Hr Hs]. apply negb_true_iff in Hr.
    cbn [app scanLoop]. rewrite Hr.
    destruct (li + 1 <? start); [by apply IH|]. cbv zeta.
    destruct (Z.leb_spec ps (Z.of_nat (length (lines ++ [dropCR raw]))));
      [|by apply IH].
    by destruct (Z.ltb_spec (Z.of_nat (length (lines ++ [dropCR raw]))) ps);
      [lia|].
Qed.

(** A read of a non-empty regular file, in terms of the loop. *)
Lemma read_scan (fs : fileSystem) path data fromLineNum pageSize :
  fs !! path = Some (Regular data) ->
  data <> EmptyString ->
  readLogFileWithPagination fs path fromLineNum pageSize
  = match scanLoop (rawLines data "") (Z.max fromLineNum 0)
            (effectivePageSize pageSize) [] (-1) (Z.max fromLineNum 0) with
    | (_, _, _, Some e) => Err (wrapError "failed to scan log file: " e)
    | (lines, lineIndex, toLineNum, None) =>
        if lineIndex <? Z.max fromLineNum 0 then
          Ok (LogReadResult "" (if lineIndex <? 0 then 0 else lineIndex) true)
        else
          Ok (LogReadResult (joinLines lines) toLineNum
                (Z.of_nat (length lines) <? effectivePageSize pageSize))
    end.
Proof.
  intros Hfs Hne.
  unfold readLogFileWithPagination, osStat, osOpen. rewrite Hfs.
  assert (Hsz : (Z.of_nat (String.length data) =? 0) = false).
  { apply Z.eqb_neq. destruct data; [done | simpl; lia]. }
  rewrite Hsz.
  set (ps := if (maxLogFileSize <? Z.of_nat (String.length data)) && (pageSize <=? 0)
             then defaultLogPageSize else pageSize).
  assert (Hps : (if ps <=? 0 then defaultLogPageSize else ps)
                = effectivePageSize pageSize).
  { unfold ps, effectivePageSize.
    destruct (maxLogFileSize <? _); destruct (pageSize <=? 0) eqn:E;
      simpl; rewrite ?E; done. }
  rewrite Hps. clear Hps ps.
  replace (if fromLineNum <? 0 then 0 else fromLineNum)
    with (Z.max fromLineNum 0) by (destruct (Z.ltb_spec fromLineNum 0); lia).
  done.
Qed.

(** X15: the scanner is lazy: when the lines up to the end of the page fit the
    buffer, the read succeeds with a full page whatever comes after them,
    a line of 1 MiB or more included. *)
Theorem read_before_long_line (fs : fileSystem) path data pre post
    fromLineNum pageSize :
  fs !! path = Some (Regular data) ->
  rawLines data "" = pre ++ post ->
  allShort pre = true ->
  0 <= fromLineNum -> 0 < pageSize ->
  fromLineNum + pageSize <= Z.of_nat (length pre) ->
  readLogFileWithPagination fs path fromLineNum pageSize
  = Ok (LogReadResult
          (joinLines (pageOf (dropCR <$> pre) fromLineNum pageSize))
          (fromLineNum + pageSize - 1) false).
Proof.
  intros Hfs Hraw Hs Hfrom Hps Hlen.
  assert (Hne : data <> EmptyString).
  { intros ->. simpl in Hraw. destruct pre; simpl in *; [lia | done]. }
  rewrite (read_scan _ _ _ _ _ Hfs Hne), Hraw.
  rewrite effectivePageSize_id by done.
  replace (Z.max fromLineNum 0) with fromLineNum by lia.
  rewrite scanLoop_app by (done || simpl; lia).
  rewrite scanLoop_whole by done.
  destruct (Z.leb_spec (Z.of_nat (length pre)) fromLineNum); [lia|]. cbv zeta.
  unfold pageOf.
  set (page := take (Z.to_nat pageSize)
                 (drop (Z.to_nat fromLineNum) (dropCR <$> pre))).
  assert (Hpage : Z.of_nat (length page) = pageSize).
  { unfold page. rewrite length_take, length_drop, length_fmap. lia. }
  rewrite !Hpage.
  destruct (Z.ltb_spec pageSize pageSize); [lia|].
  destruct (Z.ltb_spec (fromLineNum + pageSize - 1) fromLineNum); [lia|].
  rewrite Hpage. by destruct (Z.ltb_spec pageSize pageSize); [lia|].
Qed.

Lemma scan_reaches_long_line (fs : fileSystem) path data pre long post
    fromLineNum pageSize :
  fs !! path = Some (Regular data) ->
  rawLines data "" = pre ++ long :: post ->
  allShort pre = true ->
  tooLong long = true ->
  Z.of_nat (length pre) < Z.max fromLineNum 0 + effectivePageSize pageSize ->
  readLogFileWithPagination fs path fromLineNum pageSize
  = Err (wrapError "failed to scan log file: " ErrTooLong).
Proof.
  intros Hfs Hraw Hs Hlong Hlen.
  assert (Hne : data <> EmptyString).
  { intros ->. simpl in Hraw. by destruct pre. }
  pose proof (effectivePageSize_pos pageSize) as Hpos.
  rewrite (read_scan _ _ _ _ _ Hfs Hne), Hraw.
  rewrite scanLoop_app by (done || simpl; lia).
  rewrite scanLoop_whole by (done || lia).
  destruct (Z.leb_spec (Z.of_nat (length pre)) (Z.max fromLineNum 0)).
  - change (Z.of_nat (length (@nil string))) with 0.
    destruct (Z.ltb_spec 0 (effectivePageSize pageSize)); [|lia].
    cbn [scanLoop]. by rewrite Hlong.
  - cbv beta iota zeta.
    set (page := take _ (drop _ (dropCR <$> pre))).
    assert (Hpage : Z.of_nat (length page) < effectivePageSize pageSize).
    { unfold page. rewrite length_take, length_drop, length_fmap. lia. }
    destruct (Z.ltb_spec (Z.of_nat (length page)) (effectivePageSize pageSize));
      [|lia].
    cbn [scanLoop]. by rewrite Hlong.
Qed.

(** X16: a line of 1 MiB or more that the scan reaches, because the page is not
    full before it, makes the read fail with the scanner's error. *)
Theorem read_reaches_long_line (fs : fileSystem) path data pre long post
    fromLineNum pageSize :
  fs !! path = Some (Regular data) ->
  rawLines data "" = pre ++ long :: post ->
  allShort pre = true ->
  tooLong long = true ->
  Z.of_nat (length pre) < Z.max fromLineNum 0 + effectivePageSize pageSize ->
  readLogFileWithPagination fs path fromLineNum pageSize
  = Err (wrapError "failed to scan log file: " ErrTooLong) /\
  errorText (wrapError "failed to scan log file: " ErrTooLong)
  = "failed to scan log file: bufio.Scanner: token too long".
Proof.
  intros Hfs Hraw Hs Hlong Hlen.
  split; [by apply (scan_reaches_long_line fs path data pre long post)|done].
Qed.

(** X17: a negative start line reads as line 0 and a page size of zero or less
    as the default page size, for every file and every outcome. *)
Theorem read_normalised (fs : fileSystem) path fromLineNum pageSize :
  readLogFileWithPagination fs path fromLineNum pageSize
  = readLogFileWithPagination fs path (Z.max fromLineNum 0)
      (effectivePageSize pageSize).
Proof.
  pose proof (effectivePageSize_pos pageSize) as Hpos.
  unfold readLogFileWithPagination.
  destruct (osStat fs path) as [[size|e]|]; [|done|done].
  destruct (size =? 0).
  - do 2 f_equal.
    destruct (Z.ltb_spec fromLineNum 0), (Z.ltb_spec (Z.max fromLineNum 0) 0); lia.
  - assert (Hps : forall b : bool,
      (if (if b && (pageSize <=? 0) then defaultLogPageSize else pageSize) <=? 0
       then defaultLogPageSize
       else if b && (pageSize <=? 0) then defaultLogPageSize else pageSize)
      = effectivePageSize pageSize).
    { intros b. unfold effectivePageSize.
      destruct b; destruct (pageSize <=? 0) eqn:E; simpl; rewrite ?E; done. }
    assert (Hps' : forall b : bool,
      (if (if b && (effectivePageSize pageSize <=? 0) then defaultLogPageSize
           else effectivePageSize pageSize) <=? 0
       then defaultLogPageSize
       else if b && (effectivePageSize pageSize <=? 0) then defaultLogPageSize
            else effectivePageSize pageSize)
      = effectivePageSize pageSize).
    { intros b. destruct (Z.leb_spec (effectivePageSize pageSize) 0); [lia|].
      rewrite andb_false_r.
      by destruct (Z.leb_spec (effectivePageSize pageSize) 0); [lia|]. }
    cbv zeta. rewrite Hps, Hps'.
    replace (if fromLineNum <? 0 then 0 else fromLineNum)
      with (Z.max fromLineNum 0) by (destruct (Z.ltb_spec fromLineNum 0); lia).
    replace (if Z.max fromLineNum 0 <? 0 then 0 else Z.max fromLineNum 0)
      with (Z.max fromLineNum 0)
      by (destruct (Z.ltb_spec (Z.max fromLineNum 0) 0); lia).
    done.
Qed.

Lemma xs_length n : String.length (MoreInputs.xs n) = n.
Proof. induction n; simpl; congruence. Qed.

Lemma xs_noLF n : countLF (MoreInputs.xs n) = 0%nat.
Proof. induction n; simpl; congruence. Qed.

Lemma longLineFile_rawLines :
  rawLines MoreInputs.longLineFile "" = ["ok"] ++ [MoreInputs.longLine].
Proof.
  unfold MoreInputs.longLineFile.
  rewrite rawLines_line by reflexivity.
  rewrite rawLines_line by apply xs_noLF. done.
Qed.

Lemma longLine_tooLong : tooLong MoreInputs.longLine = true.
Proof.
  unfold tooLong, MoreInputs.longLine. rewrite xs_length, Z2Nat.id by lia.
  reflexivity.
Qed.

Lemma read_before_long_line_witness :
  readLogFileWithPagination MoreInputs.longLineFs "jobhandler-8.log" 0 1
  = Ok (LogReadResult (joinLines (pageOf (dropCR <$> ["ok"]) 0 1)) (0 + 1 - 1) false).
Proof.
  apply (read_before_long_line MoreInputs.longLineFs "jobhandler-8.log"
           MoreInputs.longLineFile ["ok"] [MoreInputs.longLine] 0 1).
  - apply lookup_singleton_eq.
  - apply longLineFile_rawLines.
  - reflexivity.
  - lia.
  - lia.
  - simpl. lia.
Defined.

Lemma read_reaches_long_line_witness :
  readLogFileWithPagination MoreInputs.longLineFs "jobhandler-8.log" 0 2
  = Err (wrapError "failed to scan log file: " ErrTooLong).
Proof.
  apply (read_reaches_long_line MoreInputs.longLineFs "jobhandler-8.log"
           MoreInputs.longLineFile ["ok"] MoreInputs.longLine [] 0 2).
  - apply lookup_singleton_eq.
  - apply longLineFile_rawLines.
  - reflexivity.
  - apply longLine_tooLong.
  - simpl. unfold effectivePageSize. simpl. lia.
Defined.

Lemma joinLines_app a b : joinLines (a ++ b) = joinLines a +:+ joinLines b.
Proof.
  induction a as [|l a IH]; [done|].
  change ((l :: a) ++ b) with (l :: (a ++ b)).
  rewrite !joinLines_cons, IH.
  change (String LF (joinLines a +:+ joinLines b))
    with (String LF (joinLines a) +:+ joinLines b).
  by rewrite append_assoc.
Qed.

(** A run of the loop that fills its page ran over a prefix of the pieces,
    none of them too long, and took nothing from the rest. *)
Lemma scanLoop_full_split pending start ps lines li to l1 li1 to1 :
  Z.of_nat (length lines) < ps ->
  scanLoop pending start ps lines li to = (l1, li1, to1, None) ->
  ps <= Z.of_nat (length l1) ->
  exists pre post,
    pending = pre ++ post /\ allShort pre = true /\
    scanLoop pre start ps lines li to = (l1, li1, to1, None) /\
    li1 = li + Z.of_nat (length pre).
Proof.
  revert lines li to.
  induction pending as [|raw rest IH]; intros lines li to Hlen Hrun Hfull.
  - simpl in Hrun. injection Hrun as <- <- <-. lia.
  - cbn [scanLoop] in Hrun. destruct (tooLong raw) eqn:Hr; [done|].
    destruct (li + 1 <? start) eqn:Hskip.
    + destruct (IH _ _ _ Hlen Hrun Hfull) as (pre & post & -> & Hs & Hpre & Hli).
      exists (raw :: pre), post. split; [done|].
      split; [simpl; by rewrite Hr|]. split.
      * cbn [scanLoop]. by rewrite Hr, Hskip.
      * simpl length. lia.
    + cbv zeta in Hrun.
      destruct (Z.leb_spec ps (Z.of_nat (length (lines ++ [dropCR raw]))))
        as [Hstop|Hmore].
      * injection Hrun as <- <- <-.
        exists [raw], rest. split; [done|]. split; [simpl; by rewrite Hr|].
        split; [|simpl; lia].
        cbn [scanLoop]. rewrite Hr, Hskip. cbv zeta.
        by destruct (Z.leb_spec ps (Z.of_nat (length (lines ++ [dropCR raw]))));
          [|lia].
      * destruct (IH _ _ _ Hmore Hrun Hfull)
          as (pre & post & -> & Hs & Hpre & Hli).
        exists (raw :: pre), post. split; [done|].
        split; [simpl; by rewrite Hr|]. split.
        -- cbn [scanLoop]. rewrite Hr, Hskip. cbv zeta.
           by destruct (Z.leb_spec ps (Z.of_nat (length (lines ++ [dropCR raw]))));
             [lia|].
        -- simpl length. lia.
Qed.

(** Two runs of the loop over the same pieces, both past their start line
    and with the same room left in their pages, collect the same lines and
    end the same way. *)
Lemma scanLoop_continue pending sA psA A toA sB psB B toB li :
  sA <= li + 1 -> sB <= li + 1 ->
  psA - Z.of_nat (length A) = psB - Z.of_nat (length B) ->
  Z.of_nat (length A) < psA ->
  exists new e,
    scanLoop pending sA psA A li toA
    = (A ++ new, li + Z.of_nat (length new),
       match new with [] => toA | _ => li + Z.of_nat (length new) end, e) /\
    scanLoop pending sB psB B li toB
    = (B ++ new, li + Z.of_nat (length new),
       match new with [] => toB | _ => li + Z.of_nat (length new) end, e).
Proof.
  revert A toA B toB li.
  induction pending as [|raw rest IH]; intros A toA B toB li HsA HsB Hroom HA.
  - exists [], None. simpl. by rewrite !app_nil_r, Z.add_0_r.
  - cbn [scanLoop]. destruct (tooLong raw).
    { exists [], (Some ErrTooLong). simpl. by rewrite !app_nil_r, Z.add_0_r. }
    destruct (Z.ltb_spec (li + 1) sA); [lia|].
    destruct (Z.ltb_spec (li + 1) sB); [lia|]. cbv zeta.
    assert (HlenA : Z.of_nat (length (A ++ [dropCR raw])) = Z.of_nat (length A) + 1)
      by (rewrite length_app; simpl; lia).
    assert (HlenB : Z.of_nat (length (B ++ [dropCR raw])) = Z.of_nat (length B) + 1)
      by (rewrite length_app; simpl; lia).
    destruct (Z.leb_spec psA (Z.of_nat (length (A ++ [dropCR raw])))),
             (Z.leb_spec psB (Z.of_nat (length (B ++ [dropCR raw])))); try lia.
    + exists [dropCR raw], None. simpl. done.
    + destruct (IH (A ++ [dropCR raw]) (li + 1) (B ++ [dropCR raw]) (li + 1)
                  (li + 1)) as (new & e & -> & ->); try lia.
      exists (dropCR raw :: new), e.
      rewrite <- !app_assoc. simpl app. simpl length.
      replace (li + 1 + Z.of_nat (length new)) with (li + Z.of_nat (S (length new)))
        by lia.
      split; (apply (f_equal2 pair); [apply (f_equal2 pair)|]; [done| |done]);
        destruct new; simpl; lia.
Qed.

(** X18: pages follow one another: when a read did not reach the end, the
    read with the sum of the page sizes is that read continued by the read
    that starts after its last line: it returns the two contents one after
    the other, or fails as the second read fails (it comes to a line of
    1 MiB or more).  In a file with no such line the second read
    succeeds. *)
Theorem read_next_page (fs : fileSystem) path k p q r1 :
  0 <= k -> 0 < p -> 0 < q ->
  readLogFileWithPagination fs path k p = Ok r1 ->
  IsEnd r1 = false ->
  ToLineNum r1 = k + p - 1 /\
  readLogFileWithPagination fs path k (p + q)
  = match readLogFileWithPagination fs path (ToLineNum r1 + 1) q with
    | Ok r2 =>
        Ok (LogReadResult (Content r1 +:+ Content r2) (ToLineNum r2) (IsEnd r2))
    | Err e => Err e
    end /\
  (forall data ls,
     fs !! path = Some (Regular data) -> fileLines data = Some ls ->
     exists r2,
       readLogFileWithPagination fs path (ToLineNum r1 + 1) q = Ok r2).
Proof.
  intros Hk Hp Hq Hr1 Hend.
  assert (Hreg : exists data, fs !! path = Some (Regular data) /\
                              data <> EmptyString).
  { unfold readLogFileWithPagination, osStat, osOpen in Hr1.
    destruct (fs !! path) as [[data|size e|e]|]; try done.
    - exists data. split; [done|]. intros ->. simpl in Hr1.
      injection Hr1 as <-. done.
    - destruct (size =? 0); [|done]. injection Hr1 as <-. done. }
  destruct Hreg as (data & Hfs & Hne).
  rewrite (read_scan _ _ _ _ _ Hfs Hne) in Hr1.
  rewrite effectivePageSize_id in Hr1 by done.
  replace (Z.max k 0) with k in Hr1 by lia.
  destruct (scanLoop (rawLines data "") k p [] (-1) k)
    as [[[l1 li1] to1] [e|]] eqn:Hrun; [done|].
  destruct (li1 <? k); [injection Hr1 as <-; done|].
  injection Hr1 as <-. simpl in Hend. apply Z.ltb_ge in Hend. simpl.
  assert (H0 : Z.of_nat (length (@nil string)) < p) by (simpl; lia).
  destruct (scanLoop_full_split _ _ _ _ _ _ _ _ _ H0 Hrun Hend)
    as (pre & post & Hraw & Hs & Hpre & Hli).
  rewrite scanLoop_whole in Hpre by (done || lia).
  destruct (Z.leb_spec (Z.of_nat (length pre)) k) as [|Hin].
  { injection Hpre as <- _ _. simpl in Hend. lia. }
  cbv zeta in Hpre.
  set (L := drop (Z.to_nat k) (dropCR <$> pre)) in *.
  assert (HL : Z.of_nat (length L) = Z.of_nat (length pre) - k).
  { unfold L. rewrite length_drop, length_fmap. lia. }
  assert (Hlen : Z.of_nat (length pre) = k + p).
  { injection Hpre as Hl1 Hli1 _. subst l1.
    rewrite length_take in *. lia. }
  assert (Htake : forall n, p <= n -> take (Z.to_nat n) L = L).
  { intros n Hn. apply take_ge. lia. }
  rewrite (Htake p) in Hpre by lia. injection Hpre as <- <- <-.
  split; [lia|].
  replace (k + Z.of_nat (length L) - 1 + 1) with (k + p) by lia.
  split.
  - rewrite !(read_scan _ _ _ _ _ Hfs Hne), Hraw.
    rewrite !effectivePageSize_id by lia.
    replace (Z.max k 0) with k by lia.
    replace (Z.max (k + p) 0) with (k + p) by lia.
    rewrite (scanLoop_app pre post k) by (done || simpl; lia).
    rewrite scanLoop_whole by (done || lia).
    destruct (Z.leb_spec (Z.of_nat (length pre)) k); [lia|]. cbv zeta.
    fold L. rewrite (Htake (p + q)) by lia.
    destruct (Z.ltb_spec (Z.of_nat (length L)) (p + q)); [|lia].
    rewrite (scanLoop_skip pre post (k + p)) by (done || lia).
    replace (-1 + Z.of_nat (length pre)) with (k + Z.of_nat (length L) - 1) by lia.
    destruct (scanLoop_continue post k (p + q) L (k + Z.of_nat (length L) - 1)
                (k + p) q [] (k + p) (k + Z.of_nat (length L) - 1))
      as (new & e & -> & ->); try (simpl; lia).
    destruct e as [e|]; [done|]. simpl app.
    destruct new as [|l new].
    + simpl length. rewrite Z.add_0_r, app_nil_r.
      destruct (Z.ltb_spec (k + Z.of_nat (length L) - 1) (k + p)); [|lia].
      destruct (Z.ltb_spec (k + Z.of_nat (length L) - 1) k); [lia|].
      destruct (Z.ltb_spec (k + Z.of_nat (length L) - 1) 0); [lia|].
      destruct (Z.ltb_spec (Z.of_nat (length L)) (p + q)); [|lia].
      simpl. by rewrite append_nil_r.
    + set (n := Z.of_nat (length (l :: new))).
      assert (Hn : 0 < n) by (unfold n; simpl; lia).
      destruct (Z.ltb_spec (k + Z.of_nat (length L) - 1 + n) (k + p)); [lia|].
      destruct (Z.ltb_spec (k + Z.of_nat (length L) - 1 + n) k); [lia|].
      simpl. rewrite joinLines_app, length_app, Nat2Z.inj_add. fold n.
      f_equal. f_equal.
      destruct (Z.ltb_spec n q), (Z.ltb_spec (Z.of_nat (length L) + n) (p + q));
        (done || lia).
  - intros data' ls Hfs' Hls. rewrite Hfs in Hfs'. injection Hfs' as <-.
    rewrite (read_regular _ _ _ _ _ _ Hfs Hne Hls). by eexists.
Qed.

Lemma read_next_page_witness :
  ToLineNum (LogReadResult (unlines ["one"]) 0 false) = 0 + 1 - 1 /\
  readLogFileWithPagination Inputs.threeLinesFs "jobhandler-3.log" 0 (1 + 5)
  = match readLogFileWithPagination Inputs.threeLinesFs "jobhandler-3.log"
            (ToLineNum (LogReadResult (unlines ["one"]) 0 false) + 1) 5 with
    | Ok r2 =>
        Ok (LogReadResult
              (Content (LogReadResult (unlines ["one"]) 0 false) +:+ Content r2)
              (ToLineNum r2) (IsEnd r2))
    | Err e => Err e
    end /\
  (forall data ls,
     Inputs.threeLinesFs !! "jobhandler-3.log" = Some (Regular data) ->
     fileLines data = Some ls ->
     exists r2,
       readLogFileWithPagination Inputs.threeLinesFs "jobhandler-3.log"
         (ToLineNum (LogReadResult (unlines ["one"]) 0 false) + 1) 5 = Ok r2).
Proof.
  apply (read_next_page Inputs.threeLinesFs "jobhandler-3.log" 0 1 5
           (LogReadResult (unlines ["one"]) 0 false));
    try reflexivity; lia.
Defined.

(** What the loop keeps: the lines it collects hold no newline, it collects
    at most [ps] of them, and [toLineNum] is not negative. *)
Lemma scanLoop_keeps pending start ps lines li to :
  Forall (fun l => countLF l = 0%nat) pending ->
  Forall (fun l => countLF l = 0%nat) lines ->
  Z.of_nat (length lines) < ps -> -1 <= li -> 0 <= to ->
  Forall (fun l => countLF l = 0%nat)
    (scanLoop pending start ps lines li to).1.1.1 /\
  Z.of_nat (length (scanLoop pending start ps lines li to).1.1.1) <= ps /\
  0 <= (scanLoop pending start ps lines li to).1.2 /\
  -1 <= (scanLoop pending start ps lines li to).1.1.2.
Proof.
  revert lines li to.
  induction pending as [|raw rest IH]; intros lines li to Hp Hl Hlen Hli Hto.
  - simpl. repeat split; (done || lia).
  - apply Forall_cons in Hp as [Hraw Hrest]. cbn [scanLoop].
    destruct (tooLong raw); [simpl; repeat split; (done || lia)|].
    destruct (li + 1 <? start); [apply IH; (done || lia)|]. cbv zeta.
    assert (Hl' : Forall (fun l => countLF l = 0%nat) (lines ++ [dropCR raw])).
    { apply Forall_app. split; [done|]. repeat constructor.
      by apply dropCR_noLF. }
    destruct (Z.leb_spec ps (Z.of_nat (length (lines ++ [dropCR raw])))).
    + simpl. rewrite length_app in *. simpl in *. repeat split; (done || lia).
    + apply IH; (done || lia).
Qed.

Lemma read_shape (fs : fileSystem) path fromLineNum pageSize r :
  readLogFileWithPagination fs path fromLineNum pageSize = Ok r ->
  0 <= ToLineNum r /\
  (Content r = "" \/ exists s, Content r = s +:+ String LF "") /\
  Z.of_nat (countLF (Content r)) <= effectivePageSize pageSize /\
  (IsEnd r = false ->
   Z.of_nat (countLF (Content r)) = effectivePageSize pageSize).
Proof.
  pose proof (effectivePageSize_pos pageSize) as Hpos.
  destruct (fs !! path) as [[data|size e|e]|] eqn:Hfs.
  - destruct (decide (data = EmptyString)) as [->|Hne].
    + unfold readLogFileWithPagination, osStat. rewrite Hfs. simpl.
      intros [= <-]. simpl. repeat split; try lia; auto.
      destruct (fromLineNum <? 0) eqn:E; [lia|]. apply Z.ltb_ge in E. lia.
    + rewrite (read_scan _ _ _ _ _ Hfs Hne).
      pose proof (scanLoop_keeps (rawLines data "") (Z.max fromLineNum 0)
                    (effectivePageSize pageSize) [] (-1) (Z.max fromLineNum 0)
                    (rawLines_noLF data "" eq_refl) (Forall_nil_2 _)) as Hk.
      destruct (scanLoop _ _ _ _ _ _) as [[[lines li] to] [e|]]; [done|].
      simpl in Hk. destruct Hk as (Hno & Hlen & Hto & Hli); try (simpl; lia).
      destruct (li <? Z.max fromLineNum 0).
      * intros [= <-]. simpl. repeat split; try lia; auto.
        destruct (li <? 0) eqn:E; [lia|]. apply Z.ltb_ge in E. lia.
      * intros [= <-]. simpl. rewrite countLF_joinLines by done.
        split; [lia|]. split; [|split; [lia|]].
        -- unfold joinLines. destruct lines as [|l lines]; [by left|].
           change (0 <? Z.of_nat (length (l :: lines))) with true. eauto.
        -- intros E. apply Z.ltb_ge in E. lia.
  - unfold readLogFileWithPagination, osStat, osOpen. rewrite Hfs.
    destruct (size =? 0); [|done].
    intros [= <-]. simpl. repeat split; try lia; auto.
    destruct (fromLineNum <? 0) eqn:E; [lia|]. apply Z.ltb_ge in E. lia.
  - unfold readLogFileWithPagination, osStat. by rewrite Hfs.
  - unfold readLogFileWithPagination, osStat. by rewrite Hfs.
Qed.

(** X19: every successful read returns a line number that is not negative and a
    content that is empty or ends with a newline, holds at most the
    effective page size of lines, and holds exactly that many when [isEnd]
    is false. *)
Theorem read_result_shape (fs : fileSystem) path fromLineNum pageSize r :
  readLogFileWithPagination fs path fromLineNum pageSize = Ok r ->
  0 <= ToLineNum r /\
  (Content r = "" \/ exists s, Content r = s +:+ String LF "") /\
  Z.of_nat (countLF (Content r)) <= effectivePageSize pageSize /\
  (IsEnd r = false ->
   Z.of_nat (countLF (Content r)) = effectivePageSize pageSize).
Proof. apply read_shape. Qed.

Lemma read_result_shape_witness :
  0 <= ToLineNum (LogReadResult (joinLines ["one"; "two"]) 1 false) /\
  (Content (LogReadResult (joinLines ["one"; "two"]) 1 false) = "" \/
   exists s, Content (LogReadResult (joinLines ["one"; "two"]) 1 false)
             = s +:+ String LF "") /\
  Z.of_nat (countLF (Content (LogReadResult (joinLines ["one"; "two"]) 1 false)))
  <= effectivePageSize 2 /\
  (IsEnd (LogReadResult (joinLines ["one"; "two"]) 1 false) = false ->
   Z.of_nat (countLF (Content (LogReadResult (joinLines ["one"; "two"]) 1 false)))
   = effectivePageSize 2).
Proof.
  apply (read_result_shape Inputs.threeLinesFs "jobhandler-3.log" 0 2).
  reflexivity.
Defined.

End ReaderMore.

(** ** Lines of 1 MiB or more *)

Module LongLineFacts.
Import Log StringFacts LogFacts ReaderMore.

Lemma longFirstFile_rawLines :
  rawLines MoreInputs.longFirstFile ""
  = [] ++ MoreInputs.longLine :: ["two"; "three"].
Proof.
  unfold MoreInputs.longFirstFile. cbn [unlines].
  rewrite rawLines_line by apply xs_noLF.
  rewrite rawLines_line by reflexivity.
  rewrite rawLines_line by reflexivity. done.
Qed.

(** Every read of the file whose first line is of 1 MiB fails: the scan has
    to pass that line. *)
Lemma longFirst_read_fails fromLineNum pageSize :
  readLogFileWithPagination MoreInputs.longFirstFs "jobhandler-7.log"
    fromLineNum pageSize
  = Err (wrapError "failed to scan log file: " ErrTooLong).
Proof.
  pose proof (effectivePageSize_pos pageSize).
  apply (scan_reaches_long_line MoreInputs.longFirstFs "jobhandler-7.log"
           MoreInputs.longFirstFile [] MoreInputs.longLine ["two"; "three"]).
  - apply lookup_singleton_eq.
  - apply longFirstFile_rawLines.
  - reflexivity.
  - apply longLine_tooLong.
  - simpl. lia.
Qed.

(** The whole-file read of C2 needs lines shorter than 1 MiB as well: the
    file of three lines whose first line is of 1 MiB, read from line 0 with
    a page size of 5, gives an error. *)
Lemma read_whole_file_long_line :
  MoreInputs.longFirstFile = unlines [MoreInputs.longLine; "two"; "three"] /\
  String.length MoreInputs.longLine = Z.to_nat 1048576 /\
  readLogFileWithPagination MoreInputs.longFirstFs "jobhandler-7.log" 0 5
  = Err (wrapError "failed to scan log file: " ErrTooLong).
Proof.
  split; [reflexivity|]. split; [apply xs_length | apply longFirst_read_fails].
Qed.

(** C3 as stated fails: in the file of [N = 3] lines whose first line is of
    1 MiB, the read from line [k = 1] with page size [p = 1 < N - k] does
    not return one line: it fails, since the scan has to pass the first
    line. *)
Lemma read_page_long_line :
  MoreInputs.longFirstFile = unlines [MoreInputs.longLine; "two"; "three"] /\
  String.length MoreInputs.longLine = Z.to_nat 1048576 /\
  readLogFileWithPagination MoreInputs.longFirstFs "jobhandler-7.log" 1 1
  = Err (wrapError "failed to scan log file: " ErrTooLong) /\
  readLogFileWithPagination MoreInputs.longFirstFs "jobhandler-7.log" 1 1
  <> Ok (LogReadResult (unlines ["two"]) 1 false).
Proof.
  split; [reflexivity|]. split; [apply xs_length|].
  rewrite longFirst_read_fails. split; [reflexivity | discriminate].
Qed.

(** C4 as stated fails: in the file of [N = 3] lines whose first line is of
    1 MiB, the read from line [fromLineNum = 3 >= N] does not return an
    empty content with [toLineNum = 2] and [isEnd = true]: it fails. *)
Lemma read_past_end_long_line :
  MoreInputs.longFirstFile = unlines [MoreInputs.longLine; "two"; "three"] /\
  String.length MoreInputs.longLine = Z.to_nat 1048576 /\
  readLogFileWithPagination MoreInputs.longFirstFs "jobhandler-7.log" 3 10
  = Err (wrapError "failed to scan log file: " ErrTooLong) /\
  readLogFileWithPagination MoreInputs.longFirstFs "jobhandler-7.log" 3 10
  <> Ok (LogReadResult "" 2 true).
Proof.
  split; [reflexivity|]. split; [apply xs_length|].
  rewrite longFirst_read_fails. split; [reflexivity | discriminate].
Qed.

End LongLineFacts.

Module WriterFacts.
Import Log StringFacts LogFacts ReaderMore Writer.

Lemma hasSuffix_app suffix s : hasSuffix suffix (s +:+ suffix) = true.
Proof.
  induction s as [|c s IH].
  - change ("" +:+ suffix) with suffix. destruct suffix; simpl.
    + done.
    + by rewrite Ascii.eqb_refl, String.eqb_refl.
  - change (String c s +:+ suffix) with (String c (s +:+ suffix)).
    cbn [hasSuffix]. rewrite IH. by destruct (String.eqb _ _).
Qed.

Lemma hasSuffix_LF_inv s :
  hasSuffix (String LF "") s = true -> exists s', s = s' +:+ String LF "".
Proof.
  induction s as [|c s IH]; [done|]. cbn [hasSuffix].
  destruct (String.eqb_spec (String c s) (String LF "")) as [->|_].
  - by exists "".
  - intros H. destruct (IH H) as [s' ->]. by exists (String c s').
Qed.

Lemma noLF_no_suffix l :
  countLF l = 0%nat -> hasSuffix (String LF "") l = false.
Proof.
  intros Hl. destruct (hasSuffix (String LF "") l) eqn:E; [|done].
  apply hasSuffix_LF_inv in E as [s' ->].
  rewrite countLF_app in Hl. simpl in Hl. lia.
Qed.

Lemma rawLines_cut a b cur :
  rawLines (a +:+ String LF b) cur
  = rawLines (a +:+ String LF "") cur ++ rawLines b "".
Proof.
  revert cur. induction a as [|c a IH]; intros cur.
  - change ("" +:+ String LF b) with (String LF b).
    change ("" +:+ String LF "") with (String LF "").
    cbn [rawLines]. by rewrite Ascii.eqb_refl.
  - change (String c a +:+ String LF b) with (String c (a +:+ String LF b)).
    change (String c a +:+ String LF "") with (String c (a +:+ String LF "")).
    cbn [rawLines]. destruct (Ascii.eqb c LF); by rewrite IH.
Qed.

Lemma rawLines_after_terminated data x :
  terminated data ->
  rawLines (data +:+ x) "" = rawLines data "" ++ rawLines x "".
Proof.
  intros [->|[s ->]]; [done|].
  rewrite append_assoc.
  change (String LF "" +:+ x) with (String LF x).
  apply rawLines_cut.
Qed.

Lemma fileLines_append_line data ls l :
  terminated data ->
  fileLines data = Some ls ->
  countLF l = 0%nat -> dropCR l = l -> tooLong l = false ->
  terminated (data +:+ l +:+ String LF "") /\
  fileLines (data +:+ l +:+ String LF "") = Some (ls ++ [l]).
Proof.
  intros Hterm Hls Hl Hcr Hshort. split.
  - right. exists (data +:+ l). by rewrite append_assoc.
  - apply fileLines_Some in Hls as [Hs ->].
    unfold fileLines.
    rewrite rawLines_after_terminated, rawLines_line by done.
    change ("" +:+ l) with l. change (rawLines "" "") with (@nil string).
    unfold allShort in *. rewrite forallb_app, Hs. simpl. rewrite Hshort.
    simpl. rewrite fmap_app. simpl. by rewrite Hcr.
Qed.

Section Paths.
Variable filepathJoin : string -> string -> string.

Lemma WriteLine_appends (fs : fileSystem) w path data ls l :
  file w = Some path ->
  fs !! path = Some (Regular data) ->
  terminated data ->
  fileLines data = Some ls ->
  countLF l = 0%nat -> dropCR l = l -> tooLong l = false ->
  exists data',
    WriteLine (Some w) l fs !! path = Some (Regular data') /\
    terminated data' /\
    fileLines data' = Some (ls ++ [l]) /\
    (forall pageSize,
       readLogFileWithPagination (WriteLine (Some w) l fs) path
         (Z.of_nat (length ls)) pageSize
       = Ok (LogReadResult (l +:+ String LF "") (Z.of_nat (length ls))
               (1 <? effectivePageSize pageSize))) /\
    (forall other, other <> path ->
       WriteLine (Some w) l fs !! other = fs !! other).
Proof.
  intros Hfile Hfs Hterm Hls Hl Hcr Hshort.
  destruct (fileLines_append_line data ls l Hterm Hls Hl Hcr Hshort)
    as [Hterm' Hls'].
  assert (Hnew : WriteLine (Some w) l fs
                 = <[path := Regular (data +:+ l +:+ String LF "")]> fs).
  { unfold WriteLine, writeString. rewrite Hfile, Hfs.
    by rewrite noLF_no_suffix by done. }
  rewrite Hnew. eexists. split; [apply lookup_insert_eq|].
  split; [done|]. split; [done|]. split.
  - intros pageSize. pose proof (effectivePageSize_pos pageSize) as Hps.
    assert (Hne : data +:+ l +:+ String LF "" <> EmptyString).
    { intros E. rewrite E in Hls'. cbv in Hls'. by destruct ls. }
    rewrite (read_regular _ path _ _ _ _ (lookup_insert_eq _ _ _) Hne Hls').
    cbv zeta. set (ps := effectivePageSize pageSize) in *.
    replace (Z.max (Z.of_nat (length ls)) 0) with (Z.of_nat (length ls)) by lia.
    rewrite length_app. simpl length.
    destruct (Z.leb_spec (Z.of_nat (length ls + 1)) (Z.of_nat (length ls)));
      [lia|].
    assert (Hpage : pageOf (ls ++ [l]) (Z.of_nat (length ls)) ps = [l]).
    { unfold pageOf. rewrite Nat2Z.id, drop_app_length.
      replace (Z.to_nat ps) with (S (Z.to_nat (ps - 1))) by lia.
      simpl. by rewrite take_nil. }
    rewrite Hpage. simpl length. unfold joinLines. simpl.
    do 2 f_equal. lia.
  - intros other Hne. by apply lookup_insert_ne.
Qed.

(** X20: a line written with WriteLine is the next line a reader sees.  For a
    log file that is empty or ends with a newline and whose lines are all
    shorter than 1 MiB ([fileLines data = Some ls]), and a new line without
    a newline, without a final carriage return and shorter than 1 MiB: the
    file again ends with a newline, its lines are the old ones and the new
    one, and a read from the old number of lines, with any page size,
    returns the new line; [isEnd] is true when the page size the read runs
    with (the default for a page size of zero or less) is larger than 1. *)
Theorem WriteLine_read (fs : fileSystem) w path data ls l :
  file w = Some path ->
  fs !! path = Some (Regular data) ->
  terminated data ->
  fileLines data = Some ls ->
  countLF l = 0%nat -> dropCR l = l -> tooLong l = false ->
  exists data',
    WriteLine (Some w) l fs !! path = Some (Regular data') /\
    terminated data' /\
    fileLines data' = Some (ls ++ [l]) /\
    (forall pageSize,
       readLogFileWithPagination (WriteLine (Some w) l fs) path
         (Z.of_nat (length ls)) pageSize
       = Ok (LogReadResult (l +:+ String LF "") (Z.of_nat (length ls))
               (1 <? effectivePageSize pageSize))) /\
    (forall other, other <> path ->
       WriteLine (Some w) l fs !! other = fs !! other).
Proof. apply WriteLine_appends. Qed.

(** X21: after Close the writer holds no file: a second Close returns nil and
    changes nothing, and Write and WriteLine leave the file system as it
    is. *)
Theorem Close_then_nothing (w : logWriter) :
  (Close (Some w)).1 = None /\
  Close (Close (Some w)).2 = (None, (Close (Some w)).2) /\
  (forall line fs, WriteLine (Close (Some w)).2 line fs = fs) /\
  (forall stamp content fs, Write (Close (Some w)).2 stamp content fs = fs).
Proof.
  unfold Close, WriteLine, Write.
  destruct (file w) as [f|] eqn:E; simpl; rewrite ?E; done.
Qed.

(** X22: what a writer wrote is what the log query serves.  In a log directory
    without a file for the invocation, newLogWriter creates the file; one
    WriteLine later the query for that invocation from line 0 answers 200
    with the line as content, [toLineNum = 0] and [isEnd = true]. *)
Theorem written_then_served (fs : fileSystem) dir id l :
  dir <> "" -> id <> 0 ->
  fs !! logFilePath filepathJoin dir id = None ->
  countLF l = 0%nat -> dropCR l = l -> tooLong l = false ->
  exists w fs1,
    newLogWriter filepathJoin dir id fs = (Ok w, fs1) /\
    handleLogRequest filepathJoin
      (Some {| LogDateTim := 0; LogID := id; FromLineNum := 0 |}) dir fs1
    = {| Code := 200; Msg := "success";
         Content := {| resFromLineNum := 0; ToLineNum := 0;
                       LogContent := ""; IsEnd := true |} |} /\
    handleLogRequest filepathJoin
      (Some {| LogDateTim := 0; LogID := id; FromLineNum := 0 |}) dir
      (WriteLine (Some w) l fs1)
    = {| Code := 200; Msg := "success";
         Content := {| resFromLineNum := 0; ToLineNum := 0;
                       LogContent := l +:+ String LF "";
                       IsEnd := true |} |}.
Proof.
  intros Hdir Hid Hfresh Hl Hcr Hshort.
  set (path := logFilePath filepathJoin dir id) in *.
  assert (Hdir' : String.eqb dir "" = false) by by apply String.eqb_neq.
  assert (Hid' : (id =? 0) = false) by by apply Z.eqb_neq.
  eexists _, _. split; [|split].
  - unfold newLogWriter, osOpenAppend. fold path.
    by rewrite Hdir', Hid', Hfresh.
  - assert (Hlook : (<[path := Regular ""]> fs : fileSystem) !! path
                    = Some (Regular "")) by apply lookup_insert_eq.
    unfold handleLogRequest. simpl. fold path. rewrite Hdir'.
    unfold readLogFileWithPagination, osStat.
    by rewrite Hlook.
  - destruct (WriteLine_appends (<[path := Regular ""]> fs)
                {| logPath := dir; logID := id; file := Some path |}
                path "" [] l) as (data' & Hlook & _ & _ & Hread & _);
      try done.
    { apply lookup_insert_eq. }
    { by left. }
    specialize (Hread defaultLogPageSize).
    change (1 <? effectivePageSize defaultLogPageSize) with true in Hread.
    match goal with
    | |- context [WriteLine ?a ?b ?c] => set (fs2 := WriteLine a b c) in *
    end.
    unfold handleLogRequest. simpl. fold path. rewrite Hdir'.
    unfold osStat at 1. rewrite Hlook.
    change (Z.of_nat (length (@nil string))) with 0 in Hread.
    by rewrite Hread.
Qed.

(** X23: every answer of handleLogRequest has code 200 or 500; an answer with
    code 500 carries no content, and an answer with code 200 carries the
    message ["success"], the start line of the request as it came, also
    when it is negative, and at most [defaultLogPageSize] lines. *)
Theorem handleLogRequest_answer req dir (fs : fileSystem) :
  (Code (handleLogRequest filepathJoin req dir fs) = 500 /\
   Content (handleLogRequest filepathJoin req dir fs) = noContent) \/
  (Code (handleLogRequest filepathJoin req dir fs) = 200 /\
   Msg (handleLogRequest filepathJoin req dir fs) = "success" /\
   exists r,
     req = Some r /\
     resFromLineNum (Content (handleLogRequest filepathJoin req dir fs))
     = FromLineNum r /\
     0 <= ToLineNum (Content (handleLogRequest filepathJoin req dir fs)) /\
     Z.of_nat (countLF (LogContent (Content (handleLogRequest filepathJoin req dir fs))))
     <= defaultLogPageSize).
Proof.
  unfold handleLogRequest. destruct req as [r|]; [|by left].
  destruct (String.eqb dir ""); [by left|].
  destruct (osStat fs _); [|by left].
  destruct (readLogFileWithPagination fs _ _ _) as [res|e] eqn:E; [|by left].
  right. simpl. split; [done|]. split; [done|]. exists r.
  apply read_shape in E as (Hto & _ & Hcount & _).
  by rewrite effectivePageSize_id in Hcount.
Qed.

End Paths.
End WriterFacts.

Module WriterWitness.
Import Log Writer.

Lemma WriteLine_read_witness :
  exists data',
    WriteLine (Some MoreInputs.writer42) "two" MoreInputs.oneWritten
      !! MoreInputs.path42 = Some (Regular data') /\
    terminated data' /\
    fileLines data' = Some (["one"] ++ ["two"]) /\
    (forall pageSize,
       readLogFileWithPagination
         (WriteLine (Some MoreInputs.writer42) "two" MoreInputs.oneWritten)
         MoreInputs.path42 (Z.of_nat (length ["one"])) pageSize
       = Ok (LogReadResult ("two" +:+ String LF "") (Z.of_nat (length ["one"]))
               (1 <? effectivePageSize pageSize))) /\
    (forall other, other <> MoreInputs.path42 ->
       WriteLine (Some MoreInputs.writer42) "two" MoreInputs.oneWritten !! other
       = MoreInputs.oneWritten !! other).
Proof.
  apply (WriterFacts.WriteLine_read MoreInputs.oneWritten MoreInputs.writer42
           MoreInputs.path42 ("one" +:+ String LF "") ["one"] "two");
    try reflexivity.
  right. by exists "one".
Defined.

Lemma written_then_served_witness :
  exists w fs1,
    newLogWriter MoreInputs.joinSlash "logs" 42 ∅ = (Ok w, fs1) /\
    handleLogRequest MoreInputs.joinSlash
      (Some {| LogDateTim := 0; LogID := 42; FromLineNum := 0 |}) "logs" fs1
    = {| Code := 200; Msg := "success";
         Content := {| resFromLineNum := 0; ToLineNum := 0;
                       LogContent := ""; IsEnd := true |} |} /\
    handleLogRequest MoreInputs.joinSlash
      (Some {| LogDateTim := 0; LogID := 42; FromLineNum := 0 |}) "logs"
      (WriteLine (Some w) "hello" fs1)
    = {| Code := 200; Msg := "success";
         Content := {| resFromLineNum := 0; ToLineNum := 0;
                       LogContent := "hello" +:+ String LF "";
                       IsEnd := true |} |}.
Proof.
  apply (WriterFacts.written_then_served MoreInputs.joinSlash ∅ "logs" 42 "hello");
    try reflexivity; discriminate.
Defined.

End WriterWitness.

Module RetentionFacts.
Import Retention.

Lemma sweep_filter cutoffTime entries deletedCount totalSize :
  sweep cutoffTime entries deletedCount totalSize
  = (List.filter (fun entry => negb (deletable cutoffTime entry)) entries,
     deletedCount
     + Z.of_nat (length (List.filter (deletable cutoffTime) entries)),
     totalSize
     + foldr (fun entry sum => sizeOf entry + sum) 0
         (List.filter (deletable cutoffTime) entries)).
Proof.
  revert deletedCount totalSize.
  induction entries as [|entry rest IH]; intros deletedCount totalSize.
  - simpl. f_equal; [f_equal|]; lia.
  - cbn [sweep List.filter]. rewrite !IH.
    destruct (deletable cutoffTime entry) eqn:E; unfold deletable in E;
      destruct (IsDir entry), (String.prefix "jobhandler-" (Name entry)),
        (hasSuffix ".log" (Name entry)), (Info entry) as [info|e] eqn:Ei;
      try destruct (ModTime info <? cutoffTime);
      destruct (removeErr entry); simpl in E |- *;
      try discriminate; try reflexivity;
      rewrite IH;
      change (sizeOf entry)
        with (match Info entry with Ok info => Size info | Err _ => 0 end);
      rewrite Ei;
      (apply (f_equal2 pair); [apply (f_equal2 pair)|]; [reflexivity|lia|lia]).
Qed.

(** X24: the sweep deletes exactly the entries that are not directories, are
    named [jobhandler-*.log], were last modified before the cutoff and can
    be removed; it keeps every other entry, in order, and counts the
    deleted entries. *)
Theorem cleanupOldLogs_deletes logPath retentionDays cutoffTime entries
    kept deletedCount totalSize :
  cleanupOldLogs logPath retentionDays cutoffTime (Ok entries)
  = Some (kept, deletedCount, totalSize) ->
  kept = List.filter (fun entry => negb (deletable cutoffTime entry)) entries /\
  deletedCount = Z.of_nat (length entries) - Z.of_nat (length kept) /\
  (forall entry, In entry entries ->
     IsDir entry = true \/
     String.prefix "jobhandler-" (Name entry) = false \/
     hasSuffix ".log" (Name entry) = false \/
     (exists info, Info entry = Ok info /\ cutoffTime <= ModTime info) ->
     In entry kept).
Proof.
  unfold cleanupOldLogs.
  destruct (String.eqb logPath "" || (retentionDays <=? 0)); [done|].
  rewrite sweep_filter. intros [= <- <- <-].
  split; [done|]. split.
  - pose proof (List.filter_length (deletable cutoffTime) entries) as H.
    lia.
  - intros entry Hin Hkeep. apply List.filter_In. split; [done|].
    unfold deletable.
    destruct Hkeep as [->|[->|[->|(info & -> & Hmod)]]]; simpl;
      rewrite ?andb_false_r; try done.
    destruct (Z.ltb_spec (ModTime info) cutoffTime); [lia|].
    by rewrite ?andb_false_r.
Qed.

Lemma prefix_app (a b : string) : String.prefix a (a +:+ b) = true.
Proof.
  induction a as [|c a IH]; [by destruct b|].
  change (String c a +:+ b) with (String c (a +:+ b)). simpl.
  destruct (Ascii.ascii_dec c c); [done | congruence].
Qed.

(** X25: the files of the log writer are within reach of the sweep, whatever
    the invocation id: an entry with the name the writer gives its file,
    that is not a directory, whose file information can be read and that
    can be removed, is left after the sweep exactly when it was last
    modified at the cutoff time or later. *)
Theorem cleanupOldLogs_writer_files logPath retentionDays cutoffTime entries
    kept deletedCount totalSize entry logID info :
  cleanupOldLogs logPath retentionDays cutoffTime (Ok entries)
  = Some (kept, deletedCount, totalSize) ->
  In entry entries ->
  Name entry = Writer.logFileName logID ->
  IsDir entry = false ->
  Info entry = Ok info ->
  removeErr entry = None ->
  In entry kept <-> cutoffTime <= ModTime info.
Proof.
  unfold cleanupOldLogs.
  destruct (String.eqb logPath "" || (retentionDays <=? 0)); [done|].
  rewrite sweep_filter. intros [= <- _ _] Hin Hname Hdir Hinfo Hrm.
  rewrite List.filter_In.
  assert (Hd : deletable cutoffTime entry = (ModTime info <? cutoffTime)).
  { unfold deletable, Writer.logFileName in *. rewrite Hname, Hdir, Hinfo, Hrm.
    cbn [negb andb]. rewrite prefix_app.
    rewrite <- (StringFacts.append_assoc "jobhandler-" (pretty logID) ".log").
    rewrite WriterFacts.hasSuffix_app. cbn [andb]. by rewrite andb_true_r. }
  rewrite Hd. destruct (Z.ltb_spec (ModTime info) cutoffTime); simpl.
  - split; [intros [_ ?]; done | lia].
  - split; [lia | done].
Qed.

Lemma cleanupOldLogs_deletes_witness :
  List.filter (fun entry => negb (deletable (3 * MoreInputs.day) entry))
    MoreInputs.logDir
  = List.filter (fun entry => negb (deletable (3 * MoreInputs.day) entry))
      MoreInputs.logDir /\
  1 = Z.of_nat (length MoreInputs.logDir)
      - Z.of_nat (length (List.filter
                            (fun entry => negb (deletable (3 * MoreInputs.day) entry))
                            MoreInputs.logDir)) /\
  (forall entry, In entry MoreInputs.logDir ->
     IsDir entry = true \/
     String.prefix "jobhandler-" (Name entry) = false \/
     hasSuffix ".log" (Name entry) = false \/
     (exists info, Info entry = Ok info /\ 3 * MoreInputs.day <= ModTime info) ->
     In entry (List.filter
                 (fun entry => negb (deletable (3 * MoreInputs.day) entry))
                 MoreInputs.logDir)).
Proof.
  apply (cleanupOldLogs_deletes "logs" 7 (3 * MoreInputs.day)
           MoreInputs.logDir _ 1 20).
  reflexivity.
Defined.

Lemma cleanupOldLogs_writer_files_witness :
  In {| Name := "jobhandler-1.log"; IsDir := false;
        Info := Ok {| ModTime := 9 * MoreInputs.day; Size := 10 |};
        removeErr := None |}
     (List.filter (fun entry => negb (deletable (3 * MoreInputs.day) entry))
        MoreInputs.logDir)
  <-> 3 * MoreInputs.day <= 9 * MoreInputs.day.
Proof.
  apply (cleanupOldLogs_writer_files "logs" 7 (3 * MoreInputs.day)
           MoreInputs.logDir _ 1 20 _ 1
           {| ModTime := 9 * MoreInputs.day; Size := 10 |});
    try reflexivity.
  by left.
Defined.

End RetentionFacts.

Module WriteFacts.
Import Log StringFacts LogFacts ReaderMore Writer WriterFacts.

Lemma append_LF_inv a b s :
  a +:+ b = s +:+ String LF "" ->
  b = "" \/ exists b', b = b' +:+ String LF "".
Proof.
  revert s. induction a as [|c a IH]; intros s.
  - change ("" +:+ b) with b. intros ->. right. by exists s.
  - change (String c a +:+ b) with (String c (a +:+ b)).
    destruct s as [|c' s].
    + change ("" +:+ String LF "") with (String LF ""). intros [= _ H].
      left. by destruct a, b.
    + change (String c' s +:+ String LF "") with (String c' (s +:+ String LF "")).
      intros [= _ H]. by apply (IH s).
Qed.

Lemma stamped_no_suffix stamp content :
  hasSuffix (String LF "") content = false ->
  hasSuffix (String LF "") ("[" +:+ stamp +:+ "] " +:+ content) = false.
Proof.
  intros Hc.
  destruct (hasSuffix (String LF "") ("[" +:+ stamp +:+ "] " +:+ content))
    eqn:E; [|done].
  apply hasSuffix_LF_inv in E as [s E].
  rewrite <- !append_assoc in E.
  destruct (append_LF_inv _ _ _ E) as [->|[b' ->]].
  - rewrite append_nil_r in E.
    destruct (append_LF_inv _ _ _ E) as [?|[b' Hb]]; [done|].
    destruct b' as [|? [|? [|? ?]]]; discriminate.
  - by rewrite hasSuffix_app in Hc.
Qed.

(** X26: Write is WriteLine of the message behind its time stamp, for a message
    that does not end with a newline: both append the same single line. *)
Theorem Write_WriteLine w stamp content (fs : fileSystem) :
  hasSuffix (String LF "") content = false ->
  Write w stamp content fs
  = WriteLine w ("[" +:+ stamp +:+ "] " +:+ content) fs.
Proof.
  intros Hc. unfold Write, WriteLine.
  destruct w as [w|]; [|done]. destruct (file w) as [f|]; [|done].
  cbv zeta. rewrite (stamped_no_suffix stamp content Hc). cbn [negb].
  by rewrite <- !append_assoc.
Qed.

Lemma Write_WriteLine_witness :
  Write (Some MoreInputs.writer42) "2026-01-01 00:00:00.000" "started"
    MoreInputs.oneWritten
  = WriteLine (Some MoreInputs.writer42)
      ("[" +:+ "2026-01-01 00:00:00.000" +:+ "] " +:+ "started")
      MoreInputs.oneWritten.
Proof.
  apply (Write_WriteLine (Some MoreInputs.writer42) "2026-01-01 00:00:00.000"
           "started" MoreInputs.oneWritten).
  reflexivity.
Defined.

End WriteFacts.

Module OptionsFacts.
Import Options.

Section World.
Context {W : Type}.

(** X27: ToOptions fails only with the error of Config.Validate, or, for a
    configuration that is not enabled and so passes Config.Validate, with
    ["xxl-job is not enabled"]; the second validation never fails, so no
    error of ToOptions is an ["invalid options: ..."] one. *)
Theorem ToOptions_never_invalid (c : option Config) e :
  ToOptions (W := W) c = Err e ->
  Config_Validate c = Some e \/
  (exists cfg, c = Some cfg /\ Enabled cfg = false /\
     Config_Validate c = None /\ e = errorString "xxl-job is not enabled").
Proof.
  unfold ToOptions, Config_Validate, executorOptions_Validate.
  destruct c as [cfg|]; [|intros [= <-]; by left].
  destruct (Enabled cfg) eqn:En; simpl.
  - destruct (String.eqb (ServerAddr cfg) ""); [intros [= <-]; by left|].
    destruct (String.eqb (RegistryKey cfg) ""); [intros [= <-]; by left|].
    destruct (String.eqb (ExecutorPort cfg) ""); [intros [= <-]; by left|].
    done.
  - intros [= <-]. right. by exists cfg.
Qed.

Lemma ToOptions_copied cfg o :
  ToOptions (W := W) (Some cfg) = Ok o ->
  Enabled cfg = true /\ ServerAddr cfg <> "" /\ RegistryKey cfg <> "" /\
  ExecutorPort cfg <> "" /\ o = copied cfg.
Proof.
  unfold ToOptions, Config_Validate, executorOptions_Validate.
  destruct (Enabled cfg); simpl; [|done].
  destruct (String.eqb_spec (ServerAddr cfg) "") as [|E1]; [done|].
  destruct (String.eqb_spec (RegistryKey cfg) "") as [|E2]; [done|].
  destruct (String.eqb_spec (ExecutorPort cfg) "") as [|E3]; [done|].
  by intros [= <-].
Qed.

Lemma NewFromConfig_builder mkdirAll cfg :
  Enabled cfg = true ->
  NewFromConfig (W := W) mkdirAll (Some cfg)
  = ExecutorBuilder_Build mkdirAll (copied (W := W) cfg).
Proof.
  intros En. unfold NewFromConfig, copied. rewrite En. cbn [negb].
  destruct (String.eqb_spec (AccessToken cfg) "") as [->|Ha];
    destruct (String.eqb_spec (ExecutorIP cfg) "") as [->|Hi];
    reflexivity.
Qed.

Lemma Build_copied mkdirAll cfg :
  ServerAddr cfg <> "" -> RegistryKey cfg <> "" -> ExecutorPort cfg <> "" ->
  ExecutorBuilder_Build (W := W) mkdirAll (copied (W := W) cfg)
  = NewExecutorWithOptions mkdirAll (Some (copied (W := W) cfg)) /\
  exists c : created (W := W),
    NewExecutorWithOptions mkdirAll (Some (copied (W := W) cfg)) = Ok c /\
    Runtime.running (impl c) = false /\
    Runtime.registry (impl c) = ∅ /\
    Runtime.middlewares (Runtime.opts (impl c)) = [].
Proof.
  intros E1 E2 E3.
  assert (Hv : executorOptions_Validate (copied (W := W) cfg) = None).
  { unfold executorOptions_Validate, copied. cbn [serverAddr registryKey executorPort].
    destruct (String.eqb_spec (ServerAddr cfg) ""); [done|].
    destruct (String.eqb_spec (RegistryKey cfg) ""); [done|].
    by destruct (String.eqb_spec (ExecutorPort cfg) ""). }
  unfold ExecutorBuilder_Build, OptionsBuilder.Build, NewExecutorWithOptions.
  rewrite Hv. cbv beta iota. rewrite Hv. split; [done|].
  destruct (if negb (String.eqb (logPath (copied (W := W) cfg)) "") then _ else _)
    as [handler sweep].
  by eexists.
Qed.

(** X28: for a configuration ToOptions accepts, NewFromConfig creates the
    executor from the same options: its chain of builder calls sets what
    ToOptions copies, the access token and the executor IP included, and
    the validations of the builder and of NewExecutorWithOptions pass.  The
    executor is created, is not running and has no tasks. *)
Theorem NewFromConfig_ToOptions mkdirAll cfg o :
  ToOptions (W := W) (Some cfg) = Ok o ->
  Enabled cfg = true /\
  o = {| serverAddr := ServerAddr cfg; accessToken := AccessToken cfg;
         executorIP := ExecutorIP cfg; executorPort := ExecutorPort cfg;
         registryKey := RegistryKey cfg; logPath := LogPath cfg;
         logRetentionDays := LogRetentionDays cfg;
         enableTrace := EnableTrace cfg; quietMode := QuietMode cfg;
         middlewares := [] |} /\
  NewFromConfig mkdirAll (Some cfg) = NewExecutorWithOptions mkdirAll (Some o) /\
  exists c : created (W := W),
    NewFromConfig mkdirAll (Some cfg) = Ok c /\
    Runtime.running (impl c) = false /\
    Runtime.registry (impl c) = ∅ /\
    Runtime.middlewares (Runtime.opts (impl c)) = [].
Proof.
  intros H. apply ToOptions_copied in H as (En & E1 & E2 & E3 & ->).
  split; [done|]. split; [done|].
  rewrite (NewFromConfig_builder mkdirAll cfg En).
  destruct (Build_copied mkdirAll cfg E1 E2 E3) as (-> & c & Hc).
  split; [done|]. by exists c.
Qed.

(** X29: an error of NewFromConfig is ["xxl-job is not enabled"] for a
    configuration that is not enabled, and otherwise an
    ["invalid options: ..."] error of the builder, for a configuration that
    ToOptions rejects as well, though with another text. *)
Theorem NewFromConfig_rejects mkdirAll cfg e :
  NewFromConfig (W := W) mkdirAll (Some cfg) = Err e ->
  (Enabled cfg = false /\ e = errorString "xxl-job is not enabled" /\
   ToOptions (W := W) (Some cfg) = Err e) \/
  (Enabled cfg = true /\
   exists inner err,
     e = wrapError "invalid options: " inner /\
     ToOptions (W := W) (Some cfg) = Err err /\
     ((ServerAddr cfg = "" /\
       inner = errorString "server address is required" /\
       err = errorString "xxl-job server_addr is required") \/
      (RegistryKey cfg = "" /\
       inner = errorString "registry key is required" /\
       err = errorString "xxl-job registry_key is required") \/
      (ExecutorPort cfg = "" /\
       inner = errorString "executor port is required" /\
       err = errorString "xxl-job executor_port is required"))).
Proof.
  destruct (Enabled cfg) eqn:En.
  - rewrite (NewFromConfig_builder mkdirAll cfg En).
    intros H. right. split; [done|]. revert H.
    unfold ToOptions, Config_Validate. rewrite En. cbn [negb].
    destruct (String.eqb_spec (ServerAddr cfg) "") as [E1|E1].
    { unfold ExecutorBuilder_Build, OptionsBuilder.Build,
        executorOptions_Validate, copied. cbn [serverAddr]. rewrite E1.
      intros [= <-]. do 2 eexists. split; [reflexivity|].
      split; [reflexivity|]. by left. }
    destruct (String.eqb_spec (RegistryKey cfg) "") as [E2|E2].
    { unfold ExecutorBuilder_Build, OptionsBuilder.Build,
        executorOptions_Validate, copied. cbn [serverAddr registryKey].
      rewrite E2. destruct (String.eqb_spec (ServerAddr cfg) ""); [done|].
      intros [= <-]. do 2 eexists. split; [reflexivity|].
      split; [reflexivity|]. right. by left. }
    destruct (String.eqb_spec (ExecutorPort cfg) "") as [E3|E3].
    { unfold ExecutorBuilder_Build, OptionsBuilder.Build,
        executorOptions_Validate, copied.
      cbn [serverAddr registryKey executorPort].
      rewrite E3. destruct (String.eqb_spec (ServerAddr cfg) ""); [done|].
      destruct (String.eqb_spec (RegistryKey cfg) ""); [done|].
      intros [= <-]. do 2 eexists. split; [reflexivity|].
      split; [reflexivity|]. right. by right. }
    destruct (Build_copied mkdirAll cfg E1 E2 E3) as (-> & c & -> & _).
    done.
  - unfold NewFromConfig, ToOptions, Config_Validate. rewrite En. cbn [negb].
    intros [= <-]. by left.
Qed.

End World.

Lemma ToOptions_never_invalid_witness :
  Config_Validate (Some MoreInputs.noServerConfig)
  = Some (errorString "xxl-job server_addr is required") \/
  (exists cfg, Some MoreInputs.noServerConfig = Some cfg /\
     Enabled cfg = false /\
     Config_Validate (Some MoreInputs.noServerConfig) = None /\
     errorString "xxl-job server_addr is required"
     = errorString "xxl-job is not enabled").
Proof.
  apply (ToOptions_never_invalid (W := unit) (Some MoreInputs.noServerConfig)).
  reflexivity.
Defined.

Lemma NewFromConfig_ToOptions_witness :
  NewFromConfig (W := unit) (fun _ => None) (Some MoreInputs.goodConfig)
  = NewExecutorWithOptions (fun _ => None)
      (Some {| serverAddr := "http://admin:8080/xxl-job-admin";
               accessToken := ""; executorIP := ""; executorPort := "9999";
               registryKey := "demo-app"; logPath := "logs";
               logRetentionDays := 30; enableTrace := true;
               quietMode := false; middlewares := [] |}).
Proof.
  destruct (NewFromConfig_ToOptions (W := unit) (fun _ => None)
              MoreInputs.goodConfig
              {| serverAddr := "http://admin:8080/xxl-job-admin";
                 accessToken := ""; executorIP := ""; executorPort := "9999";
                 registryKey := "demo-app"; logPath := "logs";
                 logRetentionDays := 30; enableTrace := true;
                 quietMode := false; middlewares := [] |} eq_refl)
    as (_ & _ & H & _).
  exact H.
Defined.

Lemma NewFromConfig_rejects_witness :
  exists inner err,
    wrapError "invalid options: " (errorString "server address is required")
    = wrapError "invalid options: " inner /\
    ToOptions (W := unit) (Some MoreInputs.noServerConfig) = Err err.
Proof.
  destruct (NewFromConfig_rejects (W := unit) (fun _ => None)
              MoreInputs.noServerConfig
              (wrapError "invalid options: "
                 (errorString "server address is required")) eq_refl)
    as [(H & _)|(_ & inner & err & H1 & H2 & _)]; [discriminate H|].
  exists inner, err. by split.
Defined.

End OptionsFacts.

